(** * Monte_Carlo_simulation_csv.py: a shallow embedding and its properties

    The program estimates drift and volatility from a series of opening
    prices, simulates geometric-Brownian-motion price paths with numpy and
    aggregates the terminal values of several stocks into a portfolio grid.

    Numbers.  A numpy float64 is modelled by [npfloat]: a real number, one of
    the two infinities, or NaN.  Arithmetic on finite values is exact real
    arithmetic (rounding, overflow, underflow and the sign of zero are outside
    the model); the IEEE rules for the special values (0/0, log of a
    non-positive number, inf - inf, ...) are written out, because the program
    reaches them on degenerate inputs.

    Arrays.  A 1-D array is a [list npfloat], a 2-D array of shape
    (days, trials) is a list of [days] rows of length [trials].

    Effects.  The global numpy generator is an explicit state that is threaded
    through the calls; a Python exception is an error result (IndexError from
    an index out of range, ZeroDivisionError from a division of two Python
    floats; numpy divisions only warn).  matplotlib calls compute nothing
    the program uses: they are left out (plot_stock_price_paths walks the
    columns by the module-level [trials], which the script passes as the
    argument), together with the exceptions that matplotlib raises on the
    data it is given (a histogram of values that are all NaN, a pie chart
    with more weights than labels); the arrays a function hands to them are
    kept in the record of its local variables.  Reading the CSV files is left out as well: a stock file
    stands for the list of opening prices that load_stock_data returns for
    it.  load_stock_data and plot_stock_price_paths are modelled on their
    own, the first on the rows that csv.DictReader yields, the second as the
    columns it reads. *)

From Stdlib Require Import Reals Lra Lia.
From stdpp Require Import base list strings gmap.
From Stdlib Require Import Ascii.

Local Open Scope R_scope.

(** ** numpy float64 values *)

Inductive npfloat : Type :=
  | Fin (r : R)
  | PInf
  | NInf
  | NaN.

Module NpFloat.

(** Sign of a real: [Gt] positive, [Lt] negative, [Eq] zero. *)
Definition Rsign (r : R) : comparison :=
  if Rlt_dec 0 r then Gt else if Rlt_dec r 0 then Lt else Eq.

(** Sign of a float; NaN has none. *)
Definition sign (x : npfloat) : option comparison :=
  match x with
  | Fin r => Some (Rsign r)
  | PInf => Some Gt
  | NInf => Some Lt
  | NaN => None
  end.

Definition sign_mul (a b : comparison) : comparison :=
  match a, b with
  | Eq, _ | _, Eq => Eq
  | Gt, Gt | Lt, Lt => Gt
  | Gt, Lt | Lt, Gt => Lt
  end.

(** The infinity of a given sign; a zero sign stands for 0 * inf = NaN. *)
Definition signed_inf (c : comparison) : npfloat :=
  match c with Gt => PInf | Lt => NInf | Eq => NaN end.

Definition fopp (x : npfloat) : npfloat :=
  match x with
  | Fin r => Fin (- r)
  | PInf => NInf
  | NInf => PInf
  | NaN => NaN
  end.

Definition fadd (x y : npfloat) : npfloat :=
  match x, y with
  | NaN, _ | _, NaN => NaN
  | Fin a, Fin b => Fin (a + b)
  | PInf, NInf | NInf, PInf => NaN
  | PInf, _ | _, PInf => PInf
  | NInf, _ | _, NInf => NInf
  end.

Definition fsub (x y : npfloat) : npfloat := fadd x (fopp y).

(** The product; on two finite floats, the exact product (rounding,
    underflow to 0 and overflow to inf are outside the model). *)
Definition fmul (x y : npfloat) : npfloat :=
  match x, y with
  | NaN, _ | _, NaN => NaN
  | Fin a, Fin b => Fin (a * b)
  | _, _ =>
      match sign x, sign y with
      | Some a, Some b => signed_inf (sign_mul a b)
      | _, _ => NaN
      end
  end.

(** Division: x/0 is an infinity of the sign of x (the zero is taken to be
    +0), 0/0 and inf/inf are NaN, finite/inf is 0. *)
Definition fdiv (x y : npfloat) : npfloat :=
  match x, y with
  | NaN, _ | _, NaN => NaN
  | Fin a, Fin b =>
      if Req_dec_T b 0 then signed_inf (Rsign a) else Fin (a / b)
  | Fin _, _ => Fin 0
  | _, Fin b =>
      match sign x with
      | Some s => signed_inf (sign_mul s (if Rlt_dec b 0 then Lt else Gt))
      | None => NaN
      end
  | _, _ => NaN
  end.

(** np.exp; on a finite float, the exact exponential (underflow to 0 and
    overflow to inf are outside the model). *)
Definition fexp (x : npfloat) : npfloat :=
  match x with
  | Fin r => Fin (exp r)
  | PInf => PInf
  | NInf => Fin 0
  | NaN => NaN
  end.

(** np.log: -inf at 0, NaN below 0. *)
Definition flog (x : npfloat) : npfloat :=
  match x with
  | Fin r =>
      if Rlt_dec 0 r then Fin (ln r)
      else if Rlt_dec r 0 then NaN else NInf
  | PInf => PInf
  | NInf => NaN
  | NaN => NaN
  end.

(** np.sqrt: NaN below 0. *)
Definition fsqrt (x : npfloat) : npfloat :=
  match x with
  | Fin r => if Rlt_dec r 0 then NaN else Fin (sqrt r)
  | PInf => PInf
  | NInf => NaN
  | NaN => NaN
  end.

Definition is_finite (x : npfloat) : Prop :=
  match x with Fin _ => True | _ => False end.

(** [not (x < 0)]: a finite number that is not below zero, +inf, or NaN
    (which compares false with everything). *)
Definition not_negative (x : npfloat) : Prop :=
  match x with
  | Fin r => 0 <= r
  | PInf => True
  | NInf => False
  | NaN => True
  end.

End NpFloat.
Export NpFloat.

(** ** numpy arrays *)

(** A 1-D array and a 2-D array (a list of rows). *)
Abbreviation array1 := (list npfloat).
Abbreviation array2 := (list (list npfloat)).

Module Np.

(** np.zeros((days, trials)) *)
Definition zeros (days trials : nat) : array2 :=
  replicate days (replicate trials (Fin 0)).

(** Sum of a 1-D array, accumulated from 0. *)
Definition sum (xs : array1) : npfloat := foldl fadd (Fin 0) xs.

(** ndarray.mean / np.mean: the sum divided by the element count; on an
    empty array this is 0/0 = NaN (numpy only warns). *)
Definition mean (xs : array1) : npfloat :=
  fdiv (sum xs) (Fin (INR (length xs))).

(** ndarray.var with the default ddof = 0: the mean of the squared
    deviations from the mean. *)
Definition var (xs : array1) : npfloat :=
  let m := mean xs in
  mean (map (fun x => fmul (fsub x m) (fsub x m)) xs).

(** ndarray.std: the square root of [var]. *)
Definition std (xs : array1) : npfloat := fsqrt (var xs).

(** Row [i] of a 2-D array, for an index known to be in range. *)
Definition row (m : array2) (i : nat) : array1 := default [] (m !! i).

(** Entry [t][k], when it exists. *)
Definition get (m : array2) (t k : nat) : option npfloat :=
  m !! t ≫= (fun r => r !! k).

(** [m += v] with a 1-D [v]: numpy broadcasts [v] over every row. *)
Definition iadd_broadcast (m : array2) (v : array1) : array2 :=
  map (fun r => zip_with fadd r v) m.

End Np.

(** ** The random generator and Python exceptions *)

(** The state of numpy's global generator: the stream of uniform draws it
    will deliver (floats in [0,1)) and the number of draws already
    consumed. *)
Record rng : Type := mkRng { draws : nat -> R; pos : nat }.

Inductive exn : Type :=
  | IndexError
  | ZeroDivisionError.

Inductive outcome (A : Type) : Type :=
  | Ok (a : A) (g : rng)
  | Raise (e : exn).
Arguments Ok {A} a g.
Arguments Raise {A} e.

(** Computations that read the generator and may raise. *)
Definition M (A : Type) : Type := rng -> outcome A.

Definition ret {A} (a : A) : M A := fun g => Ok a g.

Definition raise {A} (e : exn) : M A := fun _ => Raise e.

Definition bind {A B} (c : M A) (k : A -> M B) : M B :=
  fun g => match c g with
           | Ok a g' => k a g'
           | Raise e => Raise e
           end.

Notation "x <- c ;; k" := (bind c (fun x => k))
  (at level 62, c at next level, right associativity).

(** The (days, trials) array that the next days*trials draws fill in
    row-major order. *)
Definition rand_block (g : rng) (days trials : nat) : array2 :=
  map (fun t =>
         map (fun k => Fin (draws g (pos g + t * trials + k)%nat))
             (seq 0 trials))
      (seq 0 days).

(** The generator after [n] more draws. *)
Definition advance (g : rng) (n : nat) : rng :=
  mkRng (draws g) (pos g + n)%nat.

(** np.random.rand(days, trials) *)
Definition np_random_rand (days trials : nat) : M array2 :=
  fun g => Ok (rand_block g days trials) (advance g (days * trials)).

(** [xs[-1]] on a Python list or on the first axis of an array. *)
Definition py_last {A} (xs : list A) : M A :=
  match last xs with
  | Some x => ret x
  | None => raise IndexError
  end.

(** [xs[i]] for a non-negative index. *)
Definition py_index {A} (xs : list A) (i : nat) : M A :=
  match xs !! i with
  | Some x => ret x
  | None => raise IndexError
  end.

(** [x / y] on two Python floats: a zero divisor raises, every other case
    follows IEEE. *)
Definition py_truediv (x y : npfloat) : M npfloat :=
  match y with
  | Fin b => if Req_dec_T b 0 then raise ZeroDivisionError else ret (fdiv x y)
  | _ => ret (fdiv x y)
  end.

(** [m[0] = x] with a scalar [x]: every entry of row 0 becomes [x]. *)
Definition np_setrow0 (m : array2) (x : npfloat) : M array2 :=
  match m with
  | [] => raise IndexError
  | r :: rest => ret (replicate (length r) x :: rest)
  end.

(** ** The program *)

(** calculate_log_returns: np.log(np.array(opens[1:]) / np.array(opens[:-1])).
    Both slices have length [length opens - 1] (0 for an empty list). *)
Definition calculate_log_returns (opens : list npfloat) : array1 :=
  map flog (zip_with fdiv (tail opens) (removelast opens)).

(** The four statistics at the head of monte_carlo_simulation_single_stock. *)
Record statistics : Type := mkStatistics {
  u : npfloat;
  var : npfloat;
  drift : npfloat;
  stdev : npfloat
}.

Definition return_statistics (log_returns : array1) : statistics :=
  let u := Np.mean log_returns in
  let var := Np.var log_returns in
  let drift := fsub u (fmul (Fin (1 / 2)) var) in
  let stdev := Np.std log_returns in
  mkStatistics u var drift stdev.

(** The local variables of monte_carlo_simulation_single_stock when it
    returns; the Python return value is the pair
    (portfolio_values, individual_stock_returns), and price_paths is what
    the function hands to the plot. *)
Record single_stock : Type := mkSingleStock {
  Z : array2;
  daily_returns : array2;
  price_paths : array2;
  final_prices : array1;
  portfolio_values : array1;
  individual_stock_returns : array1
}.

(** The local variables of monte_carlo_simulation_portfolio at its end (the
    function itself only plots them). *)
Record portfolio : Type := mkPortfolio {
  grid : array2;                       (* portfolio_values *)
  portfolio_returns : array1;
  final_portfolio_values : array1
}.

Section Simulation.

(** The quantile function of the standard normal distribution on the open
    interval (0,1); scipy provides it. *)
Variable probit : R -> R.

(** scipy.stats.norm.ppf on one float: -inf at 0, +inf at 1, NaN outside
    [0,1]. *)
Definition norm_ppf (q : npfloat) : npfloat :=
  match q with
  | Fin p =>
      if Req_dec_T p 0 then NInf
      else if Req_dec_T p 1 then PInf
      else if Rlt_dec 0 p then
             if Rlt_dec p 1 then Fin (probit p) else NaN
           else NaN
  | _ => NaN
  end.

(** np.exp(drift + stdev * Z), elementwise. *)
Definition simulate_daily_returns (drift stdev : npfloat) (Z : array2)
  : array2 :=
  map (map (fun z => fexp (fadd drift (fmul stdev z)))) Z.

(** One turn of the loop: price_paths[t] = price_paths[t-1] * daily_returns[t].
    Both reads are in range, as t runs over range(1, days) and both arrays
    have [days] rows. *)
Definition price_step (daily_returns : array2) (price_paths : array2)
    (t : nat) : array2 :=
  <[t := zip_with fmul (Np.row price_paths (t - 1))
                       (Np.row daily_returns t)]> price_paths.

(** for t in range(1, days): ... *)
Definition price_loop (days : nat) (daily_returns price_paths : array2)
  : array2 :=
  foldl (price_step daily_returns) price_paths (seq 1 (days - 1)).

Definition monte_carlo_simulation_single_stock (trials days : nat)
    (log_returns : array1) (current_price initial_investment : npfloat)
  : M single_stock :=
  let st := return_statistics log_returns in
  U <- np_random_rand days trials ;;
  let Z := map (map norm_ppf) U in
  let daily_returns := simulate_daily_returns (drift st) (stdev st) Z in
  price_paths0 <- np_setrow0 (Np.zeros days trials) current_price ;;
  let price_paths := price_loop days daily_returns price_paths0 in
  final_prices <- py_last price_paths ;;
  scale <- py_truediv initial_investment current_price ;;
  let portfolio_values := map (fun p => fmul p scale) final_prices in
  let individual_stock_returns :=
    map (fun p => fmul (fdiv (fsub p current_price) current_price) (Fin 100))
        final_prices in
  ret (mkSingleStock Z daily_returns price_paths final_prices
         portfolio_values individual_stock_returns).

(** The body of [for i, stock_file in enumerate(stock_files)].  A stock
    file is represented by the list of opening prices that load_stock_data
    returns for it; [acc] holds portfolio_values and portfolio_returns. *)
Fixpoint portfolio_loop (weights : list npfloat) (trials days : nat)
    (initial_investment : npfloat) (i : nat)
    (stock_files : list (list npfloat)) (acc : array2 * array1)
  : M (array2 * array1) :=
  match stock_files with
  | [] => ret acc
  | opens :: rest =>
      let log_returns := calculate_log_returns opens in
      current_price <- py_last opens ;;
      w <- py_index weights i ;;
      s <- monte_carlo_simulation_single_stock trials days log_returns
                current_price (fmul initial_investment w) ;;
      let portfolio_values :=
        Np.iadd_broadcast (fst acc) (portfolio_values s) in
      let average_stock_return := Np.mean (individual_stock_returns s) in
      portfolio_loop weights trials days initial_investment (S i) rest
        (portfolio_values, snd acc ++ [average_stock_return])
  end.

(** monte_carlo_simulation_portfolio: what the function computes.  Its plot
    calls (plt.hist, plt.pie, plt.bar and the plotting functions of the
    file) are not modelled, so an exception that matplotlib raises on the
    values handed to it is outside this definition. *)
Definition monte_carlo_simulation_portfolio
    (stock_files : list (list npfloat)) (weights : list npfloat)
    (trials days : nat) (initial_investment : npfloat) : M portfolio :=
  acc <- portfolio_loop weights trials days initial_investment 0
              stock_files (Np.zeros days trials, []) ;;
  final_portfolio_values <- py_last (fst acc) ;;
  ret (mkPortfolio (fst acc) (snd acc) final_portfolio_values).

End Simulation.

(** ** Real-valued sums and the statistics of the specification *)

(** The sum of a list of reals. *)
Definition Rsum (rs : list R) : R := foldr Rplus 0 rs.

(** The arithmetic mean of a sample. *)
Definition sample_mean (rs : list R) : R := Rsum rs / INR (length rs).

(** The population variance of a sample: the squared deviations from the
    mean, summed and divided by the number of samples. *)
Definition population_variance (rs : list R) : R :=
  Rsum (map (fun r => (r - sample_mean rs) * (r - sample_mean rs)) rs)
  / INR (length rs).

(** ** A view on the portfolio loop *)

(** What one turn of the portfolio loop works with: the stock's current
    price opens[-1], its weight weights[i], and the local variables of its
    call of monte_carlo_simulation_single_stock. *)
Record stock_run : Type := mkStockRun {
  sr_price : npfloat;
  sr_weight : npfloat;
  sr_locals : single_stock
}.

(** The turns of the portfolio loop, in order: the same reads and the same
    calls as [portfolio_loop], collecting what each turn computes instead of
    accumulating it. *)
Fixpoint simulate_stocks (probit : R -> R) (weights : list npfloat)
    (trials days : nat) (initial_investment : npfloat) (i : nat)
    (stock_files : list (list npfloat)) : M (list stock_run) :=
  match stock_files with
  | [] => ret []
  | opens :: rest =>
      current_price <- py_last opens ;;
      w <- py_index weights i ;;
      s <- monte_carlo_simulation_single_stock probit trials days
             (calculate_log_returns opens) current_price
             (fmul initial_investment w) ;;
      rs <- simulate_stocks probit weights trials days initial_investment
              (S i) rest ;;
      ret (mkStockRun current_price w s :: rs)
  end.

(** The value in trial [k] of the position in the stock of turn [r] on day
    [t]: Path[t][k] * (allocation / current price), the allocation being
    initial_investment * weight. *)
Definition position_value (t : nat) (initial_investment : npfloat)
    (r : stock_run) (k : nat) : npfloat :=
  fmul (default NaN (Np.get (price_paths (sr_locals r)) t k))
    (fdiv (fmul initial_investment (sr_weight r)) (sr_price r)).

(** The terminal value of the position: its value on the last day. *)
Definition terminal_value (days : nat) (initial_investment : npfloat)
    (r : stock_run) (k : nat) : npfloat :=
  position_value (days - 1) initial_investment r k.

(** A price list the loop can work with: it is not empty and its last price
    is not zero (load_stock_data skips the rows whose Open is zero). *)
Definition has_price (opens : list npfloat) : Prop :=
  opens <> [] /\ last opens <> Some (Fin 0).

(** Turn [r] is the turn of the stock file [opens] in a run that started
    from generator [g]: its price is opens[-1], not zero, and its local
    variables are those of the call of monte_carlo_simulation_single_stock,
    made at some position of the stream of [g]. *)
Definition turn_of (probit : R -> R) (trials days : nat)
    (initial_investment : npfloat) (g : rng)
    (opens : list npfloat) (r : stock_run) : Prop :=
  last opens = Some (sr_price r) /\
  sr_price r <> Fin 0 /\
  exists g0 : rng,
    draws g0 = draws g /\
    monte_carlo_simulation_single_stock probit trials days
      (calculate_log_returns opens) (sr_price r)
      (fmul initial_investment (sr_weight r)) g0
    = Ok (sr_locals r) (advance g0 (days * trials)).

(** ** The closed form of a path *)

(** Z[1][k] + ... + Z[t][k] for trial [k], read off the draws of generator
    [g]: Z[j][k] is probit of the draw at position j*trials + k. *)
Fixpoint cumulative_variate (probit : R -> R) (g : rng) (trials k t : nat)
  : R :=
  match t with
  | O => 0
  | S t' =>
      cumulative_variate probit g trials k t'
      + probit (draws g (pos g + S t' * trials + k)%nat)
  end.

(** ** Plotting the price paths *)

(** [for x in xs: ...] collecting what every turn yields; the first turn that
    raises ends the loop. *)
Fixpoint for_each {A B} (f : A -> M B) (xs : list A) : M (list B) :=
  match xs with
  | [] => ret []
  | x :: rest =>
      y <- f x ;;
      ys <- for_each f rest ;;
      ret (y :: ys)
  end.

(** [m[:, j]] on a 2-D array with at least one row (an array without rows
    does not record how many columns it has): the entries j of the rows, or
    IndexError when the rows are shorter. *)
Definition np_column (m : array2) (j : nat) : M array1 :=
  match mapM (fun r : array1 => r !! j) m with
  | Some c => ret c
  | None => raise IndexError
  end.

(** plot_stock_price_paths: one plt.plot(price_paths[:, trial]) for every
    trial in range(trials), where [trials] is the module-level variable and
    not an argument.  The result is the list of the series plotted. *)
Definition plot_stock_price_paths (module_trials : nat)
    (price_paths : array2) : M (list array1) :=
  for_each (np_column price_paths) (seq 0 module_trials).

(** ** Stock symbols *)

(** [s.split(".")]: the pieces of [s] between the dots, an empty piece
    included; the list is never empty. *)
Fixpoint py_split_dot (s : string) : list string :=
  match s with
  | EmptyString => [EmptyString]
  | String c rest =>
      if Ascii.eqb c "."%char then EmptyString :: py_split_dot rest
      else match py_split_dot rest with
           | piece :: pieces => String c piece :: pieces
           | [] => [String c EmptyString]
           end
  end.

(** stock_symbol = stock_file.split(".")[0] *)
Definition stock_symbol (stock_file : string) : M string :=
  py_index (py_split_dot stock_file) 0.

(** ** Loading the prices *)

(** A cell of a row that csv.DictReader yields: the string of the column,
    or None under a column that a short line does not reach.  (The fields a
    long line has in excess are stored under the key None, which the
    function never reads.) *)
Inductive cell : Type :=
  | Str (s : string)
  | PyNone.

(** The exceptions of load_stock_data: a missing column, a method of str
    called on None, strptime() called on None, and a string that float() or
    strptime() rejects. *)
Inductive load_exn : Type :=
  | KeyError (key : string)
  | AttributeError
  | TypeError
  | ValueError.

Inductive loaded (A : Type) : Type :=
  | Loaded (a : A)
  | LoadError (e : load_exn).
Arguments Loaded {A} a.
Arguments LoadError {A} e.

(** [x == 0] on a float: true for zero only (false for NaN). *)
Definition float_eq_zero (x : npfloat) : bool :=
  match x with
  | Fin r => if Req_dec_T r 0 then true else false
  | _ => false
  end.

(** [row[key]] on a row of csv.DictReader, a dict from column names to
    cells. *)
Definition getitem (row : gmap string cell) (key : string) : loaded cell :=
  match row !! key with
  | Some v => Loaded v
  | None => LoadError (KeyError key)
  end.

Section Loader.

(** What datetime.strptime returns. *)
Variable date : Type.

(** str.strip and str.lower. *)
Variables py_strip py_lower : string -> string.

(** float() on a string; [None] stands for ValueError. *)
Variable py_float : string -> option npfloat.

(** datetime.strptime(_, '%Y-%m-%d') on a string; [None] stands for
    ValueError. *)
Variable strptime : string -> option date.

(** The body of [for row in csv_reader], with [acc] = (dates, opens).  The
    test reads row['Open'] first and calls .strip() on it, which raises
    AttributeError on None; row['Date'] is read for a row that is kept
    only. *)
Definition load_row (acc : list date * list npfloat)
    (row : gmap string cell) : loaded (list date * list npfloat) :=
  match getitem row "Open" with
  | LoadError e => LoadError e
  | Loaded PyNone => LoadError AttributeError
  | Loaded (Str o) =>
      if decide (py_strip o = ""%string) then Loaded acc
      else if decide (py_lower o = "null"%string) then Loaded acc
      else
        match py_float o with
        | None => LoadError ValueError
        | Some open_value =>
            if float_eq_zero open_value then Loaded acc
            else
              match getitem row "Date" with
              | LoadError e => LoadError e
              | Loaded PyNone => LoadError TypeError
              | Loaded (Str d) =>
                  match strptime d with
                  | None => LoadError ValueError
                  | Some date_value =>
                      Loaded (fst acc ++ [date_value],
                              snd acc ++ [open_value])
                  end
              end
        end
  end.

Fixpoint load_rows (rows : list (gmap string cell))
    (acc : list date * list npfloat) : loaded (list date * list npfloat) :=
  match rows with
  | [] => Loaded acc
  | row :: rest =>
      match load_row acc row with
      | Loaded acc' => load_rows rest acc'
      | LoadError e => LoadError e
      end
  end.

(** load_stock_data, on the rows that csv.DictReader reads from the file. *)
Definition load_stock_data (rows : list (gmap string cell))
  : loaded (list date * list npfloat) :=
  load_rows rows ([], []).

(** The opening price that a row contributes, if it is kept. *)
Definition kept_open (row : gmap string cell) : option npfloat :=
  match row !! "Open"%string with
  | Some (Str o) =>
      if decide (py_strip o = ""%string) then None
      else if decide (py_lower o = "null"%string) then None
      else match py_float o with
           | Some x => if float_eq_zero x then None else Some x
           | None => None
           end
  | _ => None
  end.

End Loader.

(** ** A small file for the examples *)

(** str.strip and str.lower on the strings of the example file, which hold
    no white space and no capital letter. *)
Definition example_strip (s : string) : string := s.
Definition example_lower (s : string) : string := s.

(** float() on the strings of the example file. *)
Definition example_float (s : string) : option npfloat :=
  if decide (s = "12.5"%string) then Some (Fin (25 / 2))
  else if decide (s = "13"%string) then Some (Fin 13)
  else if decide (s = "0"%string) then Some (Fin 0)
  else None.

(** strptime on the strings of the example file: the dates are kept as they
    are written, the empty string is rejected. *)
Definition example_strptime (s : string) : option string :=
  if decide (s = ""%string) then None else Some s.

(** A row of a file with the columns Date and Open. *)
Definition example_row (d o : cell) : gmap string cell :=
  <["Date"%string := d]> {["Open"%string := o]}.

(** Four rows: a price, a line of empty fields, a zero price, a price. *)
Definition example_rows : list (gmap string cell) :=
  [ example_row (Str "2023-09-05") (Str "12.5");
    example_row (Str "") (Str "");
    example_row (Str "2023-09-07") (Str "0");
    example_row (Str "2023-09-08") (Str "13") ].

(** ** Arithmetic on finite floats *)

Section FloatFacts.

Lemma fdiv_Fin (a b : R) : b <> 0 -> fdiv (Fin a) (Fin b) = Fin (a / b).
Proof.
  intros Hb. unfold fdiv.
  destruct (Req_dec_T b 0) as [E|_]; [contradiction|reflexivity].
Qed.

Lemma fdiv_zero_zero : fdiv (Fin 0) (Fin 0) = NaN.
Proof.
  unfold fdiv. destruct (Req_dec_T 0 0) as [_|N]; [|contradiction].
  unfold Rsign.
  destruct (Rlt_dec 0 0) as [H|_]; [lra|reflexivity].
Qed.

Lemma Fin_nonzero (r : R) : r <> 0 -> Fin r <> Fin 0.
Proof. intros Hr E. injection E as E. contradiction. Qed.

Lemma flog_Fin (a : R) : 0 < a -> flog (Fin a) = Fin (ln a).
Proof.
  intros Ha. unfold flog.
  destruct (Rlt_dec 0 a); [reflexivity|contradiction].
Qed.

Lemma fsqrt_Fin (a : R) : 0 <= a -> fsqrt (Fin a) = Fin (sqrt a).
Proof.
  intros Ha. unfold fsqrt.
  destruct (Rlt_dec a 0); [lra|reflexivity].
Qed.

Lemma foldl_fadd_Fin (rs : list R) (a : R) :
  foldl fadd (Fin a) (map Fin rs) = Fin (a + Rsum rs).
Proof.
  revert a. induction rs as [|r rs IH]; intros a; simpl.
  - f_equal; lra.
  - rewrite IH. f_equal; lra.
Qed.

Lemma sum_Fin (rs : list R) : Np.sum (map Fin rs) = Fin (Rsum rs).
Proof.
  unfold Np.sum. rewrite foldl_fadd_Fin. f_equal; lra.
Qed.

Lemma INR_length_nonzero {A} (l : list A) : l <> [] -> INR (length l) <> 0.
Proof.
  intros Hl. apply not_0_INR. destruct l; [contradiction|discriminate].
Qed.

Lemma INR_length_pos {A} (l : list A) : l <> [] -> 0 < INR (length l).
Proof.
  intros Hl. apply lt_0_INR. destruct l; [contradiction|simpl; lia].
Qed.

Lemma mean_Fin (rs : list R) :
  rs <> [] -> Np.mean (map Fin rs) = Fin (sample_mean rs).
Proof.
  intros Hrs. unfold Np.mean, sample_mean.
  rewrite sum_Fin, length_map.
  apply fdiv_Fin, INR_length_nonzero, Hrs.
Qed.

Lemma mean_empty : Np.mean [] = NaN.
Proof. unfold Np.mean. simpl. apply fdiv_zero_zero. Qed.

Lemma var_Fin (rs : list R) :
  rs <> [] -> Np.var (map Fin rs) = Fin (population_variance rs).
Proof.
  intros Hrs. unfold Np.var. rewrite (mean_Fin rs Hrs).
  rewrite map_map.
  replace (map _ rs) with
    (map Fin (map (fun r => (r - sample_mean rs) * (r - sample_mean rs)) rs)).
  - rewrite mean_Fin.
    + unfold population_variance, sample_mean at 1.
      now rewrite length_map.
    + destruct rs; [contradiction|discriminate].
  - rewrite map_map. apply map_ext. intros r. simpl.
    f_equal; lra.
Qed.

Lemma Rsum_squares_nonneg (c : R) (rs : list R) :
  0 <= Rsum (map (fun r => (r - c) * (r - c)) rs).
Proof.
  induction rs as [|r rs IH]; simpl; [lra|].
  pose proof (Rle_0_sqr (r - c)) as Hsq. unfold Rsqr in Hsq. lra.
Qed.

Lemma population_variance_nonneg (rs : list R) :
  rs <> [] -> 0 <= population_variance rs.
Proof.
  intros Hrs. unfold population_variance.
  apply Rmult_le_pos.
  - apply Rsum_squares_nonneg.
  - left. apply Rinv_0_lt_compat, INR_length_pos, Hrs.
Qed.

Lemma std_Fin (rs : list R) :
  rs <> [] -> Np.std (map Fin rs) = Fin (sqrt (population_variance rs)).
Proof.
  intros Hrs. unfold Np.std. rewrite (var_Fin rs Hrs).
  apply fsqrt_Fin, population_variance_nonneg, Hrs.
Qed.

End FloatFacts.

(** Closes [Forall has_price l] for a list of price lists given in full, each
    ending in a finite numeral. *)
Ltac has_price_tac :=
  split; [discriminate | cbn; intros E; injection E as E; lra].
Ltac prices_ok := repeat (constructor; [has_price_tac|]); constructor.

(** ** Lists and arrays *)

Section ArrayFacts.

Lemma lookup_map {A B} (f : A -> B) (l : list A) (i : nat) :
  map f l !! i = f <$> (l !! i).
Proof. exact (list_lookup_fmap f l i). Qed.

Lemma tail_map {A B} (f : A -> B) (l : list A) :
  tail (map f l) = map f (tail l).
Proof. destruct l; reflexivity. Qed.

Lemma removelast_map {A B} (f : A -> B) (l : list A) :
  removelast (map f l) = map f (removelast l).
Proof.
  induction l as [|x [|y l] IH]; try reflexivity.
  change (f x :: removelast (map f (y :: l)) = f x :: map f (removelast (y :: l))).
  now rewrite IH.
Qed.

Lemma length_removelast {A} (l : list A) :
  length (removelast l) = (length l - 1)%nat.
Proof.
  induction l as [|x [|y l] IH]; try reflexivity.
  change (S (length (removelast (y :: l))) = (length (x :: y :: l) - 1)%nat).
  rewrite IH. simpl. lia.
Qed.

Lemma lookup_removelast {A} (l : list A) (i : nat) :
  (S i < length l)%nat -> removelast l !! i = l !! i.
Proof.
  revert i. induction l as [|x [|y l] IH]; intros i Hi.
  - simpl in Hi. lia.
  - simpl in Hi. lia.
  - destruct i as [|i]; [reflexivity|].
    change (removelast (y :: l) !! i = (y :: l) !! i).
    apply IH. simpl in *. lia.
Qed.

Lemma map_replicate {A B} (f : A -> B) (n : nat) (x : A) :
  map f (replicate n x) = replicate n (f x).
Proof. induction n as [|n IH]; [reflexivity|]. simpl. now rewrite IH. Qed.


Lemma Forall_tail {A} (P : A -> Prop) (l : list A) :
  Forall P l -> Forall P (tail l).
Proof. intros H. destruct H; [constructor|assumption]. Qed.

Lemma Forall_removelast {A} (P : A -> Prop) (l : list A) :
  Forall P l -> Forall P (removelast l).
Proof.
  induction 1 as [|x l Hx Hl IH]; [constructor|].
  destruct l as [|y l]; [constructor|].
  change (Forall P (x :: removelast (y :: l))). now constructor.
Qed.

End ArrayFacts.

(** ** Return estimation *)

Section ReturnEstimation.

(** On positive prices the log returns are finite: the logarithms of the
    ratios of consecutive prices. *)
Lemma log_ratio_Fin (ps qs : list R) :
  Forall (fun p => 0 < p) ps -> Forall (fun q => 0 < q) qs ->
  map flog (zip_with fdiv (map Fin ps) (map Fin qs))
  = map Fin (zip_with (fun p q => ln (p / q)) ps qs).
Proof.
  intros Hps. revert qs.
  induction Hps as [|p ps Hp Hps IH]; intros qs Hqs; [reflexivity|].
  destruct Hqs as [|q qs Hq Hqs]; [reflexivity|].
  cbn [map zip_with]. rewrite IH by assumption.
  rewrite fdiv_Fin by lra.
  rewrite flog_Fin by (apply Rdiv_lt_0_compat; assumption).
  reflexivity.
Qed.

Lemma calculate_log_returns_Fin (prices : list R) :
  Forall (fun p => 0 < p) prices ->
  calculate_log_returns (map Fin prices)
  = map Fin (zip_with (fun p q => ln (p / q))
               (tail prices) (removelast prices)).
Proof.
  intros Hpos. unfold calculate_log_returns.
  rewrite tail_map, removelast_map.
  apply log_ratio_Fin; [apply Forall_tail | apply Forall_removelast];
    assumption.
Qed.


Lemma return_statistics_Fin (rs : list R) :
  rs <> [] ->
  return_statistics (map Fin rs)
  = mkStatistics (Fin (sample_mean rs)) (Fin (population_variance rs))
      (Fin (sample_mean rs - 1 / 2 * population_variance rs))
      (Fin (sqrt (population_variance rs))).
Proof.
  intros Hrs. unfold return_statistics.
  rewrite (mean_Fin rs Hrs), (var_Fin rs Hrs), (std_Fin rs Hrs).
  simpl. reflexivity.
Qed.

Lemma return_statistics_empty :
  return_statistics [] = mkStatistics NaN NaN NaN NaN.
Proof.
  unfold return_statistics, Np.std, Np.var. simpl.
  rewrite mean_empty. reflexivity.
Qed.

(** C3. For N >= 2 positive prices, calculate_log_returns yields exactly
    N-1 samples, sample t being ln(price[t+1] / price[t]); the variance the
    simulation uses is the population variance of these samples (the squared
    deviations are divided by N-1, the number of samples), stdev is its
    square root and drift is mean - 0.5 * variance. *)
Theorem C3_return_estimation (prices : list R) :
  Forall (fun p => 0 < p) prices ->
  (2 <= length prices)%nat ->
  exists rs : list R,
    calculate_log_returns (map Fin prices) = map Fin rs /\
    length rs = (length prices - 1)%nat /\
    (forall (t : nat) (p q : R),
        prices !! t = Some q -> prices !! S t = Some p ->
        rs !! t = Some (ln (p / q))) /\
    return_statistics (map Fin rs)
    = mkStatistics (Fin (sample_mean rs)) (Fin (population_variance rs))
        (Fin (sample_mean rs - 1 / 2 * population_variance rs))
        (Fin (sqrt (population_variance rs))) /\
    population_variance rs
    = Rsum (map (fun r => (r - sample_mean rs) * (r - sample_mean rs)) rs)
      / INR (length prices - 1).
Proof.
  intros Hpos Hlen.
  set (rs := zip_with (fun p q => ln (p / q))
               (tail prices) (removelast prices)).
  assert (Hrs_len : length rs = (length prices - 1)%nat).
  { unfold rs.
    rewrite length_zip_with, length_tl, length_removelast. lia. }
  assert (Hne : rs <> []).
  { intros E. rewrite E in Hrs_len. simpl in Hrs_len. lia. }
  exists rs. repeat split.
  - apply calculate_log_returns_Fin, Hpos.
  - exact Hrs_len.
  - intros t p q Hq Hp. unfold rs.
    apply lookup_zip_with_Some. exists p, q. repeat split.
    + now rewrite lookup_tail.
    + rewrite lookup_removelast; [assumption|].
      apply lookup_lt_Some in Hp. exact Hp.
  - apply return_statistics_Fin, Hne.
  - unfold population_variance. now rewrite Hrs_len.
Qed.

Lemma C3_return_estimation_witness :
  exists rs : list R,
    calculate_log_returns (map Fin [100; 102; 101; 105]) = map Fin rs /\
    length rs = 3%nat /\
    var (return_statistics (map Fin rs)) = Fin (population_variance rs).
Proof.
  destruct (C3_return_estimation [100; 102; 101; 105])
    as (rs & Hlr & Hlen & _ & Hst & _).
  - repeat constructor; lra.
  - simpl. lia.
  - exists rs. split; [exact Hlr|]. split; [exact Hlen|].
    rewrite Hst. reflexivity.
Defined.

End ReturnEstimation.

(** ** The price loop *)

Section PriceLoop.

Lemma row_lookup (m : array2) (i : nat) (r : array1) :
  m !! i = Some r -> Np.row m i = r.
Proof. intros H. unfold Np.row. now rewrite H. Qed.

Lemma row_insert_ne (m : array2) (i j : nat) (r : array1) :
  i <> j -> Np.row (<[i := r]> m) j = Np.row m j.
Proof.
  intros H. unfold Np.row. now rewrite list_lookup_insert_ne.
Qed.

(** After the turns t = 1..n of the loop, row 0 is untouched, every row
    1..n is the product of the row before it with that day's returns, and
    the rows after n are untouched. *)
Lemma price_loop_rows (dr P0 : array2) (n : nat) :
  (n < length P0)%nat ->
  let P := foldl (price_step dr) P0 (seq 1 n) in
  length P = length P0 /\
  P !! 0%nat = P0 !! 0%nat /\
  (forall t, (1 <= t <= n)%nat ->
     P !! t = Some (zip_with fmul (Np.row P (t - 1)) (Np.row dr t))) /\
  (forall t, (n < t)%nat -> P !! t = P0 !! t).
Proof.
  induction n as [|n IH]; intros Hn; cbn zeta.
  - simpl. split; [reflexivity|]. split; [reflexivity|].
    split; intros t Ht; [lia | reflexivity].
  - rewrite seq_S, foldl_app. simpl foldl.
    destruct IH as (Hlen & H0 & Hrec & Hrest); [lia|].
    set (P := foldl (price_step dr) P0 (seq 1 n)) in *.
    unfold price_step. replace (1 + n - 1)%nat with n by lia.
    replace (1 + n)%nat with (S n) by lia.
    split; [now rewrite length_insert|].
    split; [now rewrite list_lookup_insert_ne by lia|].
    split.
    + intros t Ht.
      destruct (decide (t = S n)) as [->|Hne].
      * rewrite list_lookup_insert_eq by lia.
        replace (S n - 1)%nat with n by lia.
        now rewrite row_insert_ne by lia.
      * rewrite list_lookup_insert_ne by lia.
        rewrite row_insert_ne by lia.
        apply Hrec. lia.
    + intros t Ht. rewrite list_lookup_insert_ne by lia.
      apply Hrest. lia.
Qed.

Lemma price_loop_spec (days : nat) (dr P0 : array2) :
  length P0 = days -> (1 <= days)%nat ->
  let P := price_loop days dr P0 in
  length P = days /\
  P !! 0%nat = P0 !! 0%nat /\
  (forall t, (1 <= t < days)%nat ->
     P !! t = Some (zip_with fmul (Np.row P (t - 1)) (Np.row dr t))).
Proof.
  intros Hlen Hdays. cbn zeta. unfold price_loop.
  destruct (price_loop_rows dr P0 (days - 1)) as (H1 & H2 & H3 & _);
    [lia|].
  split; [lia|]. split; [exact H2|].
  intros t Ht. apply H3. lia.
Qed.

End PriceLoop.

(** ** One stock *)

Section SingleStock.

Variable probit : R -> R.

Lemma get_map_map (f : npfloat -> npfloat) (m : array2) (t k : nat) :
  Np.get (map (map f) m) t k = f <$> Np.get m t k.
Proof.
  unfold Np.get. rewrite lookup_map.
  destruct (m !! t) as [r|]; simpl; [apply lookup_map|reflexivity].
Qed.

Lemma get_rand_block (g : rng) (days trials t k : nat) :
  (t < days)%nat -> (k < trials)%nat ->
  Np.get (rand_block g days trials) t k
  = Some (Fin (draws g (pos g + t * trials + k)%nat)).
Proof.
  intros Ht Hk. unfold Np.get, rand_block.
  rewrite lookup_map.
  assert (E1 : seq 0 days !! t = Some t)
    by (apply lookup_seq; split; [reflexivity|assumption]).
  rewrite E1. simpl. rewrite lookup_map.
  assert (E2 : seq 0 trials !! k = Some k)
    by (apply lookup_seq; split; [reflexivity|assumption]).
  now rewrite E2.
Qed.

Lemma get_row (m : array2) (t k : nat) (r : array1) :
  m !! t = Some r -> Np.get m t k = r !! k.
Proof. intros H. unfold Np.get. now rewrite H. Qed.

Lemma py_truediv_nonzero (x y : npfloat) (g : rng) :
  y <> Fin 0 -> py_truediv x y g = Ok (fdiv x y) g.
Proof.
  intros Hy. unfold py_truediv. destruct y as [b| | |]; try reflexivity.
  destruct (Req_dec_T b 0) as [->|_]; [contradiction|reflexivity].
Qed.

Lemma py_truediv_zero (x : npfloat) (g : rng) :
  py_truediv x (Fin 0) g = Raise ZeroDivisionError.
Proof.
  unfold py_truediv. destruct (Req_dec_T 0 0); [reflexivity|contradiction].
Qed.

(** What a call returns when there is at least one day and the current price
    is not zero: the generator has moved by days*trials draws and the
    local variables are related as in the body of the function. *)
Lemma single_stock_run (trials days : nat) (log_returns : array1)
    (current_price initial_investment : npfloat) (g : rng) :
  (1 <= days)%nat ->
  current_price <> Fin 0 ->
  exists s : single_stock,
    monte_carlo_simulation_single_stock probit trials days log_returns
      current_price initial_investment g
    = Ok s (advance g (days * trials)) /\
    Z s = map (map (norm_ppf probit)) (rand_block g days trials) /\
    daily_returns s
    = simulate_daily_returns (drift (return_statistics log_returns))
        (stdev (return_statistics log_returns)) (Z s) /\
    price_paths s
    = price_loop days (daily_returns s)
        (replicate trials current_price
           :: replicate (days - 1) (replicate trials (Fin 0))) /\
    last (price_paths s) = Some (final_prices s) /\
    portfolio_values s
    = map (fun p => fmul p (fdiv initial_investment current_price))
        (final_prices s) /\
    individual_stock_returns s
    = map (fun p =>
             fmul (fdiv (fsub p current_price) current_price) (Fin 100))
        (final_prices s).
Proof.
  intros Hdays Hprice. destruct days as [|d]; [lia|].
  unfold monte_carlo_simulation_single_stock, bind, np_random_rand.
  cbn [Np.zeros replicate np_setrow0 ret].
  rewrite length_replicate.
  replace (S d - 1)%nat with d by lia.
  set (dr := simulate_daily_returns _ _ _).
  set (P0 := replicate trials current_price :: _).
  destruct (price_loop_spec (S d) dr P0) as (Hlen & _ & _).
  { unfold P0. simpl. now rewrite length_replicate. }
  { lia. }
  unfold py_last.
  destruct (last (price_loop (S d) dr P0)) as [fp|] eqn:Elast.
  - unfold ret at 1. rewrite (py_truediv_nonzero _ _ _ Hprice).
    eexists. split; [reflexivity|]. cbn.
    repeat split; try reflexivity. exact Elast.
  - exfalso. rewrite last_lookup, Hlen in Elast. simpl in Elast.
    apply lookup_ge_None in Elast. lia.
Qed.

(** Without a day, [price_paths[0] = current_price] is out of range. *)
Lemma single_stock_no_day (trials : nat) (log_returns : array1)
    (current_price initial_investment : npfloat) (g : rng) :
  monte_carlo_simulation_single_stock probit trials 0 log_returns
    current_price initial_investment g = Raise IndexError.
Proof. reflexivity. Qed.

(** With a current price of zero, initial_investment / current_price
    raises. *)
Lemma single_stock_zero_price (trials days : nat) (log_returns : array1)
    (initial_investment : npfloat) (g : rng) :
  (1 <= days)%nat ->
  monte_carlo_simulation_single_stock probit trials days log_returns
    (Fin 0) initial_investment g = Raise ZeroDivisionError.
Proof.
  intros Hdays. destruct days as [|d]; [lia|].
  unfold monte_carlo_simulation_single_stock, bind, np_random_rand.
  cbn [Np.zeros replicate np_setrow0 ret].
  destruct (py_last _ _) as [fp g1|e] eqn:E.
  - now rewrite py_truediv_zero.
  - exfalso. unfold py_last in E.
    destruct (last _) eqn:Elast in E; [discriminate|].
    apply last_None in Elast.
    apply (f_equal length) in Elast.
    unfold price_loop in Elast.
    destruct (price_loop_rows
                (simulate_daily_returns (drift (return_statistics log_returns))
                   (stdev (return_statistics log_returns))
                   (map (map (norm_ppf probit)) (rand_block g (S d) trials)))
                (replicate (length (replicate trials (Fin 0))) (Fin 0)
                   :: replicate d (replicate trials (Fin 0)))
                (S d - 1)) as (Hlen & _).
    + simpl. rewrite length_replicate. lia.
    + cbn zeta in Hlen. rewrite Elast in Hlen. simpl in Hlen. lia.
Qed.

(** The rows of the price paths of a run. *)
Lemma price_paths_rows (trials days : nat) (s : single_stock)
    (current_price : npfloat) :
  (1 <= days)%nat ->
  price_paths s
  = price_loop days (daily_returns s)
      (replicate trials current_price
         :: replicate (days - 1) (replicate trials (Fin 0))) ->
  length (price_paths s) = days /\
  price_paths s !! 0%nat = Some (replicate trials current_price) /\
  (forall t, (1 <= t < days)%nat ->
     price_paths s !! t
     = Some (zip_with fmul (Np.row (price_paths s) (t - 1))
               (Np.row (daily_returns s) t))).
Proof.
  intros Hdays ->.
  set (P0 := replicate trials current_price :: _).
  destruct (price_loop_spec days (daily_returns s) P0) as (H1 & H2 & H3).
  - unfold P0. simpl. rewrite length_replicate. lia.
  - exact Hdays.
  - split; [exact H1|]. split; [exact H2|exact H3].
Qed.

End SingleStock.

Section SingleStockEntries.

Variable probit : R -> R.
Variables trials days : nat.
Variable g : rng.
Variables drift0 stdev0 current_price : npfloat.
Variable s : single_stock.

Hypothesis Hdays : (1 <= days)%nat.
Hypothesis HZ : Z s = map (map (norm_ppf probit)) (rand_block g days trials).
Hypothesis Hdr :
  daily_returns s = simulate_daily_returns drift0 stdev0 (Z s).
Hypothesis Hpaths :
  price_paths s
  = price_loop days (daily_returns s)
      (replicate trials current_price
         :: replicate (days - 1) (replicate trials (Fin 0))).

Lemma Z_entry (t k : nat) :
  (t < days)%nat -> (k < trials)%nat ->
  Np.get (Z s) t k
  = Some (norm_ppf probit (Fin (draws g (pos g + t * trials + k)%nat))).
Proof.
  intros Ht Hk. rewrite HZ, get_map_map, get_rand_block by assumption.
  reflexivity.
Qed.

Lemma daily_returns_entry (t k : nat) (z : npfloat) :
  Np.get (Z s) t k = Some z ->
  Np.get (daily_returns s) t k
  = Some (fexp (fadd drift0 (fmul stdev0 z))).
Proof.
  intros Hz. rewrite Hdr. unfold simulate_daily_returns.
  now rewrite get_map_map, Hz.
Qed.

Lemma get_Some_row (m : array2) (t k : nat) (v : npfloat) :
  Np.get m t k = Some v -> (Np.row m t) !! k = Some v.
Proof.
  unfold Np.get, Np.row. destruct (m !! t); simpl; [auto|discriminate].
Qed.

(** The recurrence on entries: day 0 holds the current price, and an entry
    of a later day is the entry of the day before times that day's return. *)
Lemma price_paths_entries :
  (forall k, (k < trials)%nat ->
     Np.get (price_paths s) 0 k = Some current_price) /\
  (forall t k, (1 <= t < days)%nat -> (k < trials)%nat ->
     exists prev z : npfloat,
       Np.get (price_paths s) (t - 1) k = Some prev /\
       Np.get (Z s) t k = Some z /\
       Np.get (price_paths s) t k
       = Some (fmul prev (fexp (fadd drift0 (fmul stdev0 z))))).
Proof.
  destruct (price_paths_rows trials days s current_price Hdays Hpaths)
    as (Hlen & Hrow0 & Hrec).
  assert (H0 : forall k, (k < trials)%nat ->
              Np.get (price_paths s) 0 k = Some current_price).
  { intros k Hk. rewrite (get_row _ _ _ _ Hrow0).
    now apply lookup_replicate_2. }
  assert (Hstep : forall t k, (1 <= t < days)%nat -> (k < trials)%nat ->
            forall prev, Np.get (price_paths s) (t - 1) k = Some prev ->
            Np.get (price_paths s) t k
            = Some (fmul prev
                      (fexp (fadd drift0
                         (fmul stdev0
                            (norm_ppf probit
                               (Fin (draws g (pos g + t * trials + k)%nat)))))))).
  { intros t k Ht Hk prev Hprev.
    rewrite (get_row _ _ _ _ (Hrec t Ht)).
    apply lookup_zip_with_Some. eexists _, _. split; [reflexivity|].
    split; [apply get_Some_row, Hprev|].
    apply get_Some_row, daily_returns_entry, Z_entry; lia. }
  assert (Hall : forall t, (t < days)%nat -> forall k, (k < trials)%nat ->
            is_Some (Np.get (price_paths s) t k)).
  { induction t as [|t IH]; intros Ht k Hk.
    - rewrite H0 by assumption. eauto.
    - destruct (IH ltac:(lia) k Hk) as [prev Hprev].
      erewrite (Hstep (S t) k); [eauto|lia|assumption|].
      replace (S t - 1)%nat with t by lia. exact Hprev. }
  split; [exact H0|].
  intros t k Ht Hk.
  destruct (Hall (t - 1)%nat ltac:(lia) k Hk) as [prev Hprev].
  exists prev. eexists. split; [exact Hprev|].
  split; [apply Z_entry; lia|].
  now apply Hstep.
Qed.

End SingleStockEntries.

(** ** Properties of the simulated paths *)

Section PathProperties.

Lemma norm_ppf_Fin (probit : R -> R) (p : R) :
  0 < p < 1 -> norm_ppf probit (Fin p) = Fin (probit p).
Proof.
  intros [H0 H1]. unfold norm_ppf.
  destruct (Req_dec_T p 0); [lra|].
  destruct (Req_dec_T p 1); [lra|].
  destruct (Rlt_dec 0 p); [|lra].
  destruct (Rlt_dec p 1); [reflexivity|lra].
Qed.

(** The run of one stock and the entries of its price paths. *)
Lemma single_stock_paths (probit : R -> R) (trials days : nat)
    (log_returns : array1) (current_price initial_investment : npfloat)
    (g : rng) :
  (1 <= days)%nat ->
  current_price <> Fin 0 ->
  exists (s : single_stock) (g' : rng),
    monte_carlo_simulation_single_stock probit trials days log_returns
      current_price initial_investment g = Ok s g' /\
    (forall k, (k < trials)%nat ->
       Np.get (price_paths s) 0 k = Some current_price) /\
    (forall t k, (1 <= t < days)%nat -> (k < trials)%nat ->
       exists prev z : npfloat,
         Np.get (price_paths s) (t - 1) k = Some prev /\
         Np.get (Z s) t k = Some z /\
         z = norm_ppf probit (Fin (draws g (pos g + t * trials + k)%nat)) /\
         Np.get (price_paths s) t k
         = Some (fmul prev
                   (fexp (fadd (drift (return_statistics log_returns))
                            (fmul (stdev (return_statistics log_returns))
                               z))))).
Proof.
  intros Hdays Hprice.
  destruct (single_stock_run probit trials days log_returns current_price
              initial_investment g Hdays Hprice)
    as (s & Hrun & HZ & Hdr & Hpaths & _).
  exists s, (advance g (days * trials)). split; [exact Hrun|].
  destruct (price_paths_entries probit trials days g _ _ current_price s
              Hdays HZ Hdr Hpaths) as (H0 & Hrec).
  split; [exact H0|].
  intros t k Ht Hk. destruct (Hrec t k Ht Hk) as (prev & z & Hp & Hz & Hv).
  exists prev, z. repeat split; try assumption.
  rewrite (Z_entry probit trials days g s HZ t k) in Hz by lia.
  now injection Hz.
Qed.

(** With finite statistics and variates every entry of the price paths is
    the current price times one exponential. *)
Lemma closed_form_paths (probit : R -> R) (trials days : nat)
    (log_returns : array1) (p0 d sd : R) (initial_investment : npfloat)
    (g : rng) :
  (1 <= days)%nat ->
  p0 <> 0 ->
  drift (return_statistics log_returns) = Fin d ->
  stdev (return_statistics log_returns) = Fin sd ->
  (forall t k, (1 <= t < days)%nat -> (k < trials)%nat ->
     0 < draws g (pos g + t * trials + k)%nat < 1) ->
  exists s : single_stock,
    monte_carlo_simulation_single_stock probit trials days log_returns
      (Fin p0) initial_investment g = Ok s (advance g (days * trials)) /\
    (forall t k, (t < days)%nat -> (k < trials)%nat ->
       Np.get (price_paths s) t k
       = Some (Fin (p0 * exp (INR t * d
                              + sd * cumulative_variate probit g trials k t)))).
Proof.
  intros Hdays Hp0 Hd Hsd Hdraws.
  assert (Hprice : Fin p0 <> Fin 0) by now apply Fin_nonzero.
  destruct (single_stock_run probit trials days log_returns (Fin p0)
              initial_investment g Hdays Hprice)
    as (s & Hrun & HZ & Hdr & Hpaths & _).
  exists s. split; [exact Hrun|].
  destruct (price_paths_entries probit trials days g _ _ (Fin p0) s
              Hdays HZ Hdr Hpaths) as (H0 & Hrec).
  induction t as [|t IH]; intros k Ht Hk.
  - rewrite (H0 k Hk). do 2 f_equal. cbn [cumulative_variate INR].
    replace (0 * d + sd * 0) with 0 by lra. rewrite exp_0. lra.
  - destruct (Hrec (S t) k ltac:(lia) Hk) as (prev & z & Hprev & Hz & Hv).
    replace (S t - 1)%nat with t in Hprev by lia.
    rewrite (IH k ltac:(lia) Hk) in Hprev. injection Hprev as <-.
    rewrite (Z_entry probit trials days g s HZ (S t) k) in Hz by lia.
    assert (Ez : z = norm_ppf probit
                       (Fin (draws g (pos g + S t * trials + k)%nat)))
      by congruence.
    subst z. clear Hz.
    rewrite Hv, Hd, Hsd, norm_ppf_Fin by (apply Hdraws; lia).
    cbn [fmul fadd fexp cumulative_variate]. do 2 f_equal.
    rewrite Rmult_assoc, <- exp_plus. do 2 f_equal.
    rewrite S_INR. ring.
Qed.

(** C2. With at least one day and a current price other than zero, the call
    returns; row 0 of price_paths is the current price in every trial,
    whatever the draws; and for every day t in 1..days-1 and every trial k,
    Path[t][k] = Path[t-1][k] * exp(drift + stdev * Z[t][k]),
    where Z[t][k] is norm.ppf of the draw at position t*trials + k. *)
Theorem C2_price_path_recurrence (probit : R -> R) (trials days : nat)
    (log_returns : array1) (current_price initial_investment : npfloat)
    (g : rng) :
  (1 <= days)%nat ->
  current_price <> Fin 0 ->
  exists (s : single_stock) (g' : rng),
    monte_carlo_simulation_single_stock probit trials days log_returns
      current_price initial_investment g = Ok s g' /\
    (forall k, (k < trials)%nat ->
       Np.get (price_paths s) 0 k = Some current_price) /\
    (forall t k, (1 <= t < days)%nat -> (k < trials)%nat ->
       exists prev z : npfloat,
         Np.get (price_paths s) (t - 1) k = Some prev /\
         Np.get (Z s) t k = Some z /\
         z = norm_ppf probit (Fin (draws g (pos g + t * trials + k)%nat)) /\
         Np.get (price_paths s) t k
         = Some (fmul prev
                   (fexp (fadd (drift (return_statistics log_returns))
                            (fmul (stdev (return_statistics log_returns))
                               z))))).
Proof.
  apply single_stock_paths.
Qed.

Lemma C2_price_path_recurrence_witness :
  exists (s : single_stock) (g' : rng),
    monte_carlo_simulation_single_stock (fun _ => 0) 1 2 [Fin 0] (Fin 100)
      (Fin 1000) (mkRng (fun _ => 1 / 2) 0) = Ok s g' /\
    Np.get (price_paths s) 0 0 = Some (Fin 100).
Proof.
  destruct (C2_price_path_recurrence (fun _ => 0) 1 2 [Fin 0] (Fin 100)
              (Fin 1000) (mkRng (fun _ => 1 / 2) 0))
    as (s & g' & Hrun & H0 & _).
  - lia.
  - apply Fin_nonzero. lra.
  - exists s, g'. split; [exact Hrun|]. apply H0. lia.
Defined.

Lemma fexp_not_negative (x : npfloat) : not_negative (fexp x).
Proof.
  destruct x as [r| | |]; cbn; try exact I; [|lra].
  left. apply exp_pos.
Qed.

Lemma Rsign_nonneg (a : R) : 0 <= a -> Rsign a = Gt \/ Rsign a = Eq.
Proof.
  intros Ha. unfold Rsign.
  destruct (Rlt_dec 0 a); [now left|].
  destruct (Rlt_dec a 0); [lra|now right].
Qed.

(** A product of two floats that are not negative is not negative. *)
Lemma fmul_not_negative (x y : npfloat) :
  not_negative x -> not_negative y -> not_negative (fmul x y).
Proof.
  destruct x as [a| | |], y as [b| | |]; cbn; try tauto.
  - intros Ha Hb. now apply Rmult_le_pos.
  - intros Ha _. destruct (Rsign_nonneg a Ha) as [-> | ->]; exact I.
  - intros _ Hb. destruct (Rsign_nonneg b Hb) as [-> | ->]; exact I.
Qed.

(** C5, as the code has it.  With at least one day and a positive current
    price, whatever the log returns and the draws are: the call returns, row
    0 of price_paths holds the current price, and no entry of price_paths is
    negative: each one is a number that is not below zero, +inf or NaN. *)
Theorem C5_paths_never_negative (probit : R -> R) (trials days : nat)
    (log_returns : array1) (p0 : R) (initial_investment : npfloat)
    (g : rng) :
  (1 <= days)%nat ->
  0 < p0 ->
  exists (s : single_stock) (g' : rng),
    monte_carlo_simulation_single_stock probit trials days log_returns
      (Fin p0) initial_investment g = Ok s g' /\
    length (price_paths s) = days /\
    (forall k, (k < trials)%nat ->
       Np.get (price_paths s) 0 k = Some (Fin p0)) /\
    (forall t k, (t < days)%nat -> (k < trials)%nat ->
       exists x : npfloat,
         Np.get (price_paths s) t k = Some x /\ not_negative x).
Proof.
  intros Hdays Hp0.
  assert (Hprice : Fin p0 <> Fin 0) by (apply Fin_nonzero; lra).
  destruct (single_stock_paths probit trials days log_returns (Fin p0)
              initial_investment g Hdays Hprice)
    as (s & g' & Hrun & H0 & Hrec).
  exists s, g'. split; [exact Hrun|].
  split.
  { destruct (single_stock_run probit trials days log_returns (Fin p0)
                initial_investment g Hdays Hprice)
      as (s' & Hrun' & _ & _ & Hpaths & _).
    rewrite Hrun in Hrun'. injection Hrun' as -> _.
    now destruct (price_paths_rows trials days s' (Fin p0) Hdays Hpaths). }
  split; [exact H0|].
  induction t as [|t IH]; intros k Ht Hk.
  - exists (Fin p0). split; [now apply H0|]. cbn. lra.
  - destruct (IH k ltac:(lia) Hk) as (x & Hx & Hxpos).
    destruct (Hrec (S t) k ltac:(lia) Hk) as (prev & z & Hprev & _ & _ & Hv).
    replace (S t - 1)%nat with t in Hprev by lia.
    rewrite Hx in Hprev. injection Hprev as <-.
    eexists. split; [exact Hv|].
    apply fmul_not_negative; [exact Hxpos|apply fexp_not_negative].
Qed.

Lemma C5_paths_never_negative_witness :
  exists (s : single_stock) (g' : rng),
    monte_carlo_simulation_single_stock (fun _ => 0) 1 2 [Fin 0] (Fin 100)
      (Fin 1000) (mkRng (fun _ => 1 / 2) 0) = Ok s g' /\
    exists x : npfloat,
      Np.get (price_paths s) 1 0 = Some x /\ not_negative x.
Proof.
  destruct (C5_paths_never_negative (fun _ => 0) 1 2 [Fin 0] 100
              (Fin 1000) (mkRng (fun _ => 1 / 2) 0))
    as (s & g' & Hrun & _ & _ & Hpos).
  - lia.
  - lra.
  - exists s, g'. split; [exact Hrun|]. apply Hpos; lia.
Defined.

Lemma two_sample_statistics :
  return_statistics [Fin 0; Fin 1]
  = mkStatistics (Fin (1 / 2)) (Fin (1 / 4)) (Fin (3 / 8)) (Fin (1 / 2)).
Proof.
  change [Fin 0; Fin 1] with (map Fin [0; 1]).
  rewrite return_statistics_Fin by discriminate.
  assert (Hm : sample_mean [0; 1] = 1 / 2)
    by (unfold sample_mean; simpl; lra).
  assert (Hv : population_variance [0; 1] = 1 / 4).
  { unfold population_variance. rewrite Hm. simpl. lra. }
  rewrite Hm, Hv.
  assert (Hs : sqrt (1 / 4) = 1 / 2).
  { replace (1 / 4) with ((1 / 2) * (1 / 2)) by lra.
    apply sqrt_square. lra. }
  rewrite Hs. do 2 f_equal. lra.
Qed.

(** C5 as stated fails.  Current price 100, two days, one trial.  With the
    log returns [0, 1] (drift 3/8, stdev 1/2) and a uniform draw equal to 0,
    norm.ppf gives -inf, the daily return is exp(-inf) = 0 and
    Path[1][0] = 0.  With the empty sample of a one-price history the
    statistics are NaN and Path[1][0] is NaN, whatever the draws are. *)
Lemma C5_counterexample :
  0 < 100 /\
  (exists (s : single_stock) (g' : rng),
      monte_carlo_simulation_single_stock (fun _ => 0) 1 2 [Fin 0; Fin 1]
        (Fin 100) (Fin 1000) (mkRng (fun _ => 0) 0) = Ok s g' /\
      Np.get (price_paths s) 1 0 = Some (Fin 0)) /\
  (exists (s : single_stock) (g' : rng),
      monte_carlo_simulation_single_stock (fun _ => 0) 1 2
        (calculate_log_returns [Fin 100]) (Fin 100) (Fin 1000)
        (mkRng (fun _ => 1 / 2) 0) = Ok s g' /\
      Np.get (price_paths s) 1 0 = Some NaN).
Proof.
  assert (Hprice : Fin 100 <> Fin 0) by (apply Fin_nonzero; lra).
  split; [lra|]. split.
  - destruct (single_stock_paths (fun _ => 0) 1 2 [Fin 0; Fin 1] (Fin 100)
                (Fin 1000) (mkRng (fun _ => 0) 0) ltac:(lia) Hprice)
      as (s & g' & Hrun & H0 & Hrec).
    exists s, g'. split; [exact Hrun|].
    destruct (Hrec 1%nat 0%nat ltac:(lia) ltac:(lia))
      as (prev & z & Hprev & _ & Hz & Hv).
    change (1 - 1)%nat with 0%nat in Hprev.
    rewrite (H0 0%nat ltac:(lia)) in Hprev. injection Hprev as <-.
    cbn [draws] in Hz. unfold norm_ppf in Hz.
    destruct (Req_dec_T 0 0) as [_|Hne]; [|contradiction].
    subst z. rewrite Hv, two_sample_statistics. cbn [drift stdev].
    assert (Hsign : Rsign (1 / 2) = Gt).
    { unfold Rsign. destruct (Rlt_dec 0 (1 / 2)); [reflexivity|lra]. }
    cbn [fmul sign]. rewrite Hsign.
    cbn [sign_mul signed_inf fadd fexp fmul]. do 2 f_equal. lra.
  - destruct (single_stock_paths (fun _ => 0) 1 2
                (calculate_log_returns [Fin 100]) (Fin 100) (Fin 1000)
                (mkRng (fun _ => 1 / 2) 0) ltac:(lia) Hprice)
      as (s & g' & Hrun & H0 & Hrec).
    exists s, g'. split; [exact Hrun|].
    destruct (Hrec 1%nat 0%nat ltac:(lia) ltac:(lia))
      as (prev & z & _ & _ & _ & Hv).
    rewrite Hv. change (calculate_log_returns [Fin 100]) with (@nil npfloat).
    rewrite return_statistics_empty. cbn [drift stdev fadd fexp].
    now destruct prev.
Qed.

End PathProperties.

(** ** The shapes of the arrays *)

Section ShapeFacts.

Variable probit : R -> R.
Variables trials days : nat.

Lemma rand_block_shape (g : rng) :
  length (rand_block g days trials) = days /\
  Forall (fun r => length r = trials) (rand_block g days trials).
Proof.
  unfold rand_block. split.
  - now rewrite length_map, length_seq.
  - apply Forall_forall. intros r Hr.
    apply list_elem_of_In, in_map_iff in Hr as (t & <- & _).
    now rewrite length_map, length_seq.
Qed.

Lemma map_map_shape (f : npfloat -> npfloat) (m : array2) :
  length m = days -> Forall (fun r => length r = trials) m ->
  length (map (map f) m) = days /\
  Forall (fun r => length r = trials) (map (map f) m).
Proof.
  intros Hlen Hrows. split; [now rewrite length_map|].
  apply Forall_forall. intros r Hr.
  apply list_elem_of_In, in_map_iff in Hr as (r0 & <- & Hr0).
  rewrite length_map. rewrite Forall_forall in Hrows.
  now apply Hrows, list_elem_of_In.
Qed.

(** Every row of the price paths has one entry per trial. *)
Lemma price_paths_row_length (s : single_stock) (current_price : npfloat) :
  (1 <= days)%nat ->
  length (daily_returns s) = days ->
  Forall (fun r => length r = trials) (daily_returns s) ->
  price_paths s
  = price_loop days (daily_returns s)
      (replicate trials current_price
         :: replicate (days - 1) (replicate trials (Fin 0))) ->
  forall t, (t < days)%nat ->
    exists r : array1, price_paths s !! t = Some r /\ length r = trials.
Proof.
  intros Hdays Hdrlen Hdrrows Hpaths.
  destruct (price_paths_rows trials days s current_price Hdays Hpaths)
    as (_ & Hrow0 & Hrec).
  induction t as [|t IH]; intros Ht.
  - eexists. split; [exact Hrow0|apply length_replicate].
  - destruct (IH ltac:(lia)) as (prev & Hprev & Hprevlen).
    rewrite (Hrec (S t)) by lia. eexists. split; [reflexivity|].
    replace (S t - 1)%nat with t by lia.
    rewrite (row_lookup _ _ _ Hprev).
    destruct (lookup_lt_is_Some_2 (daily_returns s) (S t)) as [dr Hdr];
      [lia|].
    rewrite (row_lookup _ _ _ Hdr), length_zip_with, Hprevlen.
    rewrite Forall_forall in Hdrrows.
    rewrite (Hdrrows dr) by (eapply list_elem_of_lookup_2, Hdr). lia.
Qed.

(** The shapes of the arrays of a call. *)
Lemma single_stock_shape_facts (log_returns : array1)
    (current_price initial_investment : npfloat) (g : rng) :
  (1 <= days)%nat ->
  current_price <> Fin 0 ->
  exists (s : single_stock) (g' : rng),
    monte_carlo_simulation_single_stock probit trials days log_returns
      current_price initial_investment g = Ok s g' /\
    (length (Z s) = days /\ Forall (fun r => length r = trials) (Z s)) /\
    (length (daily_returns s) = days /\
     Forall (fun r => length r = trials) (daily_returns s)) /\
    (length (price_paths s) = days /\
     Forall (fun r => length r = trials) (price_paths s)) /\
    length (final_prices s) = trials /\
    length (portfolio_values s) = trials /\
    length (individual_stock_returns s) = trials.
Proof.
  intros Hdays Hprice.
  destruct (single_stock_run probit trials days log_returns current_price
              initial_investment g Hdays Hprice)
    as (s & Hrun & HZ & Hdr & Hpaths & Hlast & Hpv & Hisr).
  exists s, (advance g (days * trials)). split; [exact Hrun|].
  destruct (rand_block_shape g) as (HUl & HUr).
  assert (HZs : length (Z s) = days /\
                Forall (fun r => length r = trials) (Z s)).
  { rewrite HZ. now apply map_map_shape. }
  assert (Hdrs : length (daily_returns s) = days /\
                 Forall (fun r => length r = trials) (daily_returns s)).
  { rewrite Hdr. unfold simulate_daily_returns.
    now apply map_map_shape. }
  destruct Hdrs as (Hdrl & Hdrr).
  pose proof (price_paths_row_length s current_price Hdays Hdrl Hdrr Hpaths)
    as Hrows.
  destruct (price_paths_rows trials days s current_price Hdays Hpaths)
    as (Hlen & _).
  assert (Hfinal : length (final_prices s) = trials).
  { rewrite last_lookup, Hlen in Hlast.
    destruct (Hrows (Init.Nat.pred days) ltac:(lia)) as (r & Hr & Hrl).
    rewrite Hr in Hlast. now injection Hlast as <-. }
  split; [exact HZs|]. split; [now split|]. split; [split; [exact Hlen|]|].
  - apply Forall_lookup. intros t r Hr.
    destruct (Hrows t) as (r' & Hr' & Hl).
    + apply lookup_lt_Some in Hr. lia.
    + rewrite Hr in Hr'. now injection Hr' as ->.
  - split; [exact Hfinal|].
    rewrite Hpv, Hisr, !length_map. now split.
Qed.

End ShapeFacts.

Section Terminal.

(** The terminal prices of a call: final_prices has one entry per trial,
    the entry of the last row of price_paths. *)
Lemma single_stock_terminal (probit : R -> R) (trials days : nat)
    (log_returns : array1) (current_price initial_investment : npfloat)
    (g : rng) :
  (1 <= days)%nat ->
  current_price <> Fin 0 ->
  exists s : single_stock,
    monte_carlo_simulation_single_stock probit trials days log_returns
      current_price initial_investment g
    = Ok s (advance g (days * trials)) /\
    length (price_paths s) = days /\
    last (price_paths s) = Some (final_prices s) /\
    length (final_prices s) = trials /\
    (forall k, (k < trials)%nat ->
       exists terminal : npfloat,
         Np.get (price_paths s) (days - 1) k = Some terminal /\
         final_prices s !! k = Some terminal) /\
    portfolio_values s
    = map (fun p => fmul p (fdiv initial_investment current_price))
        (final_prices s) /\
    individual_stock_returns s
    = map (fun p =>
             fmul (fdiv (fsub p current_price) current_price) (Fin 100))
        (final_prices s).
Proof.
  intros Hdays Hprice.
  destruct (single_stock_shape_facts probit trials days log_returns
              current_price initial_investment g Hdays Hprice)
    as (s0 & g0 & Hrun0 & _ & _ & (Hlen & _) & Hfl & _).
  destruct (single_stock_run probit trials days log_returns current_price
              initial_investment g Hdays Hprice)
    as (s & Hrun & _ & _ & _ & Hlast & Hpv & Hisr).
  rewrite Hrun in Hrun0. injection Hrun0 as <- _.
  exists s. split; [exact Hrun|]. split; [exact Hlen|].
  split; [exact Hlast|]. split; [exact Hfl|].
  split; [|split; [exact Hpv|exact Hisr]].
  intros k Hk.
  destruct (lookup_lt_is_Some_2 (final_prices s) k) as [v Hv]; [lia|].
  exists v. split; [|exact Hv].
  rewrite last_lookup, Hlen in Hlast.
  replace (Init.Nat.pred days) with (days - 1)%nat in Hlast by lia.
  now rewrite (get_row _ _ _ _ Hlast).
Qed.

(** C8. With at least one day and a current price other than zero the call
    returns; final_prices is the last row of price_paths and has one entry
    per trial, and individual_stock_returns has, for every trial k, the
    entry (terminal - current_price) / current_price * 100, where terminal
    is the price of trial k in the last row of price_paths. *)
Theorem C8_individual_returns (probit : R -> R) (trials days : nat)
    (log_returns : array1) (current_price initial_investment : npfloat)
    (g : rng) :
  (1 <= days)%nat ->
  current_price <> Fin 0 ->
  exists (s : single_stock) (g' : rng),
    monte_carlo_simulation_single_stock probit trials days log_returns
      current_price initial_investment g = Ok s g' /\
    last (price_paths s) = Some (final_prices s) /\
    individual_stock_returns s
    = map (fun terminal =>
             fmul (fdiv (fsub terminal current_price) current_price)
               (Fin 100))
        (final_prices s) /\
    (forall (k : nat) (x c : R),
        current_price = Fin c -> c <> 0 ->
        final_prices s !! k = Some (Fin x) ->
        individual_stock_returns s !! k
        = Some (Fin ((x - c) / c * 100))) /\
    length (price_paths s) = days /\
    length (final_prices s) = trials /\
    length (individual_stock_returns s) = trials /\
    (forall k, (k < trials)%nat ->
       exists terminal : npfloat,
         Np.get (price_paths s) (days - 1) k = Some terminal /\
         final_prices s !! k = Some terminal /\
         individual_stock_returns s !! k
         = Some (fmul (fdiv (fsub terminal current_price) current_price)
                   (Fin 100))).
Proof.
  intros Hdays Hprice.
  destruct (single_stock_terminal probit trials days log_returns
              current_price initial_investment g Hdays Hprice)
    as (s & Hrun & Hlen & Hlast & Hfl & Hterm & _ & Hisr).
  exists s, (advance g (days * trials)).
  split; [exact Hrun|]. split; [exact Hlast|]. split; [exact Hisr|].
  split; [|split; [exact Hlen|split; [exact Hfl|split]]].
  - intros k x c -> Hc Hx. rewrite Hisr, lookup_map, Hx.
    cbn [fmap option_fmap option_map fsub fopp fadd].
    rewrite fdiv_Fin by assumption. reflexivity.
  - now rewrite Hisr, length_map.
  - intros k Hk. destruct (Hterm k Hk) as (v & Hv & Hf).
    exists v. split; [exact Hv|]. split; [exact Hf|].
    now rewrite Hisr, lookup_map, Hf.
Qed.

Lemma C8_individual_returns_witness :
  exists (s : single_stock) (g' : rng),
    monte_carlo_simulation_single_stock (fun _ => 0) 1 2 [Fin 0] (Fin 100)
      (Fin 1000) (mkRng (fun _ => 1 / 2) 0) = Ok s g' /\
    last (price_paths s) = Some (final_prices s) /\
    length (individual_stock_returns s) = 1%nat.
Proof.
  destruct (C8_individual_returns (fun _ => 0) 1 2 [Fin 0] (Fin 100)
              (Fin 1000) (mkRng (fun _ => 1 / 2) 0))
    as (s & g' & Hrun & Hlast & _ & _ & _ & _ & Hl & _).
  - lia.
  - apply Fin_nonzero. lra.
  - exists s, g'. split; [exact Hrun|]. split; [exact Hlast|exact Hl].
Defined.

(** C9. One stock, current price 100, two days, one trial, drift 0,
    stdev 0 and both variates equal to 0: the price paths are
    [[100], [100]]. *)
Theorem C9_flat_path (probit : R -> R) (log_returns : array1)
    (initial_investment : npfloat) (g : rng) :
  drift (return_statistics log_returns) = Fin 0 ->
  stdev (return_statistics log_returns) = Fin 0 ->
  (forall t k, (t < 2)%nat -> (k < 1)%nat ->
     norm_ppf probit (Fin (draws g (pos g + t * 1 + k)%nat)) = Fin 0) ->
  exists (s : single_stock) (g' : rng),
    monte_carlo_simulation_single_stock probit 1 2 log_returns (Fin 100)
      initial_investment g = Ok s g' /\
    price_paths s = [[Fin 100]; [Fin 100]].
Proof.
  intros Hd Hsd HZ.
  destruct (single_stock_run probit 1 2 log_returns (Fin 100)
              initial_investment g ltac:(lia))
    as (s & Hrun & HZs & Hdr & Hpaths & _).
  { apply Fin_nonzero. lra. }
  exists s, (advance g (2 * 1)). split; [exact Hrun|].
  rewrite Hpaths, Hdr, HZs, Hd, Hsd.
  unfold rand_block. cbn [seq map].
  rewrite (HZ 0%nat 0%nat), (HZ 1%nat 0%nat) by lia.
  cbn.
  replace (100 * exp (0 + 0 * 0)) with 100; [reflexivity|].
  replace (0 + 0 * 0) with 0 by lra. rewrite exp_0. lra.
Qed.

Lemma flat_series_returns :
  calculate_log_returns [Fin 100; Fin 100] = [Fin 0].
Proof.
  change [Fin 100; Fin 100] with (map Fin [100; 100]).
  rewrite calculate_log_returns_Fin by (repeat constructor; lra).
  cbn. replace (100 / 100) with 1 by lra. now rewrite ln_1.
Qed.

Lemma single_sample_statistics (x : R) :
  return_statistics [Fin x] = mkStatistics (Fin x) (Fin 0) (Fin x) (Fin 0).
Proof.
  change [Fin x] with (map Fin [x]).
  rewrite return_statistics_Fin by discriminate.
  assert (Hm : sample_mean [x] = x) by (unfold sample_mean; simpl; lra).
  assert (Hv : population_variance [x] = 0).
  { unfold population_variance. rewrite Hm. simpl. lra. }
  rewrite Hm, Hv, sqrt_0. do 2 f_equal. lra.
Qed.

Lemma C9_flat_path_witness :
  exists (s : single_stock) (g' : rng),
    monte_carlo_simulation_single_stock (fun _ => 0) 1 2
      (calculate_log_returns [Fin 100; Fin 100]) (Fin 100) (Fin 1000)
      (mkRng (fun _ => 1 / 2) 0) = Ok s g' /\
    price_paths s = [[Fin 100]; [Fin 100]].
Proof.
  apply (C9_flat_path (fun _ => 0)).
  - rewrite flat_series_returns, single_sample_statistics. reflexivity.
  - rewrite flat_series_returns, single_sample_statistics. reflexivity.
  - intros t k _ _. apply norm_ppf_Fin. simpl. lra.
Defined.

End Terminal.

(** ** The draws a simulation consumes *)

Section Draws.

Lemma foldl_ext_in {A B} (f f' : A -> B -> A) (l : list B) (a : A) :
  (forall a x, x ∈ l -> f a x = f' a x) -> foldl f a l = foldl f' a l.
Proof.
  revert a. induction l as [|x l IH]; intros a H; [reflexivity|].
  simpl. rewrite (H a x) by apply list_elem_of_here.
  apply IH. intros a' y Hy. apply H. now apply list_elem_of_further.
Qed.

(** The loop reads the daily returns of the days 1..days-1 only. *)
Lemma price_loop_ext (days : nat) (dr dr' P0 : array2) :
  (forall t, (1 <= t < days)%nat -> dr !! t = dr' !! t) ->
  price_loop days dr P0 = price_loop days dr' P0.
Proof.
  intros H. unfold price_loop. apply foldl_ext_in.
  intros P t Ht. apply elem_of_seq in Ht.
  unfold price_step, Np.row. rewrite H by lia. reflexivity.
Qed.

Lemma rand_block_row (g : rng) (days trials t : nat) :
  (t < days)%nat ->
  rand_block g days trials !! t
  = Some (map (fun k => Fin (draws g (pos g + t * trials + k)%nat))
            (seq 0 trials)).
Proof.
  intros Ht. unfold rand_block. rewrite lookup_map.
  assert (E : seq 0 days !! t = Some t)
    by (apply lookup_seq; split; [reflexivity|assumption]).
  now rewrite E.
Qed.

(** Two generators at the same position whose streams agree on the draws
    of the days 1..days-1 fill the same rows 1..days-1. *)
Lemma rand_block_agree (g g2 : rng) (days trials t : nat) :
  pos g2 = pos g ->
  (forall t k, (1 <= t < days)%nat -> (k < trials)%nat ->
     draws g2 (pos g + t * trials + k)%nat
     = draws g (pos g + t * trials + k)%nat) ->
  (1 <= t < days)%nat ->
  rand_block g2 days trials !! t = rand_block g days trials !! t.
Proof.
  intros Hpos Hagree Ht.
  rewrite !rand_block_row by lia. f_equal.
  apply map_ext_in. intros k Hk. apply in_seq in Hk.
  rewrite Hpos, Hagree by lia. reflexivity.
Qed.

(** C4, as the code has it.  With at least one day and a current price
    other than zero, a call consumes exactly days*trials uniform draws; Z[t][k] is norm.ppf of the draw at position
    t*trials + k for every day t in [0, days) and trial k in [0, trials);
    and the draws of day 0 are not used: a stream that differs only there
    gives the same price paths. *)
Theorem C4_draws_consumed (probit : R -> R) (trials days : nat)
    (log_returns : array1) (current_price initial_investment : npfloat)
    (g : rng) :
  (1 <= days)%nat ->
  current_price <> Fin 0 ->
  exists (s : single_stock) (g' : rng),
    monte_carlo_simulation_single_stock probit trials days log_returns
      current_price initial_investment g = Ok s g' /\
    draws g' = draws g /\
    pos g' = (pos g + days * trials)%nat /\
    (forall t k, (t < days)%nat -> (k < trials)%nat ->
       Np.get (Z s) t k
       = Some (norm_ppf probit
                 (Fin (draws g (pos g + t * trials + k)%nat)))) /\
    (forall g2 : rng,
        pos g2 = pos g ->
        (forall t k, (1 <= t < days)%nat -> (k < trials)%nat ->
           draws g2 (pos g + t * trials + k)%nat
           = draws g (pos g + t * trials + k)%nat) ->
        exists (s2 : single_stock) (g2' : rng),
          monte_carlo_simulation_single_stock probit trials days
            log_returns current_price initial_investment g2 = Ok s2 g2' /\
          price_paths s2 = price_paths s).
Proof.
  intros Hdays Hprice.
  destruct (single_stock_run probit trials days log_returns current_price
              initial_investment g Hdays Hprice)
    as (s & Hrun & HZ & Hdr & Hpaths & _).
  exists s, (advance g (days * trials)).
  split; [exact Hrun|]. split; [reflexivity|]. split; [reflexivity|].
  split.
  { intros t k Ht Hk. now apply (Z_entry probit trials days g s HZ). }
  intros g2 Hpos Hagree.
  destruct (single_stock_run probit trials days log_returns current_price
              initial_investment g2 Hdays Hprice)
    as (s2 & Hrun2 & HZ2 & Hdr2 & Hpaths2 & _).
  exists s2, (advance g2 (days * trials)). split; [exact Hrun2|].
  rewrite Hpaths2, Hpaths. apply price_loop_ext.
  intros t Ht. rewrite Hdr2, Hdr, HZ2, HZ.
  unfold simulate_daily_returns. rewrite !lookup_map.
  now rewrite (rand_block_agree g g2 days trials t Hpos Hagree Ht).
Qed.

Lemma C4_draws_consumed_witness :
  exists (s : single_stock) (g' : rng),
    monte_carlo_simulation_single_stock (fun _ => 0) 1 2 [Fin 0] (Fin 100)
      (Fin 1000) (mkRng (fun _ => 1 / 2) 0) = Ok s g' /\
    pos g' = 2%nat.
Proof.
  destruct (C4_draws_consumed (fun _ => 0) 1 2 [Fin 0] (Fin 100)
              (Fin 1000) (mkRng (fun _ => 1 / 2) 0))
    as (s & g' & Hrun & _ & Hpos & _).
  - lia.
  - apply Fin_nonzero. lra.
  - exists s, g'. split; [exact Hrun|exact Hpos].
Defined.

(** C4 as stated fails: with two days and one trial the call consumes two
    draws, not (2-1)*1 = 1. *)
Lemma C4_counterexample :
  exists (s : single_stock) (g' : rng),
    monte_carlo_simulation_single_stock (fun _ => 0) 1 2 [Fin 0] (Fin 100)
      (Fin 1000) (mkRng (fun _ => 1 / 2) 0) = Ok s g' /\
    pos g' = 2%nat /\
    pos g' <> ((2 - 1) * 1)%nat.
Proof.
  destruct (single_stock_run (fun _ => 0) 1 2 [Fin 0] (Fin 100)
              (Fin 1000) (mkRng (fun _ => 1 / 2) 0))
    as (s & Hrun & _); [lia|apply Fin_nonzero; lra|].
  eexists _, _. split; [exact Hrun|]. simpl. split; [reflexivity|lia].
Qed.

End Draws.

(** ** The portfolio loop *)

Section PortfolioLoop.

Variable probit : R -> R.
Variable weights : list npfloat.
Variables trials days : nat.
Variable initial_investment : npfloat.

(** The loop accumulates what its turns compute. *)
Lemma portfolio_loop_view (stock_files : list (list npfloat)) (i : nat)
    (acc : array2 * array1) (g : rng) :
  portfolio_loop probit weights trials days initial_investment i
    stock_files acc g
  = match simulate_stocks probit weights trials days initial_investment i
            stock_files g with
    | Ok rs g' =>
        Ok (foldl Np.iadd_broadcast (fst acc)
              (map (fun r => portfolio_values (sr_locals r)) rs),
            snd acc
            ++ map (fun r => Np.mean (individual_stock_returns (sr_locals r)))
                 rs)
           g'
    | Raise e => Raise e
    end.
Proof.
  revert i acc g. induction stock_files as [|opens rest IH]; intros i acc g.
  - simpl. unfold ret. rewrite app_nil_r. now destruct acc.
  - cbn [portfolio_loop simulate_stocks]. unfold bind.
    destruct (py_last opens g) as [cp g1|e]; [|reflexivity].
    destruct (py_index weights i g1) as [w g2|e]; [|reflexivity].
    destruct (monte_carlo_simulation_single_stock probit trials days
                (calculate_log_returns opens) cp
                (fmul initial_investment w) g2) as [s g3|e]; [|reflexivity].
    rewrite IH.
    destruct (simulate_stocks probit weights trials days initial_investment
                (S i) rest g3) as [rs g4|e]; [|reflexivity].
    unfold ret. cbn [fst snd map foldl]. now rewrite <- app_assoc.
Qed.

Lemma advance_advance (g : rng) (a b : nat) :
  advance (advance g a) b = advance g (a + b).
Proof. unfold advance. simpl. f_equal. lia. Qed.

(** With at least one day, price lists that end in a non-zero price and a
    weight for every stock, every turn of the loop completes. *)
Lemma simulate_stocks_total (stock_files : list (list npfloat)) (i : nat)
    (g : rng) :
  (1 <= days)%nat ->
  Forall has_price stock_files ->
  (i + length stock_files <= length weights)%nat ->
  exists rs : list stock_run,
    simulate_stocks probit weights trials days initial_investment i
      stock_files g
    = Ok rs (advance g (length stock_files * (days * trials))) /\
    Forall2 (turn_of probit trials days initial_investment g)
      stock_files rs /\
    map sr_weight rs = take (length stock_files) (drop i weights).
Proof.
  intros Hdays Hne. revert i g.
  induction Hne as [|opens rest Hopens Hrest IH]; intros i g Hlen.
  - exists []. simpl. unfold ret, advance. split.
    + destruct g as [d p]. simpl. now rewrite Nat.add_0_r.
    + split; [constructor|reflexivity].
  - cbn [length] in Hlen. destruct Hopens as (Hopens & Hnz).
    destruct (last opens) as [cp|] eqn:Elast;
      [|apply last_None in Elast; contradiction].
    assert (Hcp : cp <> Fin 0) by (intros ->; now apply Hnz).
    destruct (weights !! i) as [w|] eqn:Ew;
      [|apply lookup_ge_None in Ew; lia].
    destruct (single_stock_run probit trials days
                (calculate_log_returns opens) cp
                (fmul initial_investment w) g Hdays Hcp)
      as (s & Hrun & _).
    destruct (IH (S i) (advance g (days * trials)) ltac:(lia))
      as (rs & Hrs & Hturns & Hws).
    exists (mkStockRun cp w s :: rs).
    split; [|split].
    + cbn [simulate_stocks]. unfold bind, py_last, py_index.
      rewrite Elast, Ew. unfold ret. rewrite Hrun, Hrs.
      rewrite advance_advance. reflexivity.
    + constructor.
      * split; [exact Elast|]. split; [exact Hcp|].
        exists g. split; [reflexivity|exact Hrun].
      * eapply Forall2_impl; [exact Hturns|].
        intros o r (Hl & Hz & g0 & Hd & Hr). split; [exact Hl|].
        split; [exact Hz|]. exists g0. split; [exact Hd|exact Hr].
    + cbn [map sr_weight length]. rewrite Hws.
      rewrite (drop_S weights w i Ew). reflexivity.
Qed.

End PortfolioLoop.

(** ** The portfolio grid *)

Section Grid.

Lemma get_zeros (days trials t k : nat) :
  (t < days)%nat -> (k < trials)%nat ->
  Np.get (Np.zeros days trials) t k = Some (Fin 0).
Proof.
  intros Ht Hk. unfold Np.get, Np.zeros.
  rewrite lookup_replicate_2 by assumption. simpl.
  now apply lookup_replicate_2.
Qed.

Lemma get_iadd_broadcast (G : array2) (v : array1) (t k : nat)
    (a b : npfloat) :
  Np.get G t k = Some a -> v !! k = Some b ->
  Np.get (Np.iadd_broadcast G v) t k = Some (fadd a b).
Proof.
  unfold Np.get, Np.iadd_broadcast. intros Ha Hb.
  rewrite lookup_map. destruct (G !! t) as [r|]; [|discriminate].
  simpl in *. apply lookup_zip_with_Some. eauto.
Qed.

Lemma length_foldl_iadd (G : array2) (vs : list array1) :
  length (foldl Np.iadd_broadcast G vs) = length G.
Proof.
  revert G. induction vs as [|v vs IH]; intros G; [reflexivity|].
  simpl. rewrite IH. unfold Np.iadd_broadcast. apply length_map.
Qed.

(** An entry of the grid after the additions: the entry it started from
    plus entry k of every added vector, whatever the row. *)
Lemma get_foldl_iadd (vs : list array1) (G : array2) (t k : nat)
    (a : npfloat) :
  Np.get G t k = Some a ->
  Forall (fun v => is_Some (v !! k)) vs ->
  Np.get (foldl Np.iadd_broadcast G vs) t k
  = Some (foldl fadd a (map (fun v => default NaN (v !! k)) vs)).
Proof.
  intros Ha Hvs. revert G a Ha.
  induction Hvs as [|v vs [b Hb] Hvs IH]; intros G a Ha; [exact Ha|].
  cbn [foldl map]. rewrite Hb. cbn [default].
  apply IH. now apply get_iadd_broadcast.
Qed.

Variable probit : R -> R.
Variables trials days : nat.
Variable initial_investment : npfloat.
Hypothesis Hdays : (1 <= days)%nat.

(** In a turn, entry k of the stock's portfolio_values is the terminal
    price of trial k times allocation / current price. *)
Lemma turn_terminal (g : rng) (opens : list npfloat) (r : stock_run)
    (k : nat) :
  (k < trials)%nat ->
  turn_of probit trials days initial_investment g opens r ->
  exists v : npfloat,
    Np.get (price_paths (sr_locals r)) (days - 1) k = Some v /\
    final_prices (sr_locals r) !! k = Some v /\
    portfolio_values (sr_locals r) !! k
    = Some (terminal_value days initial_investment r k).
Proof.
  intros Hk (_ & Hnz & g0 & _ & Hrun).
  destruct (single_stock_run probit trials days (calculate_log_returns opens)
              (sr_price r) (fmul initial_investment (sr_weight r)) g0 Hdays
              Hnz)
    as (s & Hrun' & HZ & Hdr & Hpaths & Hlast & Hpv & _).
  rewrite Hrun in Hrun'. injection Hrun' as <-.
  destruct (price_paths_entries probit trials days g0 _ _ (sr_price r)
              (sr_locals r) Hdays HZ Hdr Hpaths) as (H0 & Hrec).
  destruct (price_paths_rows trials days (sr_locals r) (sr_price r)
              Hdays Hpaths) as (Hlen & _).
  assert (Hv : is_Some (Np.get (price_paths (sr_locals r)) (days - 1) k)).
  { destruct (decide (days = 1%nat)) as [->|Hne].
    - rewrite H0 by assumption. eauto.
    - destruct (Hrec (days - 1)%nat k ltac:(lia) Hk)
        as (prev & z & _ & _ & E).
      rewrite E. eauto. }
  destruct Hv as [v Hv]. exists v.
  rewrite last_lookup, Hlen in Hlast.
  replace (Init.Nat.pred days) with (days - 1)%nat in Hlast by lia.
  assert (Hf : final_prices (sr_locals r) !! k = Some v).
  { rewrite <- Hv. symmetry. now apply get_row. }
  split; [exact Hv|]. split; [exact Hf|].
  rewrite Hpv, lookup_map, Hf. unfold terminal_value, position_value.
  now rewrite Hv.
Qed.

Lemma turns_terminal (g : rng) (stock_files : list (list npfloat))
    (rs : list stock_run) (k : nat) :
  (k < trials)%nat ->
  Forall2 (turn_of probit trials days initial_investment g) stock_files rs ->
  Forall (fun v => is_Some (v !! k))
    (map (fun r => portfolio_values (sr_locals r)) rs) /\
  map (fun v => default NaN (v !! k))
    (map (fun r => portfolio_values (sr_locals r)) rs)
  = map (fun r => terminal_value days initial_investment r k) rs.
Proof.
  intros Hk Hturns.
  induction Hturns as [|opens r files rs Hturn Hturns [IH1 IH2]].
  - split; [constructor|reflexivity].
  - destruct (turn_terminal g opens r k Hk Hturn) as (v & _ & _ & Hpv).
    split.
    + cbn [map]. constructor; [rewrite Hpv; eauto|exact IH1].
    + cbn [map]. rewrite IH2, Hpv. reflexivity.
Qed.

(** The run of the portfolio function in terms of its turns: every entry
    (t, k) of the grid is the sum over the stocks of their terminal values
    in trial k. *)
Lemma portfolio_run (stock_files : list (list npfloat))
    (weights : list npfloat) (g : rng) :
  Forall has_price stock_files ->
  (length stock_files <= length weights)%nat ->
  exists (p : portfolio) (g' : rng) (rs : list stock_run),
    monte_carlo_simulation_portfolio probit stock_files weights trials
      days initial_investment g = Ok p g' /\
    simulate_stocks probit weights trials days initial_investment 0
      stock_files g = Ok rs g' /\
    Forall2 (turn_of probit trials days initial_investment g)
      stock_files rs /\
    map sr_weight rs = take (length stock_files) weights /\
    grid p
    = foldl Np.iadd_broadcast (Np.zeros days trials)
        (map (fun r => portfolio_values (sr_locals r)) rs) /\
    last (grid p) = Some (final_portfolio_values p) /\
    length (grid p) = days /\
    (forall t k, (t < days)%nat -> (k < trials)%nat ->
       Np.get (grid p) t k
       = Some (Np.sum
                 (map (fun r => terminal_value days initial_investment r k)
                    rs))).
Proof.
  intros Hne Hlen.
  destruct (simulate_stocks_total probit weights trials days
              initial_investment stock_files 0 g Hdays Hne Hlen)
    as (rs & Hrs & Hturns & Hws).
  unfold monte_carlo_simulation_portfolio, bind.
  rewrite portfolio_loop_view, Hrs. cbn [fst snd].
  set (G := foldl Np.iadd_broadcast (Np.zeros days trials) _).
  assert (HG : length G = days).
  { unfold G. rewrite length_foldl_iadd. unfold Np.zeros.
    apply length_replicate. }
  unfold py_last.
  destruct (last G) as [row|] eqn:Elast.
  - eexists _, _, rs. split; [reflexivity|]. cbn [grid final_portfolio_values].
    split; [reflexivity|]. split; [exact Hturns|].
    split; [exact Hws|]. split; [reflexivity|].
    split; [exact Elast|]. split; [exact HG|].
    intros t k Ht Hk.
    destruct (turns_terminal g stock_files rs k Hk Hturns) as (Hsome & Hmap).
    unfold G. rewrite (get_foldl_iadd _ _ t k (Fin 0)).
    + now rewrite Hmap.
    + now apply get_zeros.
    + exact Hsome.
  - exfalso. rewrite last_lookup, HG in Elast.
    apply lookup_ge_None in Elast. lia.
Qed.

End Grid.

(** ** Properties of the portfolio grid *)

Section GridProperties.

Lemma rows_identical_foldl_iadd (vs : list array1) (G : array2) :
  (forall t t', (t < length G)%nat -> (t' < length G)%nat ->
     G !! t = G !! t') ->
  forall t t', (t < length G)%nat -> (t' < length G)%nat ->
    foldl Np.iadd_broadcast G vs !! t = foldl Np.iadd_broadcast G vs !! t'.
Proof.
  revert G. induction vs as [|v vs IH]; intros G HG t t' Ht Ht'.
  - now apply HG.
  - cbn [foldl].
    assert (HL : length (Np.iadd_broadcast G v) = length G)
      by apply length_map.
    apply IH; rewrite ?HL; try assumption.
    intros u u' Hu Hu'. unfold Np.iadd_broadcast.
    rewrite !lookup_map. now rewrite (HG u u').
Qed.

Lemma rows_identical_zeros (days trials t t' : nat) :
  (t < days)%nat -> (t' < days)%nat ->
  Np.zeros days trials !! t = Np.zeros days trials !! t'.
Proof.
  intros Ht Ht'. unfold Np.zeros.
  now rewrite !lookup_replicate_2.
Qed.

(** C10. With at least one day, price lists that end in a non-zero price and
    a weight for every stock, the portfolio function returns, and its
    (days, trials) grid has identical rows: every entry (t, k) is the sum over the stocks of
    terminal price[k] * (allocation / current price), so every row equals
    the last one, which is final_portfolio_values. *)
Theorem C10_grid_rows_identical (probit : R -> R)
    (stock_files : list (list npfloat)) (weights : list npfloat)
    (trials days : nat) (initial_investment : npfloat) (g : rng) :
  (1 <= days)%nat ->
  Forall has_price stock_files ->
  (length stock_files <= length weights)%nat ->
  exists (p : portfolio) (g' : rng) (rs : list stock_run),
    monte_carlo_simulation_portfolio probit stock_files weights trials
      days initial_investment g = Ok p g' /\
    simulate_stocks probit weights trials days initial_investment 0
      stock_files g = Ok rs g' /\
    length (grid p) = days /\
    (forall t k, (t < days)%nat -> (k < trials)%nat ->
       Np.get (grid p) t k
       = Some (Np.sum
                 (map (fun r => terminal_value days initial_investment r k)
                    rs))) /\
    (forall t t' k, (t < days)%nat -> (t' < days)%nat ->
       Np.get (grid p) t k = Np.get (grid p) t' k) /\
    (forall t, (t < days)%nat ->
       grid p !! t = Some (final_portfolio_values p)).
Proof.
  intros Hdays Hne Hlen.
  destruct (portfolio_run probit trials days initial_investment Hdays
              stock_files weights g Hne Hlen)
    as (p & g' & rs & Hrun & Hrs & _ & _ & Hgrid & Hlast & HG & Hentry).
  exists p, g', rs.
  split; [exact Hrun|]. split; [exact Hrs|]. split; [exact HG|].
  split; [exact Hentry|].
  assert (Hrows : forall t t', (t < days)%nat -> (t' < days)%nat ->
            grid p !! t = grid p !! t').
  { intros t t' Ht Ht'. rewrite Hgrid.
    apply rows_identical_foldl_iadd.
    - intros u u'. unfold Np.zeros at 1 2. rewrite length_replicate.
      apply rows_identical_zeros.
    - unfold Np.zeros. now rewrite length_replicate.
    - unfold Np.zeros. now rewrite length_replicate. }
  split.
  - intros t t' k Ht Ht'. unfold Np.get. now rewrite (Hrows t t').
  - intros t Ht. rewrite <- Hlast, last_lookup, HG.
    apply Hrows; lia.
Qed.

Lemma C10_grid_rows_identical_witness :
  exists (p : portfolio) (g' : rng),
    monte_carlo_simulation_portfolio (fun _ => 0)
      [[Fin 1; Fin 2]; [Fin 100; Fin 100]] [Fin (2 / 5); Fin (3 / 5)]
      1 3 (Fin 1000) (mkRng (fun _ => 1 / 2) 0) = Ok p g' /\
    Np.get (grid p) 0 0 = Np.get (grid p) 2 0.
Proof.
  destruct (C10_grid_rows_identical (fun _ => 0)
              [[Fin 1; Fin 2]; [Fin 100; Fin 100]]
              [Fin (2 / 5); Fin (3 / 5)] 1 3 (Fin 1000)
              (mkRng (fun _ => 1 / 2) 0))
    as (p & g' & rs & Hrun & _ & _ & _ & Hrows & _).
  - lia.
  - prices_ok.
  - simpl. lia.
  - exists p, g'. split; [exact Hrun|]. apply Hrows; lia.
Defined.

End GridProperties.

(** ** The value of the portfolio on day 0 *)

Section DayZero.

Variable probit : R -> R.
Variables trials days : nat.
Variable inv : R.
Hypothesis Hdays : (1 <= days)%nat.

(** On day 0 the position in a stock is worth its allocation. *)
Lemma turn_day0 (g : rng) (opens : list npfloat) (r : stock_run)
    (k : nat) (c w : R) :
  (k < trials)%nat ->
  turn_of probit trials days (Fin inv) g opens r ->
  sr_price r = Fin c -> c <> 0 -> sr_weight r = Fin w ->
  position_value 0 (Fin inv) r k = Fin (inv * w).
Proof.
  intros Hk (_ & Hnz & g0 & _ & Hrun) Hc Hc0 Hw.
  destruct (single_stock_run probit trials days (calculate_log_returns opens)
              (sr_price r) (fmul (Fin inv) (sr_weight r)) g0 Hdays Hnz)
    as (s & Hrun' & HZ & Hdr & Hpaths & _).
  rewrite Hrun in Hrun'. injection Hrun' as <-.
  destruct (price_paths_entries probit trials days g0 _ _ (sr_price r)
              (sr_locals r) Hdays HZ Hdr Hpaths) as (H0 & _).
  unfold position_value. rewrite (H0 k Hk), Hc, Hw.
  cbn [default from_option Datatypes.id fmul].
  rewrite fdiv_Fin by assumption. cbn [fmul]. f_equal. now field.
Qed.

Lemma turns_day0 (g : rng) (stock_files : list (list npfloat))
    (rs : list stock_run) (k : nat) :
  (k < trials)%nat ->
  Forall2 (turn_of probit trials days (Fin inv) g) stock_files rs ->
  Forall (fun opens => exists c : R, last opens = Some (Fin c) /\ c <> 0)
    stock_files ->
  forall wl : list R,
    map sr_weight rs = map Fin wl ->
    map (fun r => position_value 0 (Fin inv) r k) rs
    = map Fin (map (fun w => inv * w) wl).
Proof.
  intros Hk Hturns.
  induction Hturns as [|opens r files rs Hturn Hturns IH];
    intros Hprices wl Hws.
  - destruct wl; [reflexivity|discriminate].
  - destruct wl as [|w wl]; [discriminate|].
    cbn [map] in Hws. injection Hws as Hw Hws.
    apply Forall_cons in Hprices as [(c & Hc & Hc0) Hprices].
    cbn [map]. rewrite (IH Hprices wl Hws). f_equal.
    apply (turn_day0 g opens r k c w Hk Hturn); try assumption.
    destruct Hturn as (Hlast & _). rewrite Hc in Hlast. now injection Hlast.
Qed.

End DayZero.

Section DayZeroClaim.

(** C1, as the code has it.  Let the stocks have finite, non-zero current
    prices and let the allocations initial_investment * weight sum to T.
    Then, for every trial k, the sum over the stocks of
    Path[0][k] * (allocation / price) is T; and the day-0 row of the grid
    that the portfolio function accumulates holds T when days = 1. *)
Theorem C1_day0_value (probit : R -> R) (stock_files : list (list npfloat))
    (ws : list R) (trials days : nat) (inv T : R) (g : rng) :
  (1 <= days)%nat ->
  Forall (fun opens => exists c : R, last opens = Some (Fin c) /\ c <> 0)
    stock_files ->
  (length stock_files <= length ws)%nat ->
  Rsum (map (fun w => inv * w) (take (length stock_files) ws)) = T ->
  exists (p : portfolio) (g' : rng) (rs : list stock_run),
    monte_carlo_simulation_portfolio probit stock_files (map Fin ws) trials
      days (Fin inv) g = Ok p g' /\
    simulate_stocks probit (map Fin ws) trials days (Fin inv) 0
      stock_files g = Ok rs g' /\
    (forall k, (k < trials)%nat ->
       Np.sum (map (fun r => position_value 0 (Fin inv) r k) rs) = Fin T) /\
    (days = 1%nat ->
     forall k, (k < trials)%nat -> Np.get (grid p) 0 k = Some (Fin T)).
Proof.
  intros Hdays Hprices Hlen HT.
  assert (Hne : Forall has_price stock_files).
  { eapply Forall_impl; [exact Hprices|].
    intros opens (c & Hc & Hc0). split.
    - intros ->. discriminate.
    - rewrite Hc. intros E. injection E as E. contradiction. }
  destruct (portfolio_run probit trials days (Fin inv) Hdays stock_files
              (map Fin ws) g Hne)
    as (p & g' & rs & Hrun & Hrs & Hturns & Hws & _ & _ & _ & Hentry).
  { now rewrite length_map. }
  exists p, g', rs. split; [exact Hrun|]. split; [exact Hrs|].
  rewrite firstn_map in Hws.
  assert (Hsum : forall k, (k < trials)%nat ->
            Np.sum (map (fun r => position_value 0 (Fin inv) r k) rs)
            = Fin T).
  { intros k Hk.
    rewrite (turns_day0 probit trials days inv Hdays g stock_files rs k Hk
               Hturns Hprices _ Hws).
    now rewrite sum_Fin, HT. }
  split; [exact Hsum|].
  intros -> k Hk. rewrite Hentry by lia.
  f_equal. exact (Hsum k Hk).
Qed.

Lemma C1_day0_value_witness :
  exists (p : portfolio) (g' : rng),
    monte_carlo_simulation_portfolio (fun _ => 0)
      [[Fin 50; Fin 40]; [Fin 10]] (map Fin [3 / 5; 2 / 5]) 1 1 (Fin 1000)
      (mkRng (fun _ => 1 / 2) 0) = Ok p g' /\
    Np.get (grid p) 0 0 = Some (Fin 1000).
Proof.
  destruct (C1_day0_value (fun _ => 0) [[Fin 50; Fin 40]; [Fin 10]]
              [3 / 5; 2 / 5] 1 1 1000 1000 (mkRng (fun _ => 1 / 2) 0))
    as (p & g' & rs & Hrun & _ & _ & Hgrid).
  - lia.
  - repeat constructor.
    + exists 40. split; [reflexivity|lra].
    + exists 10. split; [reflexivity|lra].
  - simpl. lia.
  - simpl. lra.
  - exists p, g'. split; [exact Hrun|]. apply Hgrid; [reflexivity|lia].
Defined.

End DayZeroClaim.

Section DayZeroCounterexample.

Lemma rising_series_returns :
  calculate_log_returns [Fin 1; Fin 2] = [Fin (ln (2 / 1))].
Proof.
  change [Fin 1; Fin 2] with (map Fin [1; 2]).
  rewrite calculate_log_returns_Fin by (repeat constructor; lra).
  reflexivity.
Qed.

(** C1 as stated fails: one stock with opening prices [1, 2], weight 1,
    initial investment 1000, two days, one trial, the draws all 1/2 (so
    that Z = 0).  The allocation is 1000, yet the day-0 row of the grid
    holds the terminal value 2000. *)
Lemma C1_counterexample :
  exists (p : portfolio) (g' : rng),
    monte_carlo_simulation_portfolio (fun _ => 0) [[Fin 1; Fin 2]]
      (map Fin [1]) 1 2 (Fin 1000) (mkRng (fun _ => 1 / 2) 0) = Ok p g' /\
    Rsum (map (fun w => 1000 * w) [1]) = 1000 /\
    Np.get (grid p) 0 0 = Some (Fin 2000) /\
    Np.get (grid p) 0 0 <> Some (Fin 1000).
Proof.
  set (g := mkRng (fun _ => 1 / 2) 0).
  destruct (portfolio_run (fun _ => 0) 1 2 (Fin 1000) ltac:(lia)
              [[Fin 1; Fin 2]] (map Fin [1]) g)
    as (p & g' & rs & Hrun & _ & Hturns & Hws & _ & _ & _ & Hentry).
  { prices_ok. }
  { simpl. lia. }
  exists p, g'. split; [exact Hrun|].
  split; [simpl; lra|].
  assert (E : Np.get (grid p) 0 0 = Some (Fin 2000)).
  { rewrite Hentry by lia.
    inversion Hturns as [|opens r files rs' Hturn Hrest]; subst.
    inversion Hrest; subst. clear Hturns Hrest.
    cbn in Hws. injection Hws as Hw.
    destruct Hturn as (Hlast & Hnz & g0 & Hd & Hrun0).
    cbn in Hlast. injection Hlast as Hprice.
    destruct (single_stock_paths (fun _ => 0) 1 2
                (calculate_log_returns [Fin 1; Fin 2]) (sr_price r)
                (fmul (Fin 1000) (sr_weight r)) g0 ltac:(lia) Hnz)
      as (s & g1 & Hrun1 & H0 & Hrec).
    rewrite Hrun0 in Hrun1. injection Hrun1 as <- _.
    destruct (Hrec 1%nat 0%nat ltac:(lia) ltac:(lia))
      as (prev & z & Hprev & _ & Hz & Hv).
    change (1 - 1)%nat with 0%nat in Hprev.
    rewrite (H0 0%nat ltac:(lia)) in Hprev. injection Hprev as <-.
    rewrite Hd in Hz. cbn [draws g] in Hz.
    rewrite norm_ppf_Fin in Hz by lra. subst z.
    rewrite rising_series_returns, single_sample_statistics in Hv.
    cbn [drift stdev] in Hv.
    cbn [map]. unfold Np.sum. cbn [foldl].
    unfold terminal_value, position_value.
    replace (2 - 1)%nat with 1%nat by lia.
    rewrite Hv, <- Hprice, Hw.
    cbn [default from_option Datatypes.id fmul fadd fexp].
    rewrite fdiv_Fin by lra. cbn [fmul fadd]. do 2 f_equal.
    replace (ln (2 / 1) + 0 * 0) with (ln (2 / 1)) by lra.
    rewrite exp_ln by lra. lra. }
  split; [exact E|].
  rewrite E. intros H. injection H as H. lra.
Qed.

End DayZeroCounterexample.

(** ** Degenerate inputs: short price series and mismatched weights *)

Section Degenerate.

Variable probit : R -> R.
Variable weights : list npfloat.
Variables trials days : nat.
Variable initial_investment : npfloat.

(** With an empty price list as the first stock, opens[-1] raises. *)
Lemma simulate_stocks_empty_first (post : list (list npfloat)) (i : nat)
    (g : rng) :
  simulate_stocks probit weights trials days initial_investment i
    ([] :: post) g = Raise IndexError.
Proof. reflexivity. Qed.

(** An empty price list stops the loop, if no earlier turn has. *)
Lemma simulate_stocks_empty_series (pre post : list (list npfloat))
    (i : nat) (g : rng) :
  exists e : exn,
    simulate_stocks probit weights trials days initial_investment i
      (pre ++ [] :: post) g = Raise e.
Proof.
  revert i g. induction pre as [|opens pre IH]; intros i g.
  - exists IndexError. reflexivity.
  - cbn [app simulate_stocks]. unfold bind.
    destruct (py_last opens g) as [cp g1|e]; [|eauto].
    destruct (py_index weights i g1) as [w g2|e]; [|eauto].
    destruct (monte_carlo_simulation_single_stock probit trials days
                (calculate_log_returns opens) cp
                (fmul initial_investment w) g2) as [s g3|e]; [|eauto].
    destruct (IH (S i) g3) as [e He]. rewrite He. eauto.
Qed.


(** When every earlier turn completes, it is weights[i] that raises. *)
Lemma simulate_stocks_missing_weight_index
    (stock_files : list (list npfloat)) (i : nat) (g : rng) :
  (1 <= days)%nat ->
  Forall has_price stock_files ->
  (i <= length weights)%nat ->
  (length weights < i + length stock_files)%nat ->
  simulate_stocks probit weights trials days initial_investment i
    stock_files g = Raise IndexError.
Proof.
  intros Hdays Hprices. revert i g.
  induction Hprices as [|opens rest (Hopens & Hnz) Hrest IH];
    intros i g Hi Hlen.
  - simpl in Hlen. lia.
  - destruct (last opens) as [cp|] eqn:Elast;
      [|apply last_None in Elast; contradiction].
    assert (Hcp : cp <> Fin 0) by (intros ->; now apply Hnz).
    cbn [simulate_stocks]. unfold bind, py_last, py_index.
    rewrite Elast.
    destruct (weights !! i) as [w|] eqn:Ew; [|reflexivity].
    apply lookup_lt_Some in Ew.
    destruct (single_stock_run probit trials days
                (calculate_log_returns opens) cp
                (fmul initial_investment w) g Hdays Hcp) as (s & Hrun & _).
    unfold ret. rewrite Hrun, IH; [reflexivity|lia|].
    cbn [length] in Hlen. lia.
Qed.

Lemma portfolio_raises (stock_files : list (list npfloat)) (g : rng)
    (e : exn) :
  simulate_stocks probit weights trials days initial_investment 0
    stock_files g = Raise e ->
  monte_carlo_simulation_portfolio probit stock_files weights trials days
    initial_investment g = Raise e.
Proof.
  intros H. unfold monte_carlo_simulation_portfolio, bind.
  now rewrite portfolio_loop_view, H.
Qed.

Lemma fmul_NaN_r (x : npfloat) : fmul x NaN = NaN.
Proof. now destruct x. Qed.

(** With NaN statistics every price after day 0 is NaN. *)
Lemma nan_paths (log_returns : array1) (current_price alloc : npfloat)
    (g : rng) (s : single_stock) (g' : rng) :
  (1 <= days)%nat ->
  current_price <> Fin 0 ->
  return_statistics log_returns = mkStatistics NaN NaN NaN NaN ->
  monte_carlo_simulation_single_stock probit trials days log_returns
    current_price alloc g = Ok s g' ->
  (forall k, (k < trials)%nat ->
     Np.get (price_paths s) 0 k = Some current_price) /\
  (forall t k, (1 <= t < days)%nat -> (k < trials)%nat ->
     Np.get (price_paths s) t k = Some NaN).
Proof.
  intros Hdays Hprice Hst Hrun.
  destruct (single_stock_paths probit trials days log_returns current_price
              alloc g Hdays Hprice) as (s' & g1 & Hrun' & H0 & Hrec).
  rewrite Hrun in Hrun'. injection Hrun' as <- _.
  split; [exact H0|].
  intros t k Ht Hk.
  destruct (Hrec t k Ht Hk) as (prev & z & _ & _ & _ & Hv).
  rewrite Hv, Hst. cbn [drift stdev fadd fexp].
  now rewrite fmul_NaN_r.
Qed.

End Degenerate.

Section DegenerateClaims.

(** The call for a stock whose statistics are NaN: the price paths hold the
    current price on day 0 and NaN afterwards, and with two days or more
    everything the call returns is NaN. *)
Lemma nan_statistics_run (probit : R -> R) (trials days : nat)
    (log_returns : array1) (current_price allocation : npfloat) (g : rng) :
  (1 <= days)%nat ->
  current_price <> Fin 0 ->
  return_statistics log_returns = mkStatistics NaN NaN NaN NaN ->
  exists s : single_stock,
    monte_carlo_simulation_single_stock probit trials days log_returns
      current_price allocation g = Ok s (advance g (days * trials)) /\
    length (price_paths s) = days /\
    (forall k, (k < trials)%nat ->
       Np.get (price_paths s) 0 k = Some current_price) /\
    (forall t k, (1 <= t < days)%nat -> (k < trials)%nat ->
       Np.get (price_paths s) t k = Some NaN) /\
    ((2 <= days)%nat ->
     final_prices s = replicate trials NaN /\
     portfolio_values s = replicate trials NaN /\
     individual_stock_returns s = replicate trials NaN).
Proof.
  intros Hdays Hprice Hst.
  destruct (single_stock_terminal probit trials days log_returns
              current_price allocation g Hdays Hprice)
    as (s & Hrun & Hlen & Hlast & Hfl & Hterm & Hpv & Hisr).
  destruct (nan_paths probit trials days log_returns current_price
              allocation g s _ Hdays Hprice Hst Hrun) as (H0 & Hnan).
  exists s. split; [exact Hrun|]. split; [exact Hlen|].
  split; [exact H0|]. split; [exact Hnan|].
  intros Htwo.
  assert (Hfinal : final_prices s = replicate trials NaN).
  { apply list_eq. intros k.
    destruct (decide (k < trials)%nat) as [Hk|Hk].
    - destruct (Hterm k Hk) as (v & Hv & Hf).
      rewrite Hnan in Hv by lia. injection Hv as <-.
      rewrite Hf. symmetry. now apply lookup_replicate_2.
    - rewrite !lookup_ge_None_2; [reflexivity| |];
        rewrite ?length_replicate; lia. }
  rewrite Hpv, Hisr, Hfinal, !map_replicate.
  split; [reflexivity|]. split; reflexivity.
Qed.

(** C6, as the code has it.  A stock with exactly one price (not zero) raises
    no error in the estimation or in the simulation: calculate_log_returns
    returns the empty sample, the mean, variance, drift and stdev computed
    from it are NaN, and (with at least one day) the call of
    monte_carlo_simulation_single_stock for the stock returns; its price
    paths hold the price on day 0 and NaN on every later day, and with two
    days or more the values and the returns it hands back are NaN.  A stock
    with no price makes the run raise: IndexError (from opens[-1]) when it is
    the first stock. *)
Theorem C6_short_series (probit : R -> R) (x : npfloat)
    (weights : list npfloat) (trials days : nat)
    (initial_investment allocation : npfloat) (g : rng) :
  (1 <= days)%nat ->
  x <> Fin 0 ->
  calculate_log_returns [x] = [] /\
  return_statistics (calculate_log_returns [x])
  = mkStatistics NaN NaN NaN NaN /\
  (exists s : single_stock,
      monte_carlo_simulation_single_stock probit trials days
        (calculate_log_returns [x]) x allocation g
      = Ok s (advance g (days * trials)) /\
      length (price_paths s) = days /\
      (forall k, (k < trials)%nat ->
         Np.get (price_paths s) 0 k = Some x) /\
      (forall t k, (1 <= t < days)%nat -> (k < trials)%nat ->
         Np.get (price_paths s) t k = Some NaN) /\
      ((2 <= days)%nat ->
       final_prices s = replicate trials NaN /\
       portfolio_values s = replicate trials NaN /\
       individual_stock_returns s = replicate trials NaN)) /\
  (forall post : list (list npfloat),
      monte_carlo_simulation_portfolio probit ([] :: post) weights
        trials days initial_investment g = Raise IndexError) /\
  (forall pre post : list (list npfloat),
      exists e : exn,
        monte_carlo_simulation_portfolio probit (pre ++ [] :: post) weights
          trials days initial_investment g = Raise e).
Proof.
  intros Hdays Hx.
  split; [reflexivity|]. split; [apply return_statistics_empty|].
  split; [|split].
  - apply nan_statistics_run; try assumption.
    apply return_statistics_empty.
  - intros post. apply portfolio_raises, simulate_stocks_empty_first.
  - intros pre post.
    destruct (simulate_stocks_empty_series probit weights trials days
                initial_investment pre post 0 g) as [e He].
    exists e. now apply portfolio_raises.
Qed.

Lemma C6_short_series_witness :
  exists s : single_stock,
    monte_carlo_simulation_single_stock (fun _ => 0) 1 2
      (calculate_log_returns [Fin 100]) (Fin 100) (Fin 1000)
      (mkRng (fun _ => 1 / 2) 0)
    = Ok s (advance (mkRng (fun _ => 1 / 2) 0) (2 * 1)) /\
    Np.get (price_paths s) 1 0 = Some NaN.
Proof.
  destruct (C6_short_series (fun _ => 0) (Fin 100) [Fin 1] 1 2 (Fin 1000)
              (Fin 1000) (mkRng (fun _ => 1 / 2) 0))
    as (_ & _ & (s & Hrun & _ & _ & Hnan & _) & _).
  - lia.
  - apply Fin_nonzero. lra.
  - exists s. split; [exact Hrun|]. apply Hnan; lia.
Defined.

(** The last row of the grid, entry by entry. *)
Lemma final_portfolio_value (probit : R -> R) (trials days : nat)
    (initial_investment : npfloat) (stock_files : list (list npfloat))
    (weights : list npfloat) (g : rng) :
  (1 <= days)%nat ->
  Forall has_price stock_files ->
  (length stock_files <= length weights)%nat ->
  exists (p : portfolio) (g' : rng) (rs : list stock_run),
    monte_carlo_simulation_portfolio probit stock_files weights trials
      days initial_investment g = Ok p g' /\
    simulate_stocks probit weights trials days initial_investment 0
      stock_files g = Ok rs g' /\
    Forall2 (turn_of probit trials days initial_investment g)
      stock_files rs /\
    map sr_weight rs = take (length stock_files) weights /\
    (forall t k, (t < days)%nat -> (k < trials)%nat ->
       Np.get (grid p) t k
       = Some (Np.sum
                 (map (fun r => terminal_value days initial_investment r k)
                    rs))) /\
    (forall k, (k < trials)%nat ->
       final_portfolio_values p !! k
       = Some (Np.sum
                 (map (fun r => terminal_value days initial_investment r k)
                    rs))).
Proof.
  intros Hdays Hprices Hlen.
  destruct (portfolio_run probit trials days initial_investment Hdays
              stock_files weights g Hprices Hlen)
    as (p & g' & rs & Hrun & Hrs & Hturns & Hws & _ & Hlast & Hglen & Hentry).
  exists p, g', rs. split; [exact Hrun|]. split; [exact Hrs|].
  split; [exact Hturns|]. split; [exact Hws|]. split; [exact Hentry|].
  intros k Hk. rewrite last_lookup, Hglen in Hlast.
  rewrite <- (get_row _ _ _ _ Hlast). apply Hentry; [lia|exact Hk].
Qed.

(** C6 as stated fails.  A stock with the single price 100 has fewer than
    two prices; its statistics are NaN and no error is raised.  With two
    days and one trial the call for the stock returns the price paths
    [[100], [NaN]] and NaN as value and as return.  With one day the whole
    portfolio function returns, with the final portfolio value 1000. *)
Lemma C6_counterexample :
  (length [Fin 100] < 2)%nat /\
  return_statistics (calculate_log_returns [Fin 100])
  = mkStatistics NaN NaN NaN NaN /\
  (exists (s : single_stock) (g' : rng),
      monte_carlo_simulation_single_stock (fun _ => 0) 1 2
        (calculate_log_returns [Fin 100]) (Fin 100) (Fin 1000)
        (mkRng (fun _ => 1 / 2) 0) = Ok s g' /\
      Np.get (price_paths s) 0 0 = Some (Fin 100) /\
      Np.get (price_paths s) 1 0 = Some NaN /\
      portfolio_values s = [NaN] /\
      individual_stock_returns s = [NaN]) /\
  (exists (p : portfolio) (g' : rng),
      monte_carlo_simulation_portfolio (fun _ => 0) [[Fin 100]] [Fin 1] 1 1
        (Fin 1000) (mkRng (fun _ => 1 / 2) 0) = Ok p g' /\
      final_portfolio_values p !! 0%nat = Some (Fin 1000)).
Proof.
  split; [simpl; lia|]. split; [apply return_statistics_empty|]. split.
  - destruct (nan_statistics_run (fun _ => 0) 1 2
                (calculate_log_returns [Fin 100]) (Fin 100) (Fin 1000)
                (mkRng (fun _ => 1 / 2) 0))
      as (s & Hrun & _ & H0 & Hnan & Hres).
    + lia.
    + apply Fin_nonzero. lra.
    + apply return_statistics_empty.
    + destruct (Hres ltac:(lia)) as (_ & Hpv & Hisr).
      eexists s, _. split; [exact Hrun|].
      split; [apply H0; lia|]. split; [apply Hnan; lia|].
      split; [exact Hpv|exact Hisr].
  - set (g := mkRng (fun _ => 1 / 2) 0).
    destruct (final_portfolio_value (fun _ => 0) 1 1 (Fin 1000) [[Fin 100]]
                [Fin 1] g)
      as (p & g' & rs & Hrun & _ & Hturns & Hws & _ & Hfinal).
    { lia. }
    { prices_ok. }
    { simpl. lia. }
    exists p, g'. split; [exact Hrun|].
    rewrite Hfinal by lia.
    inversion Hturns as [|opens r files rs' Hturn Hrest]; subst.
    inversion Hrest; subst. clear Hturns Hrest.
    cbn in Hws. injection Hws as Hw.
    pose proof Hturn as (Hlast & _).
    cbn in Hlast. injection Hlast as Hprice.
    cbn [map]. unfold Np.sum. cbn [foldl]. unfold terminal_value.
    change (1 - 1)%nat with 0%nat.
    rewrite (turn_day0 (fun _ => 0) 1 1 1000 ltac:(lia) g [Fin 100] r 0
               100 1); try lia; try lra; try (now symmetry); try exact Hturn.
    cbn [fadd]. do 2 f_equal. lra.
Qed.








End DegenerateClaims.

(** * Further properties of the program *)

(** ** Log returns *)

Section LogReturns.

Lemma ln_ratio (x y : R) : 0 < x -> 0 < y -> ln (x / y) = ln x - ln y.
Proof.
  intros Hx Hy. unfold Rdiv.
  rewrite ln_mult by (try apply Rinv_0_lt_compat; assumption).
  rewrite ln_Rinv by assumption. lra.
Qed.

(** The log returns of positive prices add up to a difference of two
    logarithms: the sum telescopes. *)
Lemma Rsum_log_ratios (a : R) (ps : list R) :
  Forall (fun p => 0 < p) (a :: ps) ->
  Rsum (zip_with (fun p q => ln (p / q)) ps (removelast (a :: ps)))
  = ln (default a (last ps)) - ln a.
Proof.
  revert a. induction ps as [|b ps IH]; intros a Hpos.
  - simpl. lra.
  - apply Forall_cons in Hpos as [Ha Hpos].
    pose proof Hpos as Hpos'. apply Forall_cons in Hpos' as [Hb _].
    change (removelast (a :: b :: ps)) with (a :: removelast (b :: ps)).
    cbn [zip_with Rsum foldr]. fold (Rsum (zip_with (fun p q => ln (p / q)) ps
                                            (removelast (b :: ps)))).
    rewrite (IH b Hpos), ln_ratio by assumption.
    destruct ps as [|c ps]; simpl; [lra|].
    rewrite last_cons. destruct (last ps); simpl; lra.
Qed.

(** Every log return is np.log of the ratio of two neighbouring prices,
    whatever the prices are. *)
Lemma lookup_calculate_log_returns (opens : list npfloat) (t : nat)
    (p q : npfloat) :
  opens !! t = Some q -> opens !! S t = Some p ->
  calculate_log_returns opens !! t = Some (flog (fdiv p q)).
Proof.
  intros Hq Hp. unfold calculate_log_returns. rewrite lookup_map.
  assert (E : zip_with fdiv (tail opens) (removelast opens) !! t
              = Some (fdiv p q)).
  { apply lookup_zip_with_Some. exists p, q. split; [reflexivity|].
    split; [now rewrite lookup_tail|].
    rewrite lookup_removelast; [assumption|].
    now apply lookup_lt_Some in Hp. }
  now rewrite E.
Qed.

(** X1. For N >= 2 positive prices the log returns sum to
    ln(last price / first price), so the mean log return that the simulation
    uses is ln(last / first) / (N - 1): it depends on the first and the last
    price only. *)
Theorem log_returns_telescope (prices : list R) (first final : R) :
  Forall (fun p => 0 < p) prices ->
  (2 <= length prices)%nat ->
  head prices = Some first ->
  last prices = Some final ->
  Np.sum (calculate_log_returns (map Fin prices)) = Fin (ln (final / first)) /\
  u (return_statistics (calculate_log_returns (map Fin prices)))
  = Fin (ln (final / first) / INR (length prices - 1)).
Proof.
  intros Hpos Hlen Hfirst Hlast.
  destruct prices as [|a ps]; [discriminate|].
  injection Hfirst as ->.
  destruct ps as [|b ps]; [simpl in Hlen; lia|].
  rewrite last_cons_cons in Hlast.
  assert (Hfinal : default first (last (b :: ps)) = final)
    by now rewrite Hlast.
  assert (Hsum : Rsum (zip_with (fun p q => ln (p / q)) (b :: ps)
                         (removelast (first :: b :: ps)))
                 = ln (final / first)).
  { rewrite (Rsum_log_ratios first (b :: ps) Hpos), Hfinal.
    pose proof Hpos as Hpos'. apply Forall_cons in Hpos' as [Hfirst _].
    assert (Hf : 0 < final).
    { apply last_Some_elem_of in Hlast.
      rewrite Forall_forall in Hpos. apply Hpos.
      now apply list_elem_of_further. }
    now rewrite ln_ratio. }
  rewrite (calculate_log_returns_Fin _ Hpos). cbn [tail].
  split.
  - now rewrite sum_Fin, Hsum.
  - unfold return_statistics. cbn [u].
    rewrite mean_Fin by discriminate.
    unfold sample_mean. rewrite Hsum. do 2 f_equal.
    rewrite length_zip_with, length_removelast. f_equal. simpl. lia.
Qed.

Lemma log_returns_telescope_witness :
  Np.sum (calculate_log_returns (map Fin [100; 102; 101; 105]))
  = Fin (ln (105 / 100)).
Proof.
  apply (log_returns_telescope [100; 102; 101; 105] 100 105).
  - repeat constructor; lra.
  - simpl. lia.
  - reflexivity.
  - reflexivity.
Defined.

End LogReturns.

Section LogReturnsScale.

Lemma log_ratios_scale (c : R) (ps qs : list R) :
  c <> 0 -> Forall (fun q => q <> 0) qs ->
  zip_with (fun p q => ln (p / q)) (map (Rmult c) ps) (map (Rmult c) qs)
  = zip_with (fun p q => ln (p / q)) ps qs.
Proof.
  intros Hc Hqs. revert ps.
  induction Hqs as [|q qs Hq Hqs IH]; intros [|p ps]; try reflexivity.
  cbn [map zip_with]. rewrite IH. do 2 f_equal. now field.
Qed.

(** X2. The log returns do not depend on the unit of the prices: multiplying
    every price of a positive series by a constant c > 0 leaves every ratio
    opens[t+1] / opens[t] unchanged as a real number, so the log returns are
    the same in exact arithmetic (in float64 the two results agree up to the
    rounding of the scaled prices and of their ratios). *)
Theorem log_returns_scale_invariant (c : R) (prices : list R) :
  0 < c ->
  Forall (fun p => 0 < p) prices ->
  calculate_log_returns (map Fin (map (Rmult c) prices))
  = calculate_log_returns (map Fin prices).
Proof.
  intros Hc Hpos.
  assert (Hpos' : Forall (fun p => 0 < p) (map (Rmult c) prices)).
  { induction Hpos; constructor; [|assumption].
    now apply Rmult_lt_0_compat. }
  rewrite !calculate_log_returns_Fin by assumption.
  rewrite tail_map, removelast_map. f_equal.
  apply log_ratios_scale; [lra|].
  apply Forall_removelast. eapply Forall_impl; [exact Hpos|].
  intros p Hp. simpl in Hp. lra.
Qed.

Lemma log_returns_scale_invariant_witness :
  calculate_log_returns (map Fin (map (Rmult 2) [100; 102; 101]))
  = calculate_log_returns (map Fin [100; 102; 101]).
Proof.
  apply log_returns_scale_invariant.
  - lra.
  - repeat constructor; lra.
Defined.

End LogReturnsScale.

(** ** NaN in the statistics *)

Section NaNStatistics.

Lemma foldl_fadd_NaN (xs : array1) : foldl fadd NaN xs = NaN.
Proof. induction xs as [|x xs IH]; [reflexivity|exact IH]. Qed.

Lemma fadd_NaN_r (x : npfloat) : fadd x NaN = NaN.
Proof. now destruct x. Qed.

Lemma sum_NaN (xs : array1) : NaN ∈ xs -> Np.sum xs = NaN.
Proof.
  intros H. apply list_elem_of_split in H as (l1 & l2 & ->).
  unfold Np.sum. rewrite foldl_app. cbn [foldl].
  rewrite fadd_NaN_r. apply foldl_fadd_NaN.
Qed.

Lemma mean_NaN (xs : array1) : NaN ∈ xs -> Np.mean xs = NaN.
Proof. intros H. unfold Np.mean. now rewrite sum_NaN. Qed.

(** One NaN among the log returns makes the four statistics NaN. *)
Lemma return_statistics_NaN (log_returns : array1) :
  NaN ∈ log_returns ->
  return_statistics log_returns = mkStatistics NaN NaN NaN NaN.
Proof.
  intros H.
  assert (Hvar : Np.var log_returns = NaN).
  { unfold Np.var. apply mean_NaN.
    apply list_elem_of_In, in_map_iff. exists NaN.
    split; [reflexivity|now apply list_elem_of_In]. }
  unfold return_statistics, Np.std.
  rewrite Hvar, (mean_NaN _ H). reflexivity.
Qed.

Lemma flog_negative_ratio (p q : R) :
  0 < q -> p < 0 -> flog (fdiv (Fin p) (Fin q)) = NaN.
Proof.
  intros Hq Hp. rewrite fdiv_Fin by lra. unfold flog.
  assert (Hneg : p / q < 0).
  { pose proof (Rinv_0_lt_compat q Hq) as Hinv. unfold Rdiv. nra. }
  destruct (Rlt_dec 0 (p / q)); [lra|].
  destruct (Rlt_dec (p / q) 0); [reflexivity|lra].
Qed.

(** X3. A negative price after a positive one is not rejected: its log
    return is NaN (the logarithm of a negative ratio), and this one NaN makes
    mean, variance, drift and stdev NaN; the simulation then still returns,
    with NaN in every price after day 0. *)
Theorem negative_price_poisons_statistics (probit : R -> R)
    (opens : list npfloat) (t : nat) (p q : R) (trials days : nat)
    (current_price initial_investment : npfloat) (g : rng) :
  opens !! t = Some (Fin q) -> opens !! S t = Some (Fin p) ->
  0 < q -> p < 0 ->
  (1 <= days)%nat -> current_price <> Fin 0 ->
  calculate_log_returns opens !! t = Some NaN /\
  return_statistics (calculate_log_returns opens)
  = mkStatistics NaN NaN NaN NaN /\
  exists (s : single_stock) (g' : rng),
    monte_carlo_simulation_single_stock probit trials days
      (calculate_log_returns opens) current_price initial_investment g
    = Ok s g' /\
    (forall d k, (1 <= d < days)%nat -> (k < trials)%nat ->
       Np.get (price_paths s) d k = Some NaN).
Proof.
  intros Hq Hp Hqpos Hpneg Hdays Hprice.
  assert (Hnan : calculate_log_returns opens !! t = Some NaN).
  { rewrite (lookup_calculate_log_returns opens t _ _ Hq Hp).
    now rewrite flog_negative_ratio. }
  assert (Hst : return_statistics (calculate_log_returns opens)
                = mkStatistics NaN NaN NaN NaN).
  { apply return_statistics_NaN. eapply list_elem_of_lookup_2, Hnan. }
  split; [exact Hnan|]. split; [exact Hst|].
  destruct (single_stock_run probit trials days (calculate_log_returns opens)
              current_price initial_investment g Hdays Hprice)
    as (s & Hrun & _).
  exists s, (advance g (days * trials)). split; [exact Hrun|].
  now apply (nan_paths probit trials days _ _ _ _ _ _ Hdays Hprice Hst Hrun).
Qed.

Lemma negative_price_poisons_statistics_witness :
  return_statistics (calculate_log_returns [Fin 100; Fin (-5); Fin 101])
  = mkStatistics NaN NaN NaN NaN.
Proof.
  apply (negative_price_poisons_statistics (fun _ => 0)
           [Fin 100; Fin (-5); Fin 101] 0 (-5) 100 1 2 (Fin 101) (Fin 1000)
           (mkRng (fun _ => 1 / 2) 0)).
  - reflexivity.
  - reflexivity.
  - lra.
  - lra.
  - lia.
  - apply Fin_nonzero. lra.
Defined.

End NaNStatistics.

(** ** Statistics of finite samples *)

Section FiniteStatistics.

(** X4. For a non-empty sample of finite log returns the four statistics are
    finite numbers with variance >= 0, stdev >= 0, stdev * stdev = variance
    and drift <= mean. *)
Theorem finite_statistics_bounds (rs : list R) :
  rs <> [] ->
  exists m v d sd : R,
    return_statistics (map Fin rs)
    = mkStatistics (Fin m) (Fin v) (Fin d) (Fin sd) /\
    0 <= v /\ 0 <= sd /\ sd * sd = v /\ d <= m.
Proof.
  intros Hrs.
  pose proof (population_variance_nonneg rs Hrs) as Hv.
  exists (sample_mean rs), (population_variance rs),
    (sample_mean rs - 1 / 2 * population_variance rs),
    (sqrt (population_variance rs)).
  split; [now apply return_statistics_Fin|].
  split; [exact Hv|]. split; [apply sqrt_pos|].
  split; [now apply sqrt_sqrt|lra].
Qed.

Lemma finite_statistics_bounds_witness :
  exists m v d sd : R,
    return_statistics (map Fin [1; 3])
    = mkStatistics (Fin m) (Fin v) (Fin d) (Fin sd) /\
    0 <= v /\ 0 <= sd /\ sd * sd = v /\ d <= m.
Proof. apply finite_statistics_bounds. discriminate. Defined.

End FiniteStatistics.

(** ** Shapes *)

Section Shapes.

Variable probit : R -> R.
Variables trials days : nat.

(** X5. A call with at least one day and a non-zero current price returns
    arrays of the expected shapes: Z, daily_returns and price_paths have
    [days] rows of [trials] entries, and final_prices, portfolio_values and
    individual_stock_returns have [trials] entries. *)
Theorem single_stock_shapes (log_returns : array1)
    (current_price initial_investment : npfloat) (g : rng) :
  (1 <= days)%nat ->
  current_price <> Fin 0 ->
  exists (s : single_stock) (g' : rng),
    monte_carlo_simulation_single_stock probit trials days log_returns
      current_price initial_investment g = Ok s g' /\
    (length (Z s) = days /\ Forall (fun r => length r = trials) (Z s)) /\
    (length (daily_returns s) = days /\
     Forall (fun r => length r = trials) (daily_returns s)) /\
    (length (price_paths s) = days /\
     Forall (fun r => length r = trials) (price_paths s)) /\
    length (final_prices s) = trials /\
    length (portfolio_values s) = trials /\
    length (individual_stock_returns s) = trials.
Proof. apply (single_stock_shape_facts probit trials days). Qed.

End Shapes.

Lemma single_stock_shapes_witness :
  exists (s : single_stock) (g' : rng),
    monte_carlo_simulation_single_stock (fun _ => 0) 3 2 [Fin 0] (Fin 100)
      (Fin 1000) (mkRng (fun _ => 1 / 2) 0) = Ok s g' /\
    length (final_prices s) = 3%nat.
Proof.
  destruct (single_stock_shapes (fun _ => 0) 3 2 [Fin 0] (Fin 100) (Fin 1000)
              (mkRng (fun _ => 1 / 2) 0))
    as (s & g' & Hrun & _ & _ & _ & Hf & _).
  - lia.
  - apply Fin_nonzero. lra.
  - exists s, g'. split; [exact Hrun|exact Hf].
Defined.

(** ** The closed form of the price paths *)

Section ClosedForm.

(** X6. With at least one day, a finite non-zero current price p0, finite
    drift and stdev and the draws of the days t >= 1 strictly between 0 and
    1, the loop computes the closed form of geometric Brownian motion:
    Path[t][k] = p0 * exp(t * drift + stdev * (Z[1][k] + ... + Z[t][k])). *)
Theorem price_paths_closed_form (probit : R -> R) (trials days : nat)
    (log_returns : array1) (p0 d sd : R) (initial_investment : npfloat)
    (g : rng) :
  (1 <= days)%nat ->
  p0 <> 0 ->
  drift (return_statistics log_returns) = Fin d ->
  stdev (return_statistics log_returns) = Fin sd ->
  (forall t k, (1 <= t < days)%nat -> (k < trials)%nat ->
     0 < draws g (pos g + t * trials + k)%nat < 1) ->
  exists (s : single_stock) (g' : rng),
    monte_carlo_simulation_single_stock probit trials days log_returns
      (Fin p0) initial_investment g = Ok s g' /\
    (forall t k, (t < days)%nat -> (k < trials)%nat ->
       Np.get (price_paths s) t k
       = Some (Fin (p0 * exp (INR t * d
                              + sd * cumulative_variate probit g trials k t)))).
Proof.
  intros Hdays Hp0 Hd Hsd Hdraws.
  destruct (closed_form_paths probit trials days log_returns p0 d sd
              initial_investment g Hdays Hp0 Hd Hsd Hdraws) as (s & Hrun & H).
  now exists s, (advance g (days * trials)).
Qed.

Lemma price_paths_closed_form_witness :
  exists (s : single_stock) (g' : rng),
    monte_carlo_simulation_single_stock (fun u => u) 1 3 [Fin 1; Fin 3]
      (Fin 100) (Fin 1000) (mkRng (fun _ => 1 / 2) 0) = Ok s g' /\
    Np.get (price_paths s) 2 0
    = Some (Fin (100 * exp (INR 2 * (2 - 1 / 2 * 1)
                            + sqrt 1 * (0 + 1 / 2 + 1 / 2)))).
Proof.
  destruct (price_paths_closed_form (fun u => u) 1 3 [Fin 1; Fin 3] 100
              (2 - 1 / 2 * 1) (sqrt 1) (Fin 1000)
              (mkRng (fun _ => 1 / 2) 0))
    as (s & g' & Hrun & H).
  - lia.
  - lra.
  - change [Fin 1; Fin 3] with (map Fin [1; 3]).
    rewrite return_statistics_Fin by discriminate. cbn [drift].
    assert (Hm : sample_mean [1; 3] = 2) by (unfold sample_mean; simpl; lra).
    assert (Hv : population_variance [1; 3] = 1).
    { unfold population_variance. rewrite Hm. simpl. lra. }
    now rewrite Hm, Hv.
  - change [Fin 1; Fin 3] with (map Fin [1; 3]).
    rewrite return_statistics_Fin by discriminate. cbn [stdev].
    assert (Hm : sample_mean [1; 3] = 2) by (unfold sample_mean; simpl; lra).
    assert (Hv : population_variance [1; 3] = 1).
    { unfold population_variance. rewrite Hm. simpl. lra. }
    now rewrite Hv.
  - intros t k _ _. simpl. lra.
  - exists s, g'. split; [exact Hrun|]. apply (H 2%nat 0%nat); lia.
Defined.

(** X7. Under the same conditions the percentage return of a trial does not
    depend on the current price nor on the amount invested:
    individual_stock_returns[k]
    = (exp((days-1) * drift + stdev * (Z[1][k] + ... + Z[days-1][k])) - 1) * 100. *)
Theorem individual_returns_closed_form (probit : R -> R) (trials days : nat)
    (log_returns : array1) (p0 d sd : R) (initial_investment : npfloat)
    (g : rng) :
  (1 <= days)%nat ->
  p0 <> 0 ->
  drift (return_statistics log_returns) = Fin d ->
  stdev (return_statistics log_returns) = Fin sd ->
  (forall t k, (1 <= t < days)%nat -> (k < trials)%nat ->
     0 < draws g (pos g + t * trials + k)%nat < 1) ->
  exists (s : single_stock) (g' : rng),
    monte_carlo_simulation_single_stock probit trials days log_returns
      (Fin p0) initial_investment g = Ok s g' /\
    (forall k, (k < trials)%nat ->
       individual_stock_returns s !! k
       = Some (Fin ((exp (INR (days - 1) * d
                          + sd * cumulative_variate probit g trials k
                                   (days - 1))
                     - 1) * 100))).
Proof.
  intros Hdays Hp0 Hd Hsd Hdraws.
  destruct (closed_form_paths probit trials days log_returns p0 d sd
              initial_investment g Hdays Hp0 Hd Hsd Hdraws) as (s & Hrun & H).
  exists s, (advance g (days * trials)). split; [exact Hrun|].
  destruct (single_stock_run probit trials days log_returns (Fin p0)
              initial_investment g Hdays (Fin_nonzero p0 Hp0))
    as (s' & Hrun' & _ & _ & Hpaths & Hlast & _ & Hisr).
  rewrite Hrun in Hrun'. injection Hrun' as <-.
  destruct (price_paths_rows trials days s (Fin p0) Hdays Hpaths)
    as (Hlen & _).
  intros k Hk.
  rewrite last_lookup, Hlen in Hlast.
  replace (Init.Nat.pred days) with (days - 1)%nat in Hlast by lia.
  pose proof (H (days - 1)%nat k ltac:(lia) Hk) as Hfin.
  rewrite (get_row _ _ _ _ Hlast) in Hfin.
  rewrite Hisr, lookup_map, Hfin.
  cbn [fmap option_fmap option_map fsub fopp fadd].
  rewrite fdiv_Fin by assumption. cbn [fmul]. do 2 f_equal. now field.
Qed.

Lemma individual_returns_closed_form_witness :
  exists (s : single_stock) (g' : rng),
    monte_carlo_simulation_single_stock (fun u => u) 1 2 [Fin 0]
      (Fin 100) (Fin 1000) (mkRng (fun _ => 1 / 2) 0) = Ok s g' /\
    individual_stock_returns s !! 0%nat
    = Some (Fin ((exp (INR (2 - 1) * 0 + 0 * (0 + 1 / 2)) - 1) * 100)).
Proof.
  destruct (individual_returns_closed_form (fun u => u) 1 2 [Fin 0] 100 0 0
              (Fin 1000) (mkRng (fun _ => 1 / 2) 0))
    as (s & g' & Hrun & H).
  - lia.
  - lra.
  - now rewrite single_sample_statistics.
  - now rewrite single_sample_statistics.
  - intros t k _ _. simpl. lra.
  - exists s, g'. split; [exact Hrun|]. apply (H 0%nat). lia.
Defined.

End ClosedForm.

(** ** The two results of a call *)

Section TwoResults.

(** X8. The two arrays a call returns agree: for a finite allocation a, a
    finite non-zero current price and a finite terminal price in trial k,
    portfolio_values[k] = a * (1 + individual_stock_returns[k] / 100). *)
Theorem value_matches_return (probit : R -> R) (trials days : nat)
    (log_returns : array1) (c a : R) (g : rng) :
  (1 <= days)%nat ->
  c <> 0 ->
  exists (s : single_stock) (g' : rng),
    monte_carlo_simulation_single_stock probit trials days log_returns
      (Fin c) (Fin a) g = Ok s g' /\
    (forall (k : nat) (x : R),
        final_prices s !! k = Some (Fin x) ->
        exists ret : R,
          individual_stock_returns s !! k = Some (Fin ret) /\
          portfolio_values s !! k = Some (Fin (a * (1 + ret / 100)))).
Proof.
  intros Hdays Hc.
  destruct (single_stock_run probit trials days log_returns (Fin c) (Fin a)
              g Hdays (Fin_nonzero c Hc))
    as (s & Hrun & _ & _ & _ & _ & Hpv & Hisr).
  exists s, (advance g (days * trials)). split; [exact Hrun|].
  intros k x Hx. exists ((x - c) / c * 100). split.
  - rewrite Hisr, lookup_map, Hx.
    cbn [fmap option_fmap option_map fsub fopp fadd].
    now rewrite fdiv_Fin by assumption.
  - rewrite Hpv, lookup_map, Hx. cbn [fmap option_fmap option_map].
    rewrite fdiv_Fin by assumption. cbn [fmul]. do 2 f_equal. now field.
Qed.

Lemma value_matches_return_witness :
  exists (s : single_stock) (g' : rng),
    monte_carlo_simulation_single_stock (fun _ => 0) 1 2 [Fin 0] (Fin 100)
      (Fin 1000) (mkRng (fun _ => 1 / 2) 0) = Ok s g'.
Proof.
  destruct (value_matches_return (fun _ => 0) 1 2 [Fin 0] 100 1000
              (mkRng (fun _ => 1 / 2) 0)) as (s & g' & Hrun & _).
  - lia.
  - lra.
  - now exists s, g'.
Defined.

(** X9. With days = 1 nothing is simulated, whatever the log returns are
    (an empty sample included): the trials draws are consumed, price_paths is
    the single row of the current price, and for a finite non-zero price and
    a finite allocation every return is 0 and every value is the
    allocation. *)
Theorem one_day_horizon (probit : R -> R) (trials : nat)
    (log_returns : array1) (c a : R) (g : rng) :
  c <> 0 ->
  exists s : single_stock,
    monte_carlo_simulation_single_stock probit trials 1 log_returns
      (Fin c) (Fin a) g = Ok s (advance g trials) /\
    price_paths s = [replicate trials (Fin c)] /\
    final_prices s = replicate trials (Fin c) /\
    individual_stock_returns s = replicate trials (Fin 0) /\
    portfolio_values s = replicate trials (Fin a).
Proof.
  intros Hc.
  destruct (single_stock_run probit trials 1 log_returns (Fin c) (Fin a)
              g ltac:(lia) (Fin_nonzero c Hc))
    as (s & Hrun & _ & _ & Hpaths & Hlast & Hpv & Hisr).
  exists s. rewrite Nat.mul_1_l in Hrun. split; [exact Hrun|].
  assert (HP : price_paths s = [replicate trials (Fin c)]) by exact Hpaths.
  rewrite HP in Hlast. cbn in Hlast. injection Hlast as Hfinal.
  split; [exact HP|]. split; [now symmetry|].
  rewrite Hisr, Hpv, <- Hfinal, !map_replicate.
  cbn [fsub fopp fadd]. rewrite !fdiv_Fin by assumption. cbn [fmul].
  split; do 2 f_equal; now field.
Qed.

Lemma one_day_horizon_witness :
  exists s : single_stock,
    monte_carlo_simulation_single_stock (fun _ => 0) 2 1 [] (Fin 100)
      (Fin 400) (mkRng (fun _ => 1 / 2) 0)
    = Ok s (advance (mkRng (fun _ => 1 / 2) 0) 2) /\
    portfolio_values s = [Fin 400; Fin 400].
Proof.
  destruct (one_day_horizon (fun _ => 0) 2 [] 100 400
              (mkRng (fun _ => 1 / 2) 0)) as (s & Hrun & _ & _ & _ & Hpv).
  - lra.
  - exists s. split; [exact Hrun|exact Hpv].
Defined.

(** X10. A call returns exactly when there is at least one day and the
    current price is not zero; without a day it raises IndexError (at
    price_paths[0] = current_price), and with a day and a zero price it
    raises ZeroDivisionError (at initial_investment / current_price). *)
Theorem single_stock_returns_iff (probit : R -> R) (trials days : nat)
    (log_returns : array1) (current_price initial_investment : npfloat)
    (g : rng) :
  ((exists (s : single_stock) (g' : rng),
       monte_carlo_simulation_single_stock probit trials days log_returns
         current_price initial_investment g = Ok s g')
   <-> (1 <= days)%nat /\ current_price <> Fin 0) /\
  (days = 0%nat ->
   monte_carlo_simulation_single_stock probit trials days log_returns
     current_price initial_investment g = Raise IndexError) /\
  ((1 <= days)%nat -> current_price = Fin 0 ->
   monte_carlo_simulation_single_stock probit trials days log_returns
     current_price initial_investment g = Raise ZeroDivisionError).
Proof.
  split; [split|split].
  - intros (s & g' & Hrun).
    destruct days as [|d].
    + rewrite single_stock_no_day in Hrun. discriminate.
    + split; [lia|]. intros ->.
      rewrite single_stock_zero_price in Hrun by lia. discriminate.
  - intros (Hdays & Hprice).
    destruct (single_stock_run probit trials days log_returns current_price
                initial_investment g Hdays Hprice) as (s & Hrun & _).
    eauto.
  - intros ->. apply single_stock_no_day.
  - intros Hdays ->. now apply single_stock_zero_price.
Qed.

End TwoResults.

(** ** A flat price history *)

Section FlatHistory.

Lemma Rsum_constant (x : R) (rs : list R) :
  Forall (fun r => r = x) rs -> Rsum rs = INR (length rs) * x.
Proof.
  induction 1 as [|r rs -> _ IH]; [simpl; lra|].
  cbn [Rsum foldr length]. fold (Rsum rs). rewrite IH, S_INR. lra.
Qed.

Lemma Rsum_zero_deviations (x : R) (rs : list R) :
  Forall (fun r => r = x) rs ->
  Rsum (map (fun r => (r - x) * (r - x)) rs) = 0.
Proof.
  induction 1 as [|r rs -> _ IH]; [reflexivity|].
  cbn [map Rsum foldr].
  fold (Rsum (map (fun r => (r - x) * (r - x)) rs)). rewrite IH. lra.
Qed.

(** A sample whose entries are all x has mean x, variance 0, drift x and
    stdev 0. *)
Lemma constant_sample_statistics (x : R) (rs : list R) :
  rs <> [] -> Forall (fun r => r = x) rs ->
  return_statistics (map Fin rs)
  = mkStatistics (Fin x) (Fin 0) (Fin x) (Fin 0).
Proof.
  intros Hne Hall. rewrite return_statistics_Fin by assumption.
  pose proof (INR_length_nonzero rs Hne) as Hn.
  assert (Hm : sample_mean rs = x).
  { unfold sample_mean. rewrite (Rsum_constant x rs Hall). now field. }
  assert (Hv : population_variance rs = 0).
  { unfold population_variance.
    rewrite Hm, (Rsum_zero_deviations x rs Hall). now field. }
  rewrite Hm, Hv, sqrt_0. do 2 f_equal. lra.
Qed.

Lemma log_ratios_constant (p : R) (ps qs : list R) :
  p <> 0 ->
  Forall (fun r => r = p) ps -> Forall (fun r => r = p) qs ->
  Forall (fun r => r = 0) (zip_with (fun a b => ln (a / b)) ps qs).
Proof.
  intros Hp Hps. revert qs.
  induction Hps as [|a ps -> _ IH]; intros qs Hqs; [constructor|].
  destruct Hqs as [|b qs -> Hqs]; [constructor|].
  cbn [zip_with]. constructor; [|now apply IH].
  replace (p / p) with 1 by now field. apply ln_1.
Qed.

(** X11. A flat history gives a flat forecast: when the N >= 2 prices all
    equal p > 0, every log return is 0, drift and stdev are 0, and (with at
    least one day and the draws of the days t >= 1 strictly between 0 and 1)
    every entry of price_paths is p and every percentage return is 0. *)
Theorem flat_history_flat_paths (probit : R -> R) (trials days : nat)
    (prices : list R) (p : R) (initial_investment : npfloat) (g : rng) :
  (2 <= length prices)%nat ->
  0 < p ->
  Forall (fun r => r = p) prices ->
  (1 <= days)%nat ->
  (forall t k, (1 <= t < days)%nat -> (k < trials)%nat ->
     0 < draws g (pos g + t * trials + k)%nat < 1) ->
  return_statistics (calculate_log_returns (map Fin prices))
  = mkStatistics (Fin 0) (Fin 0) (Fin 0) (Fin 0) /\
  exists (s : single_stock) (g' : rng),
    monte_carlo_simulation_single_stock probit trials days
      (calculate_log_returns (map Fin prices)) (Fin p) initial_investment g
    = Ok s g' /\
    (forall t k, (t < days)%nat -> (k < trials)%nat ->
       Np.get (price_paths s) t k = Some (Fin p)) /\
    (forall k, (k < trials)%nat ->
       individual_stock_returns s !! k = Some (Fin 0)).
Proof.
  intros Hlen Hp Hall Hdays Hdraws.
  assert (Hpos : Forall (fun r => 0 < r) prices).
  { eapply Forall_impl; [exact Hall|]. intros r ->. exact Hp. }
  set (rs := zip_with (fun a b => ln (a / b)) (tail prices)
               (removelast prices)).
  assert (Hlr : calculate_log_returns (map Fin prices) = map Fin rs)
    by now apply calculate_log_returns_Fin.
  assert (Hrs0 : Forall (fun r => r = 0) rs).
  { apply (log_ratios_constant p); [lra| |].
    - now apply Forall_tail.
    - now apply Forall_removelast. }
  assert (Hrsne : rs <> []).
  { intros E. apply (f_equal length) in E. unfold rs in E.
    rewrite length_zip_with, length_tl, length_removelast in E.
    simpl in E. lia. }
  assert (Hst : return_statistics (calculate_log_returns (map Fin prices))
                = mkStatistics (Fin 0) (Fin 0) (Fin 0) (Fin 0)).
  { rewrite Hlr. now apply constant_sample_statistics. }
  split; [exact Hst|].
  destruct (closed_form_paths probit trials days
              (calculate_log_returns (map Fin prices)) p 0 0
              initial_investment g Hdays) as (s & Hrun & H); try assumption.
  { lra. }
  { now rewrite Hst. }
  { now rewrite Hst. }
  exists s, (advance g (days * trials)). split; [exact Hrun|].
  assert (Hflat : forall t k, (t < days)%nat -> (k < trials)%nat ->
            Np.get (price_paths s) t k = Some (Fin p)).
  { intros t k Ht Hk. rewrite (H t k Ht Hk). do 2 f_equal.
    replace (INR t * 0 + 0 * cumulative_variate probit g trials k t) with 0
      by lra.
    rewrite exp_0. lra. }
  split; [exact Hflat|].
  intros k Hk.
  destruct (single_stock_run probit trials days
              (calculate_log_returns (map Fin prices)) (Fin p)
              initial_investment g Hdays)
    as (s' & Hrun' & _ & _ & Hpaths & Hlast & _ & Hisr).
  { apply Fin_nonzero. lra. }
  rewrite Hrun in Hrun'. injection Hrun' as <-.
  destruct (price_paths_rows trials days s (Fin p) Hdays Hpaths)
    as (Hlen' & _).
  rewrite last_lookup, Hlen' in Hlast.
  pose proof (Hflat (Init.Nat.pred days) k ltac:(lia) Hk) as Hfin.
  rewrite (get_row _ _ _ _ Hlast) in Hfin.
  rewrite Hisr, lookup_map, Hfin.
  cbn [fmap option_fmap option_map fsub fopp fadd].
  rewrite fdiv_Fin by lra. cbn [fmul]. do 2 f_equal. field. lra.
Qed.

Lemma flat_history_flat_paths_witness :
  return_statistics (calculate_log_returns (map Fin [50; 50; 50]))
  = mkStatistics (Fin 0) (Fin 0) (Fin 0) (Fin 0).
Proof.
  apply (flat_history_flat_paths (fun _ => 0) 2 3 [50; 50; 50] 50 (Fin 1000)
           (mkRng (fun _ => 1 / 2) 0)).
  - simpl. lia.
  - lra.
  - repeat constructor.
  - lia.
  - intros t k _ _. simpl. lra.
Defined.

End FlatHistory.

(** ** Trials do not interact *)

Section TrialIndependence.

(** X12. The path of a trial depends on the draws of that trial only: if a
    second generator stands at the same position and agrees with the first
    on the draws at the positions t*trials + k of the days t >= 1 of trial
    k, the two calls compute the same column k of price_paths, whatever the
    other draws are. *)
Theorem trial_paths_independent (probit : R -> R) (trials days : nat)
    (log_returns : array1) (current_price initial_investment : npfloat)
    (g g2 : rng) (k : nat) :
  (1 <= days)%nat ->
  current_price <> Fin 0 ->
  (k < trials)%nat ->
  pos g2 = pos g ->
  (forall t, (1 <= t < days)%nat ->
     draws g2 (pos g + t * trials + k)%nat
     = draws g (pos g + t * trials + k)%nat) ->
  exists (s s2 : single_stock) (g' g2' : rng),
    monte_carlo_simulation_single_stock probit trials days log_returns
      current_price initial_investment g = Ok s g' /\
    monte_carlo_simulation_single_stock probit trials days log_returns
      current_price initial_investment g2 = Ok s2 g2' /\
    (forall t, (t < days)%nat ->
       Np.get (price_paths s2) t k = Np.get (price_paths s) t k).
Proof.
  intros Hdays Hprice Hk Hpos Hagree.
  destruct (single_stock_paths probit trials days log_returns current_price
              initial_investment g Hdays Hprice)
    as (s & g' & Hrun & H0 & Hrec).
  destruct (single_stock_paths probit trials days log_returns current_price
              initial_investment g2 Hdays Hprice)
    as (s2 & g2' & Hrun2 & H02 & Hrec2).
  exists s, s2, g', g2'. split; [exact Hrun|]. split; [exact Hrun2|].
  induction t as [|t IH]; intros Ht.
  - now rewrite H0, H02.
  - destruct (Hrec (S t) k ltac:(lia) Hk) as (prev & z & Hprev & _ & Hz & Hv).
    destruct (Hrec2 (S t) k ltac:(lia) Hk)
      as (prev2 & z2 & Hprev2 & _ & Hz2 & Hv2).
    replace (S t - 1)%nat with t in Hprev, Hprev2 by lia.
    rewrite (IH ltac:(lia)), Hprev in Hprev2. injection Hprev2 as <-.
    rewrite Hpos, Hagree in Hz2 by lia.
    rewrite Hv, Hv2, Hz, Hz2. reflexivity.
Qed.

Lemma trial_paths_independent_witness :
  exists (s s2 : single_stock) (g' g2' : rng),
    monte_carlo_simulation_single_stock (fun u => u) 2 2 [Fin 0] (Fin 100)
      (Fin 1000) (mkRng (fun _ => 1 / 2) 0) = Ok s g' /\
    monte_carlo_simulation_single_stock (fun u => u) 2 2 [Fin 0] (Fin 100)
      (Fin 1000) (mkRng (fun i => if Nat.eqb i 3 then 1 / 4 else 1 / 2) 0)
    = Ok s2 g2' /\
    Np.get (price_paths s2) 1 0 = Np.get (price_paths s) 1 0.
Proof.
  destruct (trial_paths_independent (fun u => u) 2 2 [Fin 0] (Fin 100)
              (Fin 1000) (mkRng (fun _ => 1 / 2) 0)
              (mkRng (fun i => if Nat.eqb i 3 then 1 / 4 else 1 / 2) 0) 0)
    as (s & s2 & g' & g2' & Hrun & Hrun2 & H).
  - lia.
  - apply Fin_nonzero. lra.
  - lia.
  - reflexivity.
  - intros t Ht. assert (t = 1%nat) as -> by lia. reflexivity.
  - exists s, s2, g', g2'. split; [exact Hrun|]. split; [exact Hrun2|].
    apply H. lia.
Defined.

End TrialIndependence.

(** ** The draws of a portfolio *)

Section PortfolioDraws.

Variable probit : R -> R.
Variable weights : list npfloat.
Variables trials days : nat.
Variable initial_investment : npfloat.

Lemma advance_zero (g : rng) : advance g 0 = g.
Proof. destruct g as [d p]. unfold advance. simpl. now rewrite Nat.add_0_r. Qed.

(** Turn j of the loop calls the simulation at position j * days * trials
    of the stream. *)
Lemma simulate_stocks_positions (stock_files : list (list npfloat))
    (i : nat) (g : rng) :
  (1 <= days)%nat ->
  Forall has_price stock_files ->
  (i + length stock_files <= length weights)%nat ->
  exists rs : list stock_run,
    simulate_stocks probit weights trials days initial_investment i
      stock_files g
    = Ok rs (advance g (length stock_files * (days * trials))) /\
    length rs = length stock_files /\
    (forall j opens, stock_files !! j = Some opens ->
       exists r : stock_run,
         rs !! j = Some r /\
         last opens = Some (sr_price r) /\
         sr_price r <> Fin 0 /\
         weights !! (i + j)%nat = Some (sr_weight r) /\
         monte_carlo_simulation_single_stock probit trials days
           (calculate_log_returns opens) (sr_price r)
           (fmul initial_investment (sr_weight r))
           (advance g (j * (days * trials)))
         = Ok (sr_locals r) (advance g (S j * (days * trials)))).
Proof.
  intros Hdays Hprices. revert i g.
  induction Hprices as [|opens rest (Hopens & Hnz) Hrest IH];
    intros i g Hlen.
  - exists []. split; [|split].
    + simpl. unfold ret. now rewrite advance_zero.
    + reflexivity.
    + intros j o Hj. discriminate.
  - cbn [length] in Hlen.
    destruct (last opens) as [cp|] eqn:Elast;
      [|apply last_None in Elast; contradiction].
    assert (Hcp : cp <> Fin 0) by (intros ->; now apply Hnz).
    destruct (weights !! i) as [w|] eqn:Ew;
      [|apply lookup_ge_None in Ew; lia].
    destruct (single_stock_run probit trials days
                (calculate_log_returns opens) cp
                (fmul initial_investment w) g Hdays Hcp)
      as (s & Hrun & _).
    destruct (IH (S i) (advance g (days * trials)) ltac:(lia))
      as (rs & Hrs & Hrslen & Hturns).
    exists (mkStockRun cp w s :: rs). split; [|split].
    + cbn [simulate_stocks]. unfold bind, py_last, py_index.
      rewrite Elast, Ew. unfold ret. rewrite Hrun, Hrs.
      rewrite advance_advance. reflexivity.
    + cbn [length]. now rewrite Hrslen.
    + intros [|j] o Hj.
      * cbn in Hj. injection Hj as <-. eexists. split; [reflexivity|].
        cbn [sr_price sr_weight sr_locals].
        split; [exact Elast|]. split; [exact Hcp|].
        split; [now rewrite Nat.add_0_r|].
        rewrite advance_zero.
        replace (1 * (days * trials))%nat with (days * trials)%nat by lia.
        exact Hrun.
      * cbn in Hj. destruct (Hturns j o Hj) as (r & Hr & Hl & Hz & Hw & Hcall).
        exists r. split; [exact Hr|]. split; [exact Hl|]. split; [exact Hz|].
        split; [now replace (i + S j)%nat with (S i + j)%nat by lia|].
        rewrite !advance_advance in Hcall. exact Hcall.
Qed.

End PortfolioDraws.

Section PortfolioDrawsClaim.

Lemma mixed_radix (a b a' b' m : nat) :
  (b < m)%nat -> (b' < m)%nat -> (a * m + b = a' * m + b')%nat ->
  a = a' /\ b = b'.
Proof.
  intros Hb Hb' E.
  destruct (Nat.lt_trichotomy a a') as [H|[H|H]].
  - pose proof (Nat.mul_le_mono_r (S a) a' m H). simpl in *. lia.
  - subst a'. split; [reflexivity|lia].
  - pose proof (Nat.mul_le_mono_r (S a') a m H). simpl in *. lia.
Qed.

(** X13. A portfolio run that returns consumes
    (number of stocks) * days * trials draws, and the stocks use disjoint
    blocks of the stream: Z[t][k] of stock j is norm.ppf of the draw at
    position j*days*trials + t*trials + k, and two different triples
    (j, t, k) never share a position. *)
Theorem portfolio_draws (probit : R -> R)
    (stock_files : list (list npfloat)) (weights : list npfloat)
    (trials days : nat) (initial_investment : npfloat) (g : rng) :
  (1 <= days)%nat ->
  Forall has_price stock_files ->
  (length stock_files <= length weights)%nat ->
  exists (p : portfolio) (rs : list stock_run),
    monte_carlo_simulation_portfolio probit stock_files weights trials days
      initial_investment g
    = Ok p (advance g (length stock_files * (days * trials))) /\
    simulate_stocks probit weights trials days initial_investment 0
      stock_files g
    = Ok rs (advance g (length stock_files * (days * trials))) /\
    length rs = length stock_files /\
    (forall j r t k, rs !! j = Some r -> (t < days)%nat -> (k < trials)%nat ->
       Np.get (Z (sr_locals r)) t k
       = Some (norm_ppf probit
                 (Fin (draws g (pos g + j * (days * trials)
                                + t * trials + k)%nat)))) /\
    (forall j t k j' t' k',
        (t < days)%nat -> (k < trials)%nat ->
        (t' < days)%nat -> (k' < trials)%nat ->
        (j * (days * trials) + t * trials + k
         = j' * (days * trials) + t' * trials + k')%nat ->
        j = j' /\ t = t' /\ k = k').
Proof.
  intros Hdays Hprices Hlen.
  destruct (simulate_stocks_positions probit weights trials days
              initial_investment stock_files 0 g Hdays Hprices Hlen)
    as (rs & Hrs & Hrslen & Hturns).
  destruct (portfolio_run probit trials days initial_investment Hdays
              stock_files weights g Hprices Hlen)
    as (p & g' & rs' & Hrun & Hrs' & _).
  rewrite Hrs in Hrs'. injection Hrs' as <- <-.
  exists p, rs. split; [exact Hrun|]. split; [exact Hrs|].
  split; [exact Hrslen|]. split.
  - intros j r t k Hr Ht Hk.
    destruct (lookup_lt_is_Some_2 stock_files j) as [opens Hopens].
    { apply lookup_lt_Some in Hr. lia. }
    destruct (Hturns j opens Hopens) as (r' & Hr' & _ & Hz & _ & Hcall).
    rewrite Hr in Hr'. injection Hr' as <-.
    destruct (single_stock_run probit trials days
                (calculate_log_returns opens) (sr_price r)
                (fmul initial_investment (sr_weight r))
                (advance g (j * (days * trials))) Hdays Hz)
      as (s & Hcall' & HZ & _).
    rewrite Hcall in Hcall'. injection Hcall' as <-.
    rewrite (Z_entry probit trials days _ _ HZ t k Ht Hk).
    reflexivity.
  - intros j t k j' t' k' Ht Hk Ht' Hk' E.
    assert (Hb : (t * trials + k < days * trials)%nat).
    { pose proof (Nat.mul_le_mono_r (S t) days trials Ht). simpl in *. lia. }
    assert (Hb' : (t' * trials + k' < days * trials)%nat).
    { pose proof (Nat.mul_le_mono_r (S t') days trials Ht'). simpl in *. lia. }
    destruct (mixed_radix j (t * trials + k) j' (t' * trials + k')
                (days * trials) Hb Hb' ltac:(lia)) as [-> E'].
    split; [reflexivity|].
    exact (mixed_radix t k t' k' trials Hk Hk' E').
Qed.

Lemma portfolio_draws_witness :
  exists (p : portfolio) (rs : list stock_run),
    monte_carlo_simulation_portfolio (fun _ => 0)
      [[Fin 1; Fin 2]; [Fin 100; Fin 100]] [Fin (2 / 5); Fin (3 / 5)]
      2 3 (Fin 1000) (mkRng (fun _ => 1 / 2) 0)
    = Ok p (advance (mkRng (fun _ => 1 / 2) 0) (2 * (3 * 2))) /\
    length rs = 2%nat.
Proof.
  destruct (portfolio_draws (fun _ => 0)
              [[Fin 1; Fin 2]; [Fin 100; Fin 100]]
              [Fin (2 / 5); Fin (3 / 5)] 2 3 (Fin 1000)
              (mkRng (fun _ => 1 / 2) 0))
    as (p & rs & Hrun & _ & Hlen & _).
  - lia.
  - prices_ok.
  - simpl. lia.
  - exists p, rs. split; [exact Hrun|exact Hlen].
Defined.

End PortfolioDrawsClaim.

(** ** The average returns of the stocks *)

Section AverageReturns.

(** The price paths and the percentage returns of a call do not depend on
    the amount invested. *)
Lemma single_stock_investment_irrelevant (probit : R -> R)
    (trials days : nat) (log_returns : array1)
    (current_price a a' : npfloat) (g : rng) (s s' : single_stock)
    (g1 g1' : rng) :
  (1 <= days)%nat -> current_price <> Fin 0 ->
  monte_carlo_simulation_single_stock probit trials days log_returns
    current_price a g = Ok s g1 ->
  monte_carlo_simulation_single_stock probit trials days log_returns
    current_price a' g = Ok s' g1' ->
  price_paths s = price_paths s' /\
  individual_stock_returns s = individual_stock_returns s'.
Proof.
  intros Hdays Hprice Hrun Hrun'.
  destruct (single_stock_run probit trials days log_returns current_price
              a g Hdays Hprice)
    as (t & Ht & HZ & Hdr & Hpaths & Hlast & _ & Hisr).
  rewrite Hrun in Ht. injection Ht as <- _.
  destruct (single_stock_run probit trials days log_returns current_price
              a' g Hdays Hprice)
    as (t' & Ht' & HZ' & Hdr' & Hpaths' & Hlast' & _ & Hisr').
  rewrite Hrun' in Ht'. injection Ht' as <- _.
  assert (HP : price_paths s = price_paths s').
  { rewrite Hpaths, Hpaths', Hdr, Hdr', HZ, HZ'. reflexivity. }
  split; [exact HP|].
  rewrite HP, Hlast' in Hlast. injection Hlast as Hfinal.
  now rewrite Hisr, Hisr', Hfinal.
Qed.

(** X14. portfolio_returns holds one entry per stock, the mean of that
    stock's percentage returns over the trials, and it does not depend on
    the weights nor on the initial investment: two runs from the same
    generator on the same files give the same portfolio_returns. *)
Theorem portfolio_returns_unweighted (probit : R -> R)
    (stock_files : list (list npfloat)) (weights weights' : list npfloat)
    (trials days : nat) (initial_investment initial_investment' : npfloat)
    (g : rng) :
  (1 <= days)%nat ->
  Forall has_price stock_files ->
  (length stock_files <= length weights)%nat ->
  (length stock_files <= length weights')%nat ->
  exists (p p' : portfolio) (g' : rng) (rs : list stock_run),
    monte_carlo_simulation_portfolio probit stock_files weights trials days
      initial_investment g = Ok p g' /\
    monte_carlo_simulation_portfolio probit stock_files weights' trials days
      initial_investment' g = Ok p' g' /\
    simulate_stocks probit weights trials days initial_investment 0
      stock_files g = Ok rs g' /\
    length (portfolio_returns p) = length stock_files /\
    portfolio_returns p
    = map (fun r => Np.mean (individual_stock_returns (sr_locals r))) rs /\
    portfolio_returns p' = portfolio_returns p.
Proof.
  intros Hdays Hprices Hlen Hlen'.
  destruct (simulate_stocks_positions probit weights trials days
              initial_investment stock_files 0 g Hdays Hprices Hlen)
    as (rs & Hrs & Hrslen & Hturns).
  destruct (simulate_stocks_positions probit weights' trials days
              initial_investment' stock_files 0 g Hdays Hprices Hlen')
    as (rs' & Hrs' & Hrslen' & Hturns').
  destruct (portfolio_run probit trials days initial_investment Hdays
              stock_files weights g Hprices Hlen)
    as (p & g1 & rs1 & Hrun & Hrs1 & _).
  destruct (portfolio_run probit trials days initial_investment' Hdays
              stock_files weights' g Hprices Hlen')
    as (p' & g1' & rs1' & Hrun' & Hrs1' & _).
  rewrite Hrs in Hrs1. injection Hrs1 as <- <-.
  rewrite Hrs' in Hrs1'. injection Hrs1' as <- <-.
  assert (Hret : forall q ws ii qs,
             monte_carlo_simulation_portfolio probit stock_files ws trials
               days ii g
             = Ok q (advance g (length stock_files * (days * trials))) ->
             simulate_stocks probit ws trials days ii 0 stock_files g
             = Ok qs (advance g (length stock_files * (days * trials))) ->
             portfolio_returns q
             = map (fun r => Np.mean (individual_stock_returns (sr_locals r)))
                 qs).
  { intros q ws ii qs Hq Hqs.
    unfold monte_carlo_simulation_portfolio, bind in Hq.
    rewrite portfolio_loop_view, Hqs in Hq. cbn [fst snd] in Hq.
    destruct (py_last _ _) in Hq; [|discriminate].
    unfold ret in Hq. injection Hq as <- _. reflexivity. }
  exists p, p', (advance g (length stock_files * (days * trials))), rs.
  split; [exact Hrun|]. split; [exact Hrun'|]. split; [exact Hrs|].
  rewrite (Hret p weights initial_investment rs Hrun Hrs).
  rewrite (Hret p' weights' initial_investment' rs' Hrun' Hrs').
  split; [now rewrite length_map|]. split; [reflexivity|].
  apply list_eq. intros j. rewrite !lookup_map.
  destruct (stock_files !! j) as [opens|] eqn:Ej.
  - destruct (Hturns j opens Ej) as (r & Hr & Hl & Hz & _ & Hcall).
    destruct (Hturns' j opens Ej) as (r' & Hr' & Hl' & _ & _ & Hcall').
    rewrite Hr, Hr'. cbn [fmap option_fmap option_map]. do 2 f_equal.
    rewrite Hl in Hl'. injection Hl' as Hprice. rewrite <- Hprice in Hcall'.
    now destruct (single_stock_investment_irrelevant probit trials days
                    _ _ _ _ _ _ _ _ _ Hdays Hz Hcall' Hcall).
  - apply lookup_ge_None in Ej.
    rewrite (proj2 (lookup_ge_None rs j)) by lia.
    rewrite (proj2 (lookup_ge_None rs' j)) by lia. reflexivity.
Qed.

Lemma portfolio_returns_unweighted_witness :
  exists (p p' : portfolio) (g' : rng),
    monte_carlo_simulation_portfolio (fun _ => 0)
      [[Fin 1; Fin 2]; [Fin 100; Fin 100]] [Fin (2 / 5); Fin (3 / 5)]
      2 3 (Fin 1000) (mkRng (fun _ => 1 / 2) 0) = Ok p g' /\
    monte_carlo_simulation_portfolio (fun _ => 0)
      [[Fin 1; Fin 2]; [Fin 100; Fin 100]] [Fin 1; Fin 0; Fin 7]
      2 3 (Fin 5) (mkRng (fun _ => 1 / 2) 0) = Ok p' g' /\
    portfolio_returns p' = portfolio_returns p.
Proof.
  destruct (portfolio_returns_unweighted (fun _ => 0)
              [[Fin 1; Fin 2]; [Fin 100; Fin 100]]
              [Fin (2 / 5); Fin (3 / 5)] [Fin 1; Fin 0; Fin 7] 2 3
              (Fin 1000) (Fin 5) (mkRng (fun _ => 1 / 2) 0))
    as (p & p' & g' & rs & Hrun & Hrun' & _ & _ & _ & Heq).
  - lia.
  - prices_ok.
  - simpl. lia.
  - simpl. lia.
  - exists p, p', g'. split; [exact Hrun|]. split; [exact Hrun'|exact Heq].
Defined.

End AverageReturns.

(** ** When a portfolio run returns *)

Section PortfolioReturns.

Variable probit : R -> R.
Variable weights : list npfloat.
Variables trials days : nat.
Variable initial_investment : npfloat.

(** If the turns of the loop complete, every price list ends in a non-zero
    price, every stock has a weight, and (when there is a stock) there is at
    least one day. *)
Lemma simulate_stocks_Ok_inv (stock_files : list (list npfloat)) (i : nat)
    (g : rng) (rs : list stock_run) (g' : rng) :
  (i <= length weights)%nat ->
  simulate_stocks probit weights trials days initial_investment i
    stock_files g = Ok rs g' ->
  Forall has_price stock_files /\
  (i + length stock_files <= length weights)%nat /\
  (stock_files <> [] -> (1 <= days)%nat).
Proof.
  revert i g rs g'.
  induction stock_files as [|opens rest IH]; intros i g rs g' Hi H.
  - split; [constructor|]. split; [simpl; lia|]. intros E. contradiction.
  - cbn [simulate_stocks] in H. unfold bind, py_last, py_index in H.
    destruct (last opens) as [cp|] eqn:Elast; [|discriminate].
    unfold ret in H.
    destruct (weights !! i) as [w|] eqn:Ew; [|discriminate].
    destruct (monte_carlo_simulation_single_stock probit trials days
                (calculate_log_returns opens) cp (fmul initial_investment w)
                g) as [s g1|e] eqn:Hcall; [|discriminate].
    destruct (simulate_stocks probit weights trials days initial_investment
                (S i) rest g1) as [rs1 g2|e] eqn:Hrest; [|discriminate].
    apply lookup_lt_Some in Ew.
    destruct (IH (S i) g1 rs1 g2 ltac:(lia) Hrest) as (Hprices & Hlen & _).
    assert (Hdays : (1 <= days)%nat).
    { destruct days as [|d]; [|lia].
      rewrite single_stock_no_day in Hcall. discriminate. }
    assert (Hcp : cp <> Fin 0).
    { intros ->.
      rewrite single_stock_zero_price in Hcall by assumption. discriminate. }
    split; [|split].
    + constructor; [|exact Hprices]. split.
      * intros ->. discriminate.
      * rewrite Elast. intros E. injection E as E. now apply Hcp.
    + cbn [length]. lia.
    + intros _. exact Hdays.
Qed.

End PortfolioReturns.

Section PortfolioReturnsClaims.

(** X15. The portfolio function returns exactly when there is at least one
    day, every price list is non-empty and ends in a non-zero price, and
    there are at least as many weights as stocks; in every other case it
    raises. *)
Theorem portfolio_returns_iff (probit : R -> R)
    (stock_files : list (list npfloat)) (weights : list npfloat)
    (trials days : nat) (initial_investment : npfloat) (g : rng) :
  ((exists (p : portfolio) (g' : rng),
       monte_carlo_simulation_portfolio probit stock_files weights trials
         days initial_investment g = Ok p g')
   <-> (1 <= days)%nat /\ Forall has_price stock_files /\
       (length stock_files <= length weights)%nat) /\
  (~ ((1 <= days)%nat /\ Forall has_price stock_files /\
      (length stock_files <= length weights)%nat) ->
   exists e : exn,
     monte_carlo_simulation_portfolio probit stock_files weights trials
       days initial_investment g = Raise e).
Proof.
  assert (Hiff : (exists (p : portfolio) (g' : rng),
                     monte_carlo_simulation_portfolio probit stock_files
                       weights trials days initial_investment g = Ok p g')
                 <-> (1 <= days)%nat /\ Forall has_price stock_files /\
                     (length stock_files <= length weights)%nat).
  { split.
    - intros (p & g' & Hrun).
      unfold monte_carlo_simulation_portfolio, bind in Hrun.
      rewrite portfolio_loop_view in Hrun.
      destruct (simulate_stocks probit weights trials days initial_investment
                  0 stock_files g) as [rs g1|e] eqn:Hrs; [|discriminate].
      destruct (simulate_stocks_Ok_inv probit weights trials days
                  initial_investment stock_files 0 g rs g1 ltac:(lia) Hrs)
        as (Hprices & Hlen & _).
      split; [|split; [exact Hprices|exact Hlen]].
      cbn [fst] in Hrun. unfold py_last in Hrun.
      destruct (last _) as [row|] eqn:Elast in Hrun; [|discriminate].
      apply last_Some_elem_of, list_elem_of_lookup_1 in Elast as [t Ht].
      apply lookup_lt_Some in Ht.
      rewrite length_foldl_iadd in Ht. unfold Np.zeros in Ht.
      rewrite length_replicate in Ht. lia.
    - intros (Hdays & Hprices & Hlen).
      destruct (portfolio_run probit trials days initial_investment Hdays
                  stock_files weights g Hprices Hlen)
        as (p & g' & _ & Hrun & _).
      eauto. }
  split; [exact Hiff|].
  intros Hnot.
  destruct (monte_carlo_simulation_portfolio probit stock_files weights
              trials days initial_investment g) as [p g'|e] eqn:Hrun.
  - exfalso. apply Hnot, Hiff. eauto.
  - eauto.
Qed.

(** X16. A portfolio without stocks: with at least one day the function
    returns a grid of zeros, no average return and final portfolio values
    that are all 0, and it consumes no draw; without a day it raises
    IndexError (at portfolio_values[-1, :]). *)
Theorem empty_portfolio (probit : R -> R) (weights : list npfloat)
    (trials days : nat) (initial_investment : npfloat) (g : rng) :
  ((1 <= days)%nat ->
   monte_carlo_simulation_portfolio probit [] weights trials days
     initial_investment g
   = Ok (mkPortfolio (Np.zeros days trials) [] (replicate trials (Fin 0))) g)
  /\
  (days = 0%nat ->
   monte_carlo_simulation_portfolio probit [] weights trials days
     initial_investment g = Raise IndexError).
Proof.
  split.
  - intros Hdays. unfold monte_carlo_simulation_portfolio, bind.
    cbn [portfolio_loop ret fst snd]. unfold py_last.
    assert (E : last (Np.zeros days trials) = Some (replicate trials (Fin 0))).
    { rewrite last_lookup. unfold Np.zeros. rewrite length_replicate.
      apply lookup_replicate_2. lia. }
    now rewrite E.
  - intros ->. reflexivity.
Qed.

End PortfolioReturnsClaims.

(** ** Stock symbols *)

Section Symbols.

Lemma py_split_dot_nonempty (s : string) : py_split_dot s <> [].
Proof.
  destruct s as [|c s]; [discriminate|]. cbn [py_split_dot].
  destruct (Ascii.eqb c "."); [discriminate|].
  destruct (py_split_dot s); discriminate.
Qed.

(** The first piece of a split holds no dot: splitting it again gives the
    piece itself. *)
Lemma py_split_dot_head (s h : string) (t : list string) :
  py_split_dot s = h :: t -> py_split_dot h = [h].
Proof.
  revert h t. induction s as [|c s IH]; intros h t H.
  - injection H as <- _. reflexivity.
  - cbn [py_split_dot] in H.
    destruct (Ascii.eqb c ".") eqn:Ec.
    + injection H as <- _. reflexivity.
    + destruct (py_split_dot s) as [|h' t'] eqn:Es.
      * injection H as <- _. cbn [py_split_dot]. now rewrite Ec.
      * injection H as <- _. cbn [py_split_dot].
        now rewrite Ec, (IH h' t' eq_refl).
Qed.

(** The pieces of a split, put together with dots again, are the string. *)
Lemma py_join_split_dot (s : string) :
  String.concat "." (py_split_dot s) = s.
Proof.
  induction s as [|c s IH]; [reflexivity|].
  cbn [py_split_dot]. destruct (Ascii.eqb c ".") eqn:Ec.
  - apply Ascii.eqb_eq in Ec as ->.
    destruct (py_split_dot s) as [|h t] eqn:Es;
      [now apply py_split_dot_nonempty in Es|].
    change (String.concat "." ("" :: h :: t))%string
      with (String "." (String.concat "." (h :: t))).
    now rewrite IH.
  - destruct (py_split_dot s) as [|h t] eqn:Es;
      [now apply py_split_dot_nonempty in Es|].
    destruct t as [|h2 t].
    + cbn in IH. cbn. now rewrite IH.
    + change (String.concat "." (String c h :: h2 :: t))%string
        with (String c (String.concat "." (h :: h2 :: t))).
      now rewrite IH.
Qed.

(** X17. stock_file.split(".")[0] never raises; the symbol is the part of
    the file name before its first dot (the whole name when there is none),
    so it holds no dot itself: taking the symbol of a symbol changes
    nothing.  A name such as SAF.PA.csv therefore gets the symbol SAF. *)
Theorem stock_symbol_prefix (stock_file : string) (g : rng) :
  exists symbol : string,
    stock_symbol stock_file g = Ok symbol g /\
    stock_symbol symbol g = Ok symbol g /\
    (stock_file = symbol \/
     exists rest : string,
       stock_file = (symbol +:+ String "." rest)%string) /\
    stock_symbol "SAF.PA.csv" g = Ok "SAF"%string g.
Proof.
  destruct (py_split_dot stock_file) as [|h t] eqn:Es;
    [now apply py_split_dot_nonempty in Es|].
  exists h. unfold stock_symbol.
  rewrite Es, (py_split_dot_head _ _ _ Es).
  split; [reflexivity|]. split; [reflexivity|]. split; [|reflexivity].
  pose proof (py_join_split_dot stock_file) as Hjoin.
  rewrite Es in Hjoin.
  destruct t as [|h2 t].
  - left. now symmetry.
  - right. exists (String.concat "." (h2 :: t)). now symmetry.
Qed.

End Symbols.

(** ** Plotting the price paths *)

Section Plot.

Lemma for_each_seq_ok {B} (f : nat -> M B) (P : nat -> B -> Prop) (g : rng)
    (n a : nat) :
  (forall j, (a <= j < a + n)%nat -> exists c, f j g = Ok c g /\ P j c) ->
  exists cs : list B,
    for_each f (seq a n) g = Ok cs g /\
    length cs = n /\
    (forall i, (i < n)%nat -> exists c, cs !! i = Some c /\ P (a + i)%nat c).
Proof.
  revert a. induction n as [|n IH]; intros a H.
  - exists []. split; [reflexivity|]. split; [reflexivity|]. intros i Hi. lia.
  - destruct (H a ltac:(lia)) as (c & Hc & HP).
    destruct (IH (S a)) as (cs & Hcs & Hlen & Hall).
    { intros j Hj. apply H. lia. }
    exists (c :: cs). split; [|split].
    + cbn [seq for_each]. unfold bind. rewrite Hc, Hcs. reflexivity.
    + cbn [length]. now rewrite Hlen.
    + intros [|i] Hi.
      * exists c. split; [reflexivity|]. now rewrite Nat.add_0_r.
      * destruct (Hall i ltac:(lia)) as (c' & Hc' & HP').
        exists c'. split; [exact Hc'|].
        now replace (a + S i)%nat with (S a + i)%nat by lia.
Qed.

Lemma for_each_seq_raise {B} (f : nat -> M B) (g : rng) (e : exn)
    (n a b : nat) :
  (forall j, (a <= j < b)%nat -> exists c, f j g = Ok c g) ->
  f b g = Raise e ->
  (a <= b < a + n)%nat ->
  for_each f (seq a n) g = Raise e.
Proof.
  revert a. induction n as [|n IH]; intros a Hok Hb Hrange; [lia|].
  cbn [seq for_each]. unfold bind.
  destruct (decide (a = b)) as [->|Hne].
  - now rewrite Hb.
  - destruct (Hok a ltac:(lia)) as (c & Hc). rewrite Hc.
    rewrite (IH (S a)); [reflexivity| |exact Hb|lia].
    intros j Hj. apply Hok. lia.
Qed.

(** Column j of an array whose rows have n entries: defined for j < n. *)
Lemma np_column_ok (m : array2) (n j : nat) (g : rng) :
  Forall (fun r => length r = n) m -> (j < n)%nat ->
  exists c : array1,
    np_column m j g = Ok c g /\
    length c = length m /\
    (forall t, (t < length m)%nat -> c !! t = Np.get m t j).
Proof.
  intros Hrows Hj. unfold np_column.
  destruct (mapM (fun r : array1 => r !! j) m) as [c|] eqn:E.
  - exists c. split; [reflexivity|].
    apply mapM_Some_1 in E.
    split; [symmetry; eapply Forall2_length, E|].
    intros t Ht.
    destruct (lookup_lt_is_Some_2 m t Ht) as [r Hr].
    destruct (Forall2_lookup_l _ _ _ _ _ E Hr) as (y & Hy & Hry).
    unfold Np.get. rewrite Hr, Hy. simpl. now symmetry.
  - exfalso. apply mapM_None_1, Exists_exists in E as (r & Hr & Hnone).
    apply lookup_ge_None in Hnone.
    rewrite Forall_forall in Hrows. rewrite (Hrows r Hr) in Hnone. lia.
Qed.

Lemma np_column_raise (m : array2) (n j : nat) (g : rng) :
  m <> [] -> Forall (fun r => length r = n) m -> (n <= j)%nat ->
  np_column m j g = Raise IndexError.
Proof.
  intros Hne Hrows Hj. unfold np_column.
  destruct m as [|r m]; [contradiction|].
  rewrite (proj2 (mapM_None (fun r : array1 => r !! j) (r :: m)));
    [reflexivity|].
  apply Exists_cons_hd. apply lookup_ge_None.
  apply Forall_cons in Hrows as [-> _]. exact Hj.
Qed.

(** X18. plot_stock_price_paths draws as many lines as the module-level
    [trials] says, not as many as the array has columns.  For the price paths
    of a call with [trials] columns: when the module-level value is at most
    [trials], exactly the first that many trials are plotted, each line
    holding the [days] prices of its trial; when it is larger, the function
    raises IndexError. *)
Theorem plot_uses_module_trials (probit : R -> R) (trials days : nat)
    (log_returns : array1) (current_price initial_investment : npfloat)
    (g : rng) (module_trials : nat) :
  (1 <= days)%nat ->
  current_price <> Fin 0 ->
  exists (s : single_stock) (g' : rng),
    monte_carlo_simulation_single_stock probit trials days log_returns
      current_price initial_investment g = Ok s g' /\
    ((module_trials <= trials)%nat ->
     exists lines : list array1,
       plot_stock_price_paths module_trials (price_paths s) g' = Ok lines g' /\
       length lines = module_trials /\
       (forall k, (k < module_trials)%nat ->
          exists line : array1,
            lines !! k = Some line /\
            length line = days /\
            (forall t, (t < days)%nat ->
               line !! t = Np.get (price_paths s) t k))) /\
    ((trials < module_trials)%nat ->
     plot_stock_price_paths module_trials (price_paths s) g'
     = Raise IndexError).
Proof.
  intros Hdays Hprice.
  destruct (single_stock_shape_facts probit trials days log_returns
              current_price initial_investment g Hdays Hprice)
    as (s & g' & Hrun & _ & _ & (Hlen & Hrows) & _).
  exists s, g'. split; [exact Hrun|]. split.
  - intros HT. unfold plot_stock_price_paths.
    destruct (for_each_seq_ok (np_column (price_paths s))
                (fun j c => length c = days /\
                            forall t, (t < days)%nat ->
                              c !! t = Np.get (price_paths s) t j)
                g' module_trials 0) as (lines & Hlines & Hl & Hall).
    { intros j Hj.
      destruct (np_column_ok (price_paths s) trials j g' Hrows ltac:(lia))
        as (c & Hc & Hcl & Hct).
      exists c. split; [exact Hc|]. rewrite Hlen in Hcl, Hct. now split. }
    exists lines. split; [exact Hlines|]. split; [exact Hl|].
    intros k Hk. destruct (Hall k Hk) as (c & Hc & Hcl & Hct).
    exists c. split; [exact Hc|]. now split.
  - intros HT. unfold plot_stock_price_paths.
    apply (for_each_seq_raise _ g' IndexError module_trials 0 trials).
    + intros j Hj.
      destruct (np_column_ok (price_paths s) trials j g' Hrows ltac:(lia))
        as (c & Hc & _).
      eauto.
    + apply (np_column_raise _ trials); [|exact Hrows|lia].
      intros E. rewrite E in Hlen. simpl in Hlen. lia.
    + lia.
Qed.

End Plot.

Lemma plot_uses_module_trials_witness :
  exists (s : single_stock) (g' : rng),
    monte_carlo_simulation_single_stock (fun _ => 0) 2 3 [Fin 0] (Fin 100)
      (Fin 1000) (mkRng (fun _ => 1 / 2) 0) = Ok s g' /\
    plot_stock_price_paths 100 (price_paths s) g' = Raise IndexError.
Proof.
  destruct (plot_uses_module_trials (fun _ => 0) 2 3 [Fin 0] (Fin 100)
              (Fin 1000) (mkRng (fun _ => 1 / 2) 0) 100)
    as (s & g' & Hrun & _ & Hraise).
  - lia.
  - apply Fin_nonzero. lra.
  - exists s, g'. split; [exact Hrun|]. apply Hraise. lia.
Defined.

(** ** Loading the prices *)

Section LoaderFacts.

Variable date : Type.
Variables py_strip py_lower : string -> string.
Variable py_float : string -> option npfloat.
Variable strptime : string -> option date.

Local Abbreviation load_row' :=
  (load_row date py_strip py_lower py_float strptime).
Local Abbreviation load_rows' :=
  (load_rows date py_strip py_lower py_float strptime).
Local Abbreviation load' :=
  (load_stock_data date py_strip py_lower py_float strptime).
Local Abbreviation kept := (kept_open py_strip py_lower py_float).

Lemma float_eq_zero_false (x : npfloat) :
  float_eq_zero x = false -> x <> Fin 0.
Proof.
  destruct x as [r| | |]; try discriminate. unfold float_eq_zero.
  destruct (Req_dec_T r 0); [discriminate|]. intros _. now apply Fin_nonzero.
Qed.

Lemma float_eq_zero_zero : float_eq_zero (Fin 0) = true.
Proof.
  unfold float_eq_zero. destruct (Req_dec_T 0 0); [reflexivity|contradiction].
Qed.

(** A row that loads either leaves the lists alone or appends one date and
    one price. *)
Lemma load_row_Loaded (acc acc' : list date * list npfloat)
    (row : gmap string cell) :
  load_row' acc row = Loaded acc' ->
  (kept row = None /\ acc' = acc) \/
  (exists (d : date) (x : npfloat),
      kept row = Some x /\ acc' = (fst acc ++ [d], snd acc ++ [x])).
Proof.
  unfold load_row, getitem, kept_open.
  destruct (row !! "Open"%string) as [[o|]|]; [|discriminate|discriminate].
  destruct (decide (py_strip o = ""%string));
    [intros H; injection H as <-; now left|].
  destruct (decide (py_lower o = "null"%string));
    [intros H; injection H as <-; now left|].
  destruct (py_float o) as [x|]; [|discriminate].
  destruct (float_eq_zero x); [intros H; injection H as <-; now left|].
  destruct (row !! "Date"%string) as [[d|]|]; [|discriminate|discriminate].
  destruct (strptime d) as [dv|]; [|discriminate].
  intros H. injection H as <-. right. eauto.
Qed.

Lemma load_rows_Loaded (rows : list (gmap string cell))
    (acc : list date * list npfloat) (dates : list date)
    (opens : list npfloat) :
  load_rows' rows acc = Loaded (dates, opens) ->
  opens = snd acc ++ omap kept rows /\
  (length dates + length (snd acc) = length opens + length (fst acc))%nat.
Proof.
  revert acc. induction rows as [|row rows IH]; intros acc H.
  - cbn in H. injection H as ->. cbn. rewrite app_nil_r. split; [easy|lia].
  - cbn [load_rows] in H.
    destruct (load_row' acc row) as [acc'|e] eqn:Hrow; [|discriminate].
    destruct (IH acc' H) as (Hopens & Hlen).
    apply load_row_Loaded in Hrow as [(Hk & ->)|(d & x & Hk & ->)].
    + cbn [omap list_omap]. rewrite Hk. now split.
    + cbn [omap list_omap]. rewrite Hk. cbn [fst snd] in *.
      rewrite <- app_assoc in Hopens. split; [exact Hopens|].
      rewrite !length_app in Hlen. simpl in Hlen. lia.
Qed.

Lemma length_omap_le {A B} (f : A -> option B) (l : list A) :
  (length (omap f l) <= length l)%nat.
Proof.
  induction l as [|x l IH]; [reflexivity|].
  cbn [omap list_omap]. destruct (f x); simpl; lia.
Qed.

Lemma kept_open_nonzero (row : gmap string cell) (x : npfloat) :
  kept row = Some x -> x <> Fin 0.
Proof.
  unfold kept_open.
  destruct (row !! "Open"%string) as [[o|]|]; [|discriminate|discriminate].
  destruct (decide (py_strip o = ""%string)); [discriminate|].
  destruct (decide (py_lower o = "null"%string)); [discriminate|].
  destruct (py_float o) as [y|]; [|discriminate].
  destruct (float_eq_zero y) eqn:E; [discriminate|].
  intros H. injection H as <-. now apply float_eq_zero_false.
Qed.

Lemma loaded_opens_nonzero (rows : list (gmap string cell))
    (dates : list date) (opens : list npfloat) :
  load' rows = Loaded (dates, opens) -> Forall (fun x => x <> Fin 0) opens.
Proof.
  intros H. apply load_rows_Loaded in H as (-> & _). cbn [snd app].
  apply Forall_forall. intros x Hx.
  apply list_elem_of_omap in Hx as (row & _ & Hrow).
  now apply kept_open_nonzero in Hrow.
Qed.

Lemma loaded_has_price (rows : list (gmap string cell))
    (dates : list date) (opens : list npfloat) :
  load' rows = Loaded (dates, opens) -> opens <> [] -> has_price opens.
Proof.
  intros H Hne. split; [exact Hne|]. intros Hlast.
  apply last_Some_elem_of in Hlast.
  pose proof (loaded_opens_nonzero rows dates opens H) as Hnz.
  rewrite Forall_forall in Hnz. now apply (Hnz (Fin 0)).
Qed.

(** The rows are loaded one after the other. *)
Lemma load_rows_app (rows1 rows2 : list (gmap string cell))
    (acc : list date * list npfloat) :
  load_rows' (rows1 ++ rows2) acc
  = match load_rows' rows1 acc with
    | Loaded acc' => load_rows' rows2 acc'
    | LoadError e => LoadError e
    end.
Proof.
  revert acc. induction rows1 as [|row rows1 IH]; intros acc; [reflexivity|].
  cbn [app load_rows]. destruct (load_row' acc row); [apply IH|reflexivity].
Qed.

(** A row that is kept passed the three tests on its Open. *)
Lemma kept_open_Some (row : gmap string cell) (x : npfloat) :
  kept row = Some x ->
  exists o : string,
    row !! "Open"%string = Some (Str o) /\
    py_strip o <> ""%string /\ py_lower o <> "null"%string /\
    py_float o = Some x /\ float_eq_zero x = false.
Proof.
  unfold kept_open.
  destruct (row !! "Open"%string) as [[o|]|]; [|discriminate|discriminate].
  destruct (decide (py_strip o = ""%string)) as [|Hs]; [discriminate|].
  destruct (decide (py_lower o = "null"%string)) as [|Hl]; [discriminate|].
  destruct (py_float o) as [y|] eqn:Hf; [|discriminate].
  destruct (float_eq_zero y) eqn:Hz; [discriminate|].
  intros H. injection H as <-. exists o.
  split; [reflexivity|]. split; [exact Hs|]. split; [exact Hl|].
  split; [exact Hf|exact Hz].
Qed.

(** The row that raises ends the loading, whatever follows it. *)
Lemma load_rows_raise (rows1 rows2 : list (gmap string cell))
    (row : gmap string cell) (acc : list date * list npfloat)
    (e : load_exn) :
  load' rows1 = Loaded acc ->
  load_row' acc row = LoadError e ->
  load' (rows1 ++ row :: rows2) = LoadError e.
Proof.
  unfold load_stock_data. intros Hpre Hrow.
  rewrite load_rows_app, Hpre. cbn [load_rows]. now rewrite Hrow.
Qed.

(** X19. When load_stock_data returns, the dates and the prices have the
    same length (they stay aligned), and the prices are the floats of the
    rows that are kept, in the order of the file: the rows whose Open is
    blank, "null" or zero are left out. *)
Theorem load_keeps_alignment (rows : list (gmap string cell))
    (dates : list date) (opens : list npfloat) :
  load' rows = Loaded (dates, opens) ->
  length dates = length opens /\
  opens = omap kept rows /\
  (length opens <= length rows)%nat.
Proof.
  intros H. apply load_rows_Loaded in H as (Hopens & Hlen).
  cbn [fst snd app length] in *. split; [lia|]. split; [exact Hopens|].
  rewrite Hopens. apply length_omap_le.
Qed.

(** X20. No price that load_stock_data returns is zero; so a non-empty
    loaded list is one the portfolio loop can work with, and
    initial_investment / current_price cannot raise on loaded prices. *)
Theorem load_returns_no_zero (rows : list (gmap string cell))
    (dates : list date) (opens : list npfloat) :
  load' rows = Loaded (dates, opens) ->
  Forall (fun x => x <> Fin 0) opens /\
  (opens <> [] -> has_price opens).
Proof.
  intros H. split.
  - now apply (loaded_opens_nonzero rows dates).
  - now apply (loaded_has_price rows dates).
Qed.

(** X21. A row whose Open is blank, "null" or zero is invisible: removing
    it from the file changes nothing, result or exception, as its Date is
    never read (it may be None, malformed or absent).  The dates of the rows
    around it therefore end up next to each other. *)
Theorem skipped_row_invisible (rows1 rows2 : list (gmap string cell))
    (row : gmap string cell) (o : string) :
  row !! "Open"%string = Some (Str o) ->
  py_strip o = ""%string \/ py_lower o = "null"%string \/
  py_float o = Some (Fin 0) ->
  load' (rows1 ++ row :: rows2) = load' (rows1 ++ rows2).
Proof.
  intros Ho Hskip. unfold load_stock_data. rewrite !load_rows_app.
  destruct (load_rows' rows1 ([], [])) as [acc|e]; [|reflexivity].
  cbn [load_rows].
  assert (Hrow : load_row' acc row = Loaded acc).
  { unfold load_row, getitem. rewrite Ho.
    destruct (decide (py_strip o = ""%string)); [reflexivity|].
    destruct (decide (py_lower o = "null"%string)); [reflexivity|].
    destruct Hskip as [H|[H|H]]; try contradiction.
    now rewrite H, float_eq_zero_zero. }
  now rewrite Hrow.
Qed.

(** X22. The errors of load_stock_data, for a row that follows rows which
    load.  On the Open of the row: KeyError when the column is absent,
    AttributeError when the cell is None (a short line), ValueError when the
    string is neither blank nor "null" and float() rejects it.  On the Date
    of a row that is kept: KeyError when the column is absent, TypeError
    when the cell is None, ValueError when strptime() rejects the string.
    The rows after it are not read and no partial lists are returned. *)
Theorem load_errors (rows1 rows2 : list (gmap string cell))
    (row : gmap string cell) (acc : list date * list npfloat) :
  load' rows1 = Loaded acc ->
  (row !! "Open"%string = None ->
   load' (rows1 ++ row :: rows2) = LoadError (KeyError "Open")) /\
  (row !! "Open"%string = Some PyNone ->
   load' (rows1 ++ row :: rows2) = LoadError AttributeError) /\
  (forall o, row !! "Open"%string = Some (Str o) ->
     py_strip o <> ""%string -> py_lower o <> "null"%string ->
     py_float o = None ->
     load' (rows1 ++ row :: rows2) = LoadError ValueError) /\
  (forall x, kept row = Some x -> row !! "Date"%string = None ->
     load' (rows1 ++ row :: rows2) = LoadError (KeyError "Date")) /\
  (forall x, kept row = Some x -> row !! "Date"%string = Some PyNone ->
     load' (rows1 ++ row :: rows2) = LoadError TypeError) /\
  (forall x d, kept row = Some x -> row !! "Date"%string = Some (Str d) ->
     strptime d = None ->
     load' (rows1 ++ row :: rows2) = LoadError ValueError).
Proof.
  intros Hpre.
  assert (Hkept : forall x (e : load_exn),
             kept row = Some x ->
             match row !! "Date"%string with
             | None => KeyError "Date"
             | Some PyNone => TypeError
             | Some (Str d) =>
                 match strptime d with Some _ => e | None => ValueError end
             end = e ->
             (forall d dv, row !! "Date"%string = Some (Str d) ->
                           strptime d = Some dv -> False) ->
             load_row' acc row = LoadError e).
  { intros x e Hk He Hno.
    apply kept_open_Some in Hk as (o & Ho & Hs & Hl & Hf & Hz).
    unfold load_row, getitem. rewrite Ho.
    destruct (decide (py_strip o = ""%string)); [contradiction|].
    destruct (decide (py_lower o = "null"%string)); [contradiction|].
    rewrite Hf, Hz.
    destruct (row !! "Date"%string) as [[d|]|]; [|now rewrite He..].
    destruct (strptime d) as [dv|] eqn:Hd; [|now rewrite He].
    now destruct (Hno d dv). }
  repeat split.
  - intros Ho. apply (load_rows_raise _ _ _ acc); [exact Hpre|].
    unfold load_row, getitem. now rewrite Ho.
  - intros Ho. apply (load_rows_raise _ _ _ acc); [exact Hpre|].
    unfold load_row, getitem. now rewrite Ho.
  - intros o Ho Hs Hl Hf. apply (load_rows_raise _ _ _ acc); [exact Hpre|].
    unfold load_row, getitem. rewrite Ho.
    destruct (decide (py_strip o = ""%string)); [contradiction|].
    destruct (decide (py_lower o = "null"%string)); [contradiction|].
    now rewrite Hf.
  - intros x Hk Hd. apply (load_rows_raise _ _ _ acc); [exact Hpre|].
    apply (Hkept x); [exact Hk|now rewrite Hd|].
    intros d dv H. congruence.
  - intros x Hk Hd. apply (load_rows_raise _ _ _ acc); [exact Hpre|].
    apply (Hkept x); [exact Hk|now rewrite Hd|].
    intros d dv H. congruence.
  - intros x d Hk Hd Hbad. apply (load_rows_raise _ _ _ acc); [exact Hpre|].
    apply (Hkept x); [exact Hk|now rewrite Hd, Hbad|].
    intros d' dv H H'. congruence.
Qed.

(** X23. Loaded prices and the simulation compose: if every stock file
    loads to a non-empty list of prices, there is at least one day and there
    are at least as many weights as files, the portfolio function returns
    (neither the division by the current price nor an index can raise). *)
Theorem loaded_portfolio_returns (probit : R -> R)
    (files : list (list (gmap string cell)))
    (stock_files : list (list npfloat)) (weights : list npfloat)
    (trials days : nat) (initial_investment : npfloat) (g : rng) :
  Forall2 (fun rows opens =>
             opens <> [] /\
             exists dates : list date, load' rows = Loaded (dates, opens))
    files stock_files ->
  (1 <= days)%nat ->
  (length files <= length weights)%nat ->
  exists (p : portfolio) (g' : rng),
    monte_carlo_simulation_portfolio probit stock_files weights trials days
      initial_investment g = Ok p g'.
Proof.
  intros Hload Hdays Hlen.
  assert (Hprices : Forall has_price stock_files).
  { clear Hlen. induction Hload as [|rows opens fs ss (Hne & d & H) _ IH];
      constructor; [|exact IH].
    now apply (loaded_has_price rows d). }
  destruct (portfolio_run probit trials days initial_investment Hdays
              stock_files weights g Hprices)
    as (p & g' & _ & Hrun & _).
  { now rewrite <- (Forall2_length _ _ _ Hload). }
  eauto.
Qed.

End LoaderFacts.

(** ** The example file *)

Section LoaderExample.

Local Abbreviation example_load_row :=
  (load_row string example_strip example_lower example_float
     example_strptime).
Local Abbreviation example_load_stock_data :=
  (load_stock_data string example_strip example_lower example_float
     example_strptime).

Lemma example_row_Open (d o : cell) :
  example_row d o !! "Open"%string = Some o.
Proof. reflexivity. Qed.

Lemma example_row_Date (d o : cell) :
  example_row d o !! "Date"%string = Some d.
Proof. reflexivity. Qed.

Lemma load_row_keep (date : Type) (py_strip py_lower : string -> string)
    (py_float : string -> option npfloat) (strptime : string -> option date)
    (acc : list date * list npfloat) (row : gmap string cell)
    (o d : string) (x : R) (dv : date) :
  row !! "Open"%string = Some (Str o) ->
  py_strip o <> ""%string -> py_lower o <> "null"%string ->
  py_float o = Some (Fin x) -> x <> 0 ->
  row !! "Date"%string = Some (Str d) -> strptime d = Some dv ->
  load_row date py_strip py_lower py_float strptime acc row
  = Loaded (fst acc ++ [dv], snd acc ++ [Fin x]).
Proof.
  intros Ho Hs Hl Hf Hx Hd Hdv. unfold load_row, getitem. rewrite Ho.
  destruct (decide (py_strip o = ""%string)); [contradiction|].
  destruct (decide (py_lower o = "null"%string)); [contradiction|].
  rewrite Hf. unfold float_eq_zero.
  destruct (Req_dec_T x 0); [contradiction|].
  now rewrite Hd, Hdv.
Qed.

Lemma load_row_skip (date : Type) (py_strip py_lower : string -> string)
    (py_float : string -> option npfloat) (strptime : string -> option date)
    (acc : list date * list npfloat) (row : gmap string cell) (o : string) :
  row !! "Open"%string = Some (Str o) ->
  py_strip o = ""%string \/ py_lower o = "null"%string \/
  py_float o = Some (Fin 0) ->
  load_row date py_strip py_lower py_float strptime acc row = Loaded acc.
Proof.
  intros Ho Hskip. unfold load_row, getitem. rewrite Ho.
  destruct (decide (py_strip o = ""%string)); [reflexivity|].
  destruct (decide (py_lower o = "null"%string)); [reflexivity|].
  destruct Hskip as [H|[H|H]]; try contradiction.
  now rewrite H, float_eq_zero_zero.
Qed.

(** The example file loads to two dates and two prices. *)
Lemma example_load :
  example_load_stock_data example_rows
  = Loaded (["2023-09-05"; "2023-09-08"]%string, [Fin (25 / 2); Fin 13]).
Proof.
  unfold load_stock_data, example_rows. cbn [load_rows].
  rewrite (load_row_keep string example_strip example_lower example_float
             example_strptime _ _ "12.5" "2023-09-05" (25 / 2) "2023-09-05");
    [|reflexivity|discriminate|discriminate|reflexivity|lra
     |reflexivity|reflexivity].
  rewrite (load_row_skip string example_strip example_lower example_float
             example_strptime _ _ "");
    [|reflexivity|now left].
  rewrite (load_row_skip string example_strip example_lower example_float
             example_strptime _ _ "0");
    [|reflexivity|right; right; reflexivity].
  rewrite (load_row_keep string example_strip example_lower example_float
             example_strptime _ _ "13" "2023-09-08" 13 "2023-09-08");
    [|reflexivity|discriminate|discriminate|reflexivity|lra
     |reflexivity|reflexivity].
  reflexivity.
Qed.

End LoaderExample.

Lemma load_keeps_alignment_witness :
  length ["2023-09-05"; "2023-09-08"]%string
  = length [Fin (25 / 2); Fin 13] /\
  [Fin (25 / 2); Fin 13]
  = omap (kept_open example_strip example_lower example_float) example_rows.
Proof.
  destruct (load_keeps_alignment string example_strip example_lower
              example_float example_strptime example_rows _ _ example_load)
    as (H1 & H2 & _).
  now split.
Defined.

Lemma load_returns_no_zero_witness : has_price [Fin (25 / 2); Fin 13].
Proof.
  apply (load_returns_no_zero string example_strip example_lower
           example_float example_strptime example_rows _ _ example_load).
  discriminate.
Defined.

Lemma skipped_row_invisible_witness :
  load_stock_data string example_strip example_lower example_float
    example_strptime
    ([] ++ example_row PyNone (Str "null") :: example_rows)
  = load_stock_data string example_strip example_lower example_float
      example_strptime ([] ++ example_rows).
Proof.
  apply (skipped_row_invisible string example_strip example_lower
           example_float example_strptime [] example_rows _ "null"%string).
  - reflexivity.
  - right. now left.
Defined.

Lemma load_errors_witness :
  load_stock_data string example_strip example_lower example_float
    example_strptime
    (example_rows ++ example_row (Str "2023-09-09") PyNone :: [])
  = LoadError AttributeError.
Proof.
  apply (load_errors string example_strip example_lower example_float
           example_strptime example_rows []
           (example_row (Str "2023-09-09") PyNone) _ example_load).
  reflexivity.
Defined.

Lemma loaded_portfolio_returns_witness :
  exists (p : portfolio) (g' : rng),
    monte_carlo_simulation_portfolio (fun _ => 0) [[Fin (25 / 2); Fin 13]]
      [Fin 1] 2 3 (Fin 1000) (mkRng (fun _ => 1 / 2) 0) = Ok p g'.
Proof.
  apply (loaded_portfolio_returns string example_strip example_lower
           example_float example_strptime (fun _ => 0) [example_rows]).
  - constructor; [|constructor]. split; [discriminate|].
    eexists. exact example_load.
  - lia.
  - simpl. lia.
Defined.
